(** * Kernel-time analysis scripts: log parsing, aggregation, normalisation,
      discovery and report writing

    A shallow embedding of the analysis scripts
    [analysis/analyze_kernel_time.py], [analyze_ablation_kernel_time.py],
    [calculate_end_to_end_overhead.py] and [calculate_kernel_only_overhead.py],
    followed by the properties the design note states about them.

    Conventions of the embedding:
    - text is a [string]; a character is a code point below 256 and the
      character classes [\d], [\s], [\w] and [.] are Python's on that range;
    - a Python [float] is a binary64 number ([PrimFloat.float]); [float(s)]
      and the [.3f] format are written out on its exact value;
    - a [dict] is an association list in insertion order with unique keys;
    - an exception is a result [None] of the function that raises it. *)

From Stdlib Require Import String Ascii List Bool Arith ZArith Lia.
From Stdlib Require Import Floats DecimalString Permutation Sorted QArith Qcanon.
Import ListNotations.
Local Open Scope string_scope.
Local Open Scope list_scope.
Local Open Scope nat_scope.

(** ** Text *)

Module Text.

Definition code (c : ascii) : nat := nat_of_ascii c.

Definition between (lo hi n : nat) : bool := (lo <=? n) && (n <=? hi).

(** [\d] : decimal digits. *)
Definition is_digit (c : ascii) : bool := between 48 57 (code c).

(** [\s] and [str.isspace]: tab to carriage return, the four separators
    28..31, the space, NEL and the no-break space. *)
Definition is_space (c : ascii) : bool :=
  let n := code c in
  between 9 13 n || between 28 32 n || (n =? 133) || (n =? 160).

(** [\w] : alphanumeric characters and the underscore. *)
Definition is_word (c : ascii) : bool :=
  let n := code c in
  between 48 57 n || between 65 90 n || between 97 122 n || (n =? 95)
  || (n =? 170) || (n =? 178) || (n =? 179) || (n =? 181) || (n =? 185)
  || (n =? 186) || between 188 190 n || between 192 214 n
  || between 216 246 n || between 248 255 n.

(** [.] : anything but a newline. *)
Definition is_dot (c : ascii) : bool := negb (code c =? 10).

(** [\S] *)
Definition is_nonspace (c : ascii) : bool := negb (is_space c).

(** [[\d.]] *)
Definition is_digit_or_dot (c : ascii) : bool := is_digit c || (code c =? 46).

Definition nl : string := String (ascii_of_nat 10) EmptyString.

(** [c in s] *)
Fixpoint contains_char (c : ascii) (s : string) : bool :=
  match s with
  | EmptyString => false
  | String d s' => Ascii.eqb c d || contains_char c s'
  end.

(** [s[:s.index(c)]], for a [c] that occurs in [s]. *)
Fixpoint before_char (c : ascii) (s : string) : string :=
  match s with
  | EmptyString => EmptyString
  | String d s' => if Ascii.eqb c d then EmptyString else String d (before_char c s')
  end.

(** [s.startswith(p)], with what follows the prefix. *)
Fixpoint strip_prefix (p s : string) : option string :=
  match p, s with
  | EmptyString, _ => Some s
  | String a p', String b s' => if Ascii.eqb a b then strip_prefix p' s' else None
  | String _ _, EmptyString => None
  end.

(** [p in s] for strings. *)
Fixpoint contains (p s : string) : bool :=
  match strip_prefix p s with
  | Some _ => true
  | None => match s with
            | EmptyString => false
            | String _ s' => contains p s'
            end
  end.

Fixpoint lstrip (s : string) : string :=
  match s with
  | String c s' => if is_space c then lstrip s' else s
  | EmptyString => EmptyString
  end.

Fixpoint rstrip (s : string) : string :=
  match s with
  | EmptyString => EmptyString
  | String c s' =>
      match rstrip s' with
      | EmptyString => if is_space c then EmptyString else String c EmptyString
      | t => String c t
      end
  end.

(** [s.strip()] *)
Definition strip (s : string) : string := rstrip (lstrip s).

(** Truth value of a string: non-empty. *)
Definition nonempty (s : string) : bool :=
  match s with EmptyString => false | String _ _ => true end.

(** Truth value of a variable that holds [None] or a string. *)
Definition truthy (o : option string) : bool :=
  match o with Some s => nonempty s | None => false end.

Fixpoint ends_with_rev (p s : list ascii) : bool :=
  match p, s with
  | [], _ => true
  | a :: p', b :: s' => Ascii.eqb a b && ends_with_rev p' s'
  | _ :: _, [] => false
  end.

(** [s.endswith(p)] *)
Definition ends_with (p s : string) : bool :=
  ends_with_rev (rev (list_ascii_of_string p)) (rev (list_ascii_of_string s)).

End Text.

(** ** The fragment of [re] the scripts use

    A backtracking matcher in the order of Python's: a greedy repetition
    tries the longest run first, a lazy one the shortest, an optional part is
    tried before it is left out, and the first success is the match.  The
    repetitions of the scripts' patterns all range over a character class. *)

Module Re.

Inductive re : Type :=
| Lit (p : string)                 (* literal text *)
| Plus (cls : ascii -> bool)       (* cls+ , greedy *)
| LazyStar (cls : ascii -> bool)   (* cls*? *)
| Cat (r1 r2 : re)
| Opt (r : re)                     (* (?: r )? *)
| Grp (r : re).                    (* ( r ) ; the patterns never nest groups *)

Record hit : Type := mk_hit
  { matched : string; rest : string; groups : list string }.

(** The non-empty runs of [cls] characters that start [s], longest first. *)
Fixpoint plus_runs (cls : ascii -> bool) (s : string) : list (string * string) :=
  match s with
  | String c s' =>
      if cls c
      then map (fun mr => (String c (fst mr), snd mr)) (plus_runs cls s')
             ++ [(String c EmptyString, s')]
      else []
  | EmptyString => []
  end.

(** The runs of [cls] characters that start [s], shortest (empty) first. *)
Fixpoint lazy_runs (cls : ascii -> bool) (s : string) : list (string * string) :=
  (EmptyString, s) ::
  match s with
  | String c s' =>
      if cls c
      then map (fun mr => (String c (fst mr), snd mr)) (lazy_runs cls s')
      else []
  | EmptyString => []
  end.

(** All the ways [r] matches at the start of [s], best first; [g] holds the
    groups captured so far. *)
Fixpoint run (r : re) (s : string) (g : list string) : list hit :=
  match r with
  | Lit p =>
      match Text.strip_prefix p s with
      | Some s' => [mk_hit p s' g]
      | None => []
      end
  | Plus cls => map (fun mr => mk_hit (fst mr) (snd mr) g) (plus_runs cls s)
  | LazyStar cls => map (fun mr => mk_hit (fst mr) (snd mr) g) (lazy_runs cls s)
  | Cat r1 r2 =>
      flat_map
        (fun h1 =>
           map (fun h2 => mk_hit (matched h1 ++ matched h2)%string (rest h2) (groups h2))
               (run r2 (rest h1) (groups h1)))
        (run r1 s g)
  | Opt r1 => run r1 s g ++ [mk_hit EmptyString s g]
  | Grp r1 =>
      map (fun h => mk_hit (matched h) (rest h) (groups h ++ [matched h]))
          (run r1 s g)
  end.

(** [re.match(r, s)]: the match at the start of [s]; also a pattern that
    begins with [^] under [re.search]. *)
Definition match_start (r : re) (s : string) : option hit :=
  match run r s [] with
  | h :: _ => Some h
  | [] => None
  end.

(** [re.search(r, s)]: the match at the leftmost position that has one. *)
Fixpoint search (r : re) (s : string) : option hit :=
  match match_start r s with
  | Some h => Some h
  | None =>
      match s with
      | String _ s' => search r s'
      | EmptyString => None
      end
  end.

(** [m.group(k)] for [k >= 1]. *)
Definition group (k : nat) (h : hit) : string := nth (k - 1) (groups h) EmptyString.

(** [re.sub('^' r, repl, s)] for an [r] that cannot match the empty
    string: only a match at the start of [s] is replaced. *)
Definition sub_start (r : re) (repl s : string) : string :=
  match match_start r s with
  | Some h => (repl ++ rest h)%string
  | None => s
  end.

End Re.

(** ** Python floats: [float(s)], comparison, division and the [.3f] format *)

Module PyFloat.
Import Text.

Definition digit_val (c : ascii) : N := N.of_nat (code c - 48).

(** Value of a run of decimal digits, most significant first. *)
Fixpoint digits_val (acc : N) (s : string) : N :=
  match s with
  | EmptyString => acc
  | String c s' => digits_val (10 * acc + digit_val c)%N s'
  end.

(** [int(s)] for a non-empty run of digits, as the patterns capture it. *)
Definition int_of_digits (s : string) : N := digits_val 0%N s.

(** The leading run of digits of [s] and what follows it. *)
Fixpoint span_digits (s : string) : string * string :=
  match s with
  | String c s' =>
      if is_digit c
      then let (d, r) := span_digits s' in (String c d, r)
      else (EmptyString, s)
  | EmptyString => (EmptyString, EmptyString)
  end.

(** Underscores of a numeric literal: each one stands between two digits;
    they are dropped. *)
Fixpoint drop_underscores (prev : ascii) (s : string) : option string :=
  match s with
  | EmptyString => if Ascii.eqb prev "_" then None else Some EmptyString
  | String c s' =>
      if Ascii.eqb c "_"
      then if is_digit prev then drop_underscores c s' else None
      else if Ascii.eqb prev "_" && negb (is_digit c) then None
           else option_map (String c) (drop_underscores c s')
  end.

Definition lower (c : ascii) : ascii :=
  if between 65 90 (code c) then ascii_of_nat (code c + 32) else c.

Fixpoint lower_string (s : string) : string :=
  match s with
  | EmptyString => EmptyString
  | String c s' => String (lower c) (lower_string s')
  end.

(** An optional sign: [true] for a minus. *)
Definition take_sign (s : string) : bool * string :=
  match s with
  | String c s' =>
      if Ascii.eqb c "-" then (true, s')
      else if Ascii.eqb c "+" then (false, s')
      else (false, s)
  | EmptyString => (false, s)
  end.

(** The binary64 number nearest to [(-1)^neg * m * 10^e], ties to even;
    overflow gives an infinity and underflow a zero, as [float] does. *)
Definition of_decimal (neg : bool) (m : N) (e : Z) : float :=
  match m with
  | N0 => if neg then (-0)%float else 0%float
  | Npos pm =>
      let num := match e with Zpos pe => (pm * Pos.pow 10 pe)%positive | _ => pm end in
      let den := match e with Zneg pe => Pos.pow 10 pe | _ => 1%positive end in
      SF2Prim (SFdiv prec emax (S754_finite neg num 0) (S754_finite false den 0))
  end.

(** The exponent part: [e] or [E], an optional sign, digits; it must reach
    the end of the text. *)
Definition parse_exponent (s : string) : option Z :=
  match s with
  | EmptyString => Some 0%Z
  | String c s' =>
      if Ascii.eqb (lower c) "e"
      then let (neg, s1) := take_sign s' in
           let (ds, r) := span_digits s1 in
           match ds, r with
           | String _ _, EmptyString =>
               let v := Z.of_N (int_of_digits ds) in
               Some (if neg then (- v)%Z else v)
           | _, _ => None
           end
      else None
  end.

(** A decimal literal without its sign: digits, an optional point with
    digits, at least one digit in all, an optional exponent. *)
Definition parse_decimal (neg : bool) (s : string) : option float :=
  let (ip, r1) := span_digits s in
  let (fp, r2) :=
    match r1 with
    | String c r =>
        if Ascii.eqb c "." then span_digits r else (EmptyString, r1)
    | EmptyString => (EmptyString, r1)
    end in
  if nonempty ip || nonempty fp
  then match parse_exponent r2 with
       | Some e =>
           Some (of_decimal neg (int_of_digits (ip ++ fp)%string)
                            (e - Z.of_nat (String.length fp))%Z)
       | None => None
       end
  else None.

Definition parse_inf_or_nan (neg : bool) (s : string) : option float :=
  let t := lower_string s in
  if String.eqb t "inf" || String.eqb t "infinity"
  then Some (if neg then neg_infinity else infinity)
  else if String.eqb t "nan" then Some nan
  else None.

(** [float(s)]; [None] is the [ValueError]. *)
Definition py_float (s : string) : option float :=
  match drop_underscores Ascii.zero (strip s) with
  | None => None
  | Some t =>
      let (neg, body) := take_sign t in
      match parse_inf_or_nan neg body with
      | Some x => Some x
      | None => parse_decimal neg body
      end
  end.

(** [x > 0] *)
Definition gt0 (x : float) : bool := PrimFloat.ltb 0%float x.

Definition pad3 (s : string) : string :=
  match String.length s with
  | 0 => "000"
  | 1 => "00" ++ s
  | 2 => "0" ++ s
  | _ => s
  end%string.

Definition N_to_string (n : N) : string :=
  DecimalString.NilZero.string_of_uint (N.to_uint n).

(** [m * 2^e * 1000] rounded to an integer, ties to even. *)
Definition thousandths (m : positive) (e : Z) : N :=
  match e with
  | Z0 => (Npos m * 1000)%N
  | Zpos pe => (Npos m * 1000 * Npos (Pos.pow 2 pe))%N
  | Zneg pe =>
      let d := Npos (Pos.pow 2 pe) in
      let n := (Npos m * 1000)%N in
      let q := (n / d)%N in
      let r := (n mod d)%N in
      match (2 * r ?= d)%N with
      | Gt => (q + 1)%N
      | Eq => if N.odd q then (q + 1)%N else q
      | Lt => q
      end
  end.

Definition fixed3 (neg : bool) (t : N) : string :=
  ((if neg then "-" else EmptyString)
     ++ N_to_string (t / 1000)%N ++ "." ++ pad3 (N_to_string (t mod 1000)%N))%string.

(** [f"{x:.3f}"] *)
Definition format_3f (x : float) : string :=
  match Prim2SF x with
  | S754_zero neg => fixed3 neg 0%N
  | S754_infinity neg => if neg then "-inf" else "inf"
  | S754_nan => "nan"
  | S754_finite neg m e => fixed3 neg (thousandths m e)
  end.

End PyFloat.

(** ** Dictionaries

    A [dict] keeps its keys in the order of their first insertion; an
    assignment to a key already present keeps the key's place. *)

Module Dict.

Section Defs.
Context {V : Type}.

Definition dict : Type := list (string * V).

(** [d.get(k)] *)
Fixpoint get (k : string) (d : dict) : option V :=
  match d with
  | [] => None
  | (k', v) :: d' => if String.eqb k k' then Some v else get k d'
  end.

(** [d[k] = v] *)
Fixpoint set (k : string) (v : V) (d : dict) : dict :=
  match d with
  | [] => [(k, v)]
  | (k', v') :: d' =>
      if String.eqb k k' then (k', v) :: d' else (k', v') :: set k v d'
  end.

(** [k in d] *)
Definition mem (k : string) (d : dict) : bool :=
  match get k d with Some _ => true | None => false end.

Definition keys (d : dict) : list string := map fst d.
Definition values (d : dict) : list V := map snd d.

(** [d[k] = f(d[k])] on a [defaultdict] whose missing values are [dflt]. *)
Definition update_default (dflt : V) (k : string) (f : V -> V) (d : dict) : dict :=
  set k (f (match get k d with Some v => v | None => dflt end)) d.

End Defs.
Arguments dict : clear implicits.

(** Two dictionaries that hold the same value, or none, at every key. *)
Definition same_mapping {V : Type} (d1 d2 : dict V) : Prop :=
  forall k, get k d1 = get k d2.

End Dict.

(** ** Numbers the aggregation adds up

    [sum] and [+=] work on any Python number; the scripts run them on
    floats, and the design note reads them in exact arithmetic. *)

Class Numeric (R : Type) : Type := { nzero : R; nadd : R -> R -> R }.

(** Addition without rounding. *)
Class ExactArith (R : Type) {N : Numeric R} : Prop :=
  { nadd_assoc : forall a b c : R, nadd a (nadd b c) = nadd (nadd a b) c;
    nadd_comm : forall a b : R, nadd a b = nadd b a;
    nadd_zero_l : forall a : R, nadd nzero a = a }.

#[export] Instance float_numeric : Numeric float :=
  {| nzero := 0%float; nadd := PrimFloat.add |}.

(** Counts are integers. *)
#[export] Instance nat_numeric : Numeric nat :=
  {| nzero := 0; nadd := Nat.add |}.

(** Exact arithmetic on decimal numbers: the rationals. *)
#[export] Instance Qc_numeric : Numeric Qc :=
  {| nzero := 0%Qc; nadd := Qcplus |}.

(** [sum(xs)]: the additions from left to right, from zero. *)
Definition py_sum {R : Type} {N : Numeric R} (xs : list R) : R :=
  fold_left nadd xs nzero.

(** ** Files

    The tree below the output directory.  A path is the list of the names
    from the output directory down. *)

Module FileSystem.

#[warnings="-register-all"] Inductive node : Type :=
| File (lines : list string)
| Dir (entries : list (string * node)).

Definition path : Type := list string.

Definition path_eq_dec : forall p q : path, {p = q} + {p <> q} :=
  list_eq_dec string_dec.

Fixpoint entry (name : string) (entries : list (string * node)) : option node :=
  match entries with
  | [] => None
  | (n, child) :: rest => if String.eqb name n then Some child else entry name rest
  end.

Fixpoint lookup (p : path) (n : node) : option node :=
  match p with
  | [] => Some n
  | name :: p' =>
      match n with
      | Dir entries =>
          match entry name entries with
          | Some child => lookup p' child
          | None => None
          end
      | File _ => None
      end
  end.

(** [p.exists()] *)
Definition exists_ (root : node) (p : path) : bool :=
  match lookup p root with Some _ => true | None => false end.

(** [p.name] *)
Definition name (p : path) : string := last p EmptyString.

(** The glob pattern [*.log] on a name. *)
Definition is_log (n : string) : bool := Text.ends_with ".log" n.

(** Every entry below a node, at any depth, as a path from that node. *)
Fixpoint walk (n : node) : list path :=
  match n with
  | File _ => []
  | Dir entries =>
      (fix walk_entries (es : list (string * node)) : list path :=
         match es with
         | [] => []
         | (nm, child) :: es' =>
             ([nm] :: map (cons nm) (walk child)) ++ walk_entries es'
         end) entries
  end.

(** The entries directly in a node. *)
Definition children (n : node) : list path :=
  match n with
  | File _ => []
  | Dir entries => map (fun e => [fst e]) entries
  end.

(** [dir.glob('*.log')], as paths from the output directory. *)
Definition glob_log (root : node) (dir : path) : list path :=
  match lookup dir root with
  | Some n => map (app dir) (filter (fun p => is_log (name p)) (children n))
  | None => []
  end.

(** [dir.glob('**/*.log')] *)
Definition rglob_log (root : node) (dir : path) : list path :=
  match lookup dir root with
  | Some n => map (app dir) (filter (fun p => is_log (name p)) (walk n))
  | None => []
  end.

(** [open(p)] and the lines read; [None] when the file cannot be read. *)
Definition read (root : node) (p : path) : option (list string) :=
  match lookup p root with
  | Some (File lines) => Some lines
  | _ => None
  end.

End FileSystem.

(** ** Sets and sorting

    The order in which a [set] yields its elements is not fixed by the
    language; it is a parameter here, constrained to enumerate each element
    once. [sorted] and [list.sort] are stable. *)

Module PySet.

Record iteration (A : Type) (eq_dec : forall x y : A, {x = y} + {x <> y}) : Type :=
  mk_iteration
  { elements : list A -> list A;
    elements_perm : forall l, Permutation (elements l) (nodup eq_dec l) }.
Arguments elements {A eq_dec}.
Arguments elements_perm {A eq_dec}.

End PySet.

Module PySort.

(** A sort key: an [int], or [float('inf')]. *)
Inductive key : Type := Num (n : N) | Inf.

Definition key_leb (a b : key) : bool :=
  match a, b with
  | Num x, Num y => (x <=? y)%N
  | _, Inf => true
  | Inf, Num _ => false
  end.

Section Sort.
Context {A : Type} (key_of : A -> key).

Fixpoint insert (x : A) (l : list A) : list A :=
  match l with
  | [] => [x]
  | y :: l' => if key_leb (key_of x) (key_of y) then x :: l else y :: insert x l'
  end.

(** [sorted(l, key=key_of)] *)
Definition sorted (l : list A) : list A := fold_right insert [] l.

End Sort.

End PySort.

(** ** [analysis/analyze_kernel_time.py] *)

Module KernelTime.
Import Text Re Dict.

Local Notation "r1 >> r2" := (Cat r1 r2) (at level 61, right associativity).

(** [r'Test Number:\s+(\d+)'] *)
Definition number_header : re :=
  Lit "Test Number:" >> Plus is_space >> Grp (Plus is_digit).

(** [r'Test:\s+(.+)'] *)
Definition name_header : re :=
  Lit "Test:" >> Plus is_space >> Grp (Plus is_dot).

(** [r'(test_\w+\.py::\S+)'] *)
Definition pytest_id : re :=
  Grp (Lit "test_" >> Plus is_word >> Lit ".py::" >> Plus is_nonspace).

(** [r'\[liger\]\[triton\]\s+kernel=(\S+)\s+cpu_launch_ms=[\d.]+\s+gpu_time_ms=([\d.]+)'] *)
Definition pattern1 : re :=
  Lit "[liger][triton]" >> Plus is_space >> Lit "kernel=" >> Grp (Plus is_nonspace)
  >> Plus is_space >> Lit "cpu_launch_ms=" >> Plus is_digit_or_dot
  >> Plus is_space >> Lit "gpu_time_ms=" >> Grp (Plus is_digit_or_dot).

(** [r'\[triton-profiler\]\s+kernel=(\S+)(?:\s+\[.*?\])?\s+cpu_launch_ms=[\d.]+\s+gpu_time_ms=([\d.]+)'] *)
Definition pattern2 : re :=
  Lit "[triton-profiler]" >> Plus is_space >> Lit "kernel=" >> Grp (Plus is_nonspace)
  >> Opt (Plus is_space >> Lit "[" >> LazyStar is_dot >> Lit "]")
  >> Plus is_space >> Lit "cpu_launch_ms=" >> Plus is_digit_or_dot
  >> Plus is_space >> Lit "gpu_time_ms=" >> Grp (Plus is_digit_or_dot).

(** [r'Triton-Viz:\s+execution time for\s+(\S+):\s+([\d.]+)\s+ms'] *)
Definition triton_pattern : re :=
  Lit "Triton-Viz:" >> Plus is_space >> Lit "execution time for" >> Plus is_space
  >> Grp (Plus is_nonspace) >> Lit ":" >> Plus is_space
  >> Grp (Plus is_digit_or_dot) >> Plus is_space >> Lit "ms".

(** One parsed measurement: [{'kernel': ..., 'gpu_time_ms': ...}], or with
    ['exec_time_ms'] from the triton-sanitizer parser. *)
Record measurement (R : Type) : Type := mk_measurement
  { kernel : string; time_ms : R }.
Arguments mk_measurement {R}.
Arguments kernel {R}.
Arguments time_ms {R}.

(** The local variables of a parser while it reads a file. *)
Record parser_state : Type := mk_state
  { test_name : option string;
    test_number : option string;
    results : dict (list (measurement float)) }.

Definition initial : parser_state := mk_state None None [].

(** The [Test Number:] header. *)
Definition update_number (line : string) (number : option string) : option string :=
  match search number_header line with
  | Some h => Some (group 1 h)
  | None => number
  end.

(** The [Test:] header, with the number seen so far. *)
Definition update_name (line : string) (number name : option string) : option string :=
  match search name_header line with
  | Some h =>
      let nm := strip (group 1 h) in
      if truthy number && nonempty nm
      then Some (match number with Some n => n | None => EmptyString end ++ "_" ++ nm)%string
      else Some nm
  | None => name
  end.

(** A pytest identifier anywhere on the line. *)
Definition update_pytest (line : string) (name : option string) : option string :=
  match search pytest_id line with
  | Some h => Some (group 1 h)
  | None => name
  end.

(** The metric match of the baseline and compute-sanitizer parser. *)
Definition gpu_time_match (line : string) : option hit :=
  match search pattern1 line with
  | Some h => Some h
  | None => search pattern2 line
  end.

(** The metric match of the triton-sanitizer parser. *)
Definition exec_time_match (line : string) : option hit :=
  search triton_pattern line.

(** [results[test_name].append(m)] *)
Definition append_result {R : Type} (name : string) (m : measurement R)
    (res : dict (list (measurement R))) : dict (list (measurement R)) :=
  update_default [] name (fun l => l ++ [m]) res.

(** A record as a parser emits it: the test identifier in force, the
    kernel name and the time read from the line. *)
Record log_record (R : Type) : Type := mk_record
  { test_identifier : string; kernel_name : string; metric_value : R }.
Arguments mk_record {R}.
Arguments test_identifier {R}.
Arguments kernel_name {R}.
Arguments metric_value {R}.

Definition measurement_of {R : Type} (r : log_record R) : measurement R :=
  mk_measurement (kernel_name r) (metric_value r).

(** The results a parser builds from the records it emits, in their order:
    one [results[test_name].append(...)] for each. *)
Definition group_records {R : Type} (records : list (log_record R))
    : dict (list (measurement R)) :=
  fold_left (fun res r => append_result (test_identifier r) (measurement_of r) res)
            records [].

(** A line that sets the test identifier: a [Test:] header or a pytest
    identifier. *)
Definition header_line (line : string) : bool :=
  match search name_header line, search pytest_id line with
  | None, None => false
  | _, _ => true
  end.

(** The body of the loop over the lines; [None] when [float] raises. *)
Definition number_after (line : string) (st : parser_state) : option string :=
  update_number line (test_number st).

Definition name_after (line : string) (st : parser_state) : option string :=
  update_pytest line (update_name line (number_after line st) (test_name st)).

Definition step (metric : string -> option hit) (st : parser_state) (line : string)
    : option parser_state :=
  let number := number_after line st in
  let name := name_after line st in
  match metric line, name with
  | Some h, Some nm =>
      if nonempty nm
      then match PyFloat.py_float (group 2 h) with
           | Some t =>
               Some (mk_state name number
                       (append_result nm (mk_measurement (group 1 h) t) (results st)))
           | None => None
           end
      else Some (mk_state name number (results st))
  | _, _ => Some (mk_state name number (results st))
  end.

(** The loop over the lines. *)
Fixpoint run_lines (metric : string -> option hit) (st : parser_state)
    (lines : list string) : option parser_state :=
  match lines with
  | [] => Some st
  | line :: lines' =>
      match step metric st line with
      | Some st' => run_lines metric st' lines'
      | None => None
      end
  end.

(** A parser on a file: [None] is a file that cannot be opened, otherwise
    the lines the file yields.  Both handlers return the empty dictionary. *)
Definition parse_with (metric : string -> option hit) (log_file : option (list string))
    : dict (list (measurement float)) :=
  match log_file with
  | None => []
  | Some lines =>
      match run_lines metric initial lines with
      | Some st => results st
      | None => []
      end
  end.

Definition parse_baseline_compute_sanitizer := parse_with gpu_time_match.
Definition parse_triton_sanitizer := parse_with exec_time_match.

(** The result of [calculate_totals] for one test. *)
Record total (R : Type) : Type := mk_total
  { total_ms : R;
    count : nat;
    measurements : option (list (measurement R)) (* a key only [analyze_configuration] sets *) }.
Arguments mk_total {R}.
Arguments total_ms {R}.
Arguments count {R}.
Arguments measurements {R}.

Section Totals.
Context {R : Type} {N : Numeric R}.

Definition total_of (keep : bool) (ms : list (measurement R)) : total R :=
  mk_total (py_sum (map time_ms ms)) (length ms) (if keep then Some ms else None).

(** [calculate_totals]: the loop assigns [totals[test_name]] for each
    item of [results]. *)
Definition calculate_totals (res : dict (list (measurement R))) : dict (total R) :=
  fold_left (fun totals item => set (fst item) (total_of false (snd item)) totals) res [].

(** [all_results[test_name].extend(measurements)] for each item of the
    results of one file. *)
Definition merge_results (all_results res : dict (list (measurement R)))
    : dict (list (measurement R)) :=
  fold_left
    (fun acc item => update_default [] (fst item) (fun l => l ++ snd item) acc)
    res all_results.

(** The totals [analyze_configuration] computes from the results of the
    files, with the measurements kept. *)
Definition totals_of_files (per_file : list (dict (list (measurement R))))
    : dict (total R) :=
  let all_results := fold_left merge_results per_file [] in
  fold_left
    (fun totals item => set (fst item) (total_of true (snd item)) totals)
    all_results [].

End Totals.

(** *** [find_log_files] *)

(** [r'(\d+)_'] *)
Definition file_number : re := Grp (Plus is_digit) >> Lit "_".

Definition extract_number (p : FileSystem.path) : PySort.key :=
  match search file_number (FileSystem.name p) with
  | Some h => PySort.Num (PyFloat.int_of_digits (group 1 h))
  | None => PySort.Inf
  end.

Definition path_set : Type := PySet.iteration FileSystem.path FileSystem.path_eq_dec.

(** The directory layouts tried in turn: the configuration directly under
    the output directory, or under one of the given parents. *)
Definition possible_paths (parents : list string) (config_name : string)
    : list FileSystem.path :=
  [config_name] :: map (fun parent => [parent; config_name]) parents.

Definition find_log_files_under (parents : list string) (S : path_set)
    (output_dir : FileSystem.node) (config_name : string) : list FileSystem.path :=
  match find (FileSystem.exists_ output_dir) (possible_paths parents config_name) with
  | None => []
  | Some config_path =>
      let run_log := config_path ++ ["run.log"] in
      let log_files :=
        (if FileSystem.exists_ output_dir run_log then [run_log] else [])
          ++ FileSystem.glob_log output_dir config_path
          ++ FileSystem.rglob_log output_dir config_path in
      PySort.sorted extract_number (PySet.elements S log_files)
  end.

Definition find_log_files : path_set -> FileSystem.node -> string -> list FileSystem.path :=
  find_log_files_under ["kernel_time_liger_kernel"; "kernel_time_tritonbench"].

(** *** [analyze_configuration] *)

Definition analyze_configuration (S : path_set) (output_dir : FileSystem.node)
    (config_name : string) (is_triton_sanitizer : bool) : option (dict (total float)) :=
  match find_log_files S output_dir config_name with
  | [] => None
  | log_files =>
      let parse := if is_triton_sanitizer
                   then parse_triton_sanitizer
                   else parse_baseline_compute_sanitizer in
      Some (totals_of_files (map (fun f => parse (FileSystem.read output_dir f)) log_files))
  end.

(** *** [normalize_test_name] *)

(** [r'^\d+_'] without its anchor. *)
Definition number_prefix : re := Plus is_digit >> Lit "_".

Definition cut_params (test_name : string) : string :=
  if contains_char "[" test_name then before_char "[" test_name else test_name.

Definition normalize_test_name (test_name : string) : string :=
  let test_name := cut_params test_name in
  sub_start number_prefix EmptyString test_name.

(** *** [aggregate_by_function] *)

Record aggregate (R : Type) : Type := mk_aggregate
  { agg_total_ms : R; agg_count : nat; test_variants : nat }.
Arguments mk_aggregate {R}.
Arguments agg_total_ms {R}.
Arguments agg_count {R}.
Arguments test_variants {R}.

Section Aggregate.
Context {R : Type} {N : Numeric R}.

Definition add_variant (data : total R) (a : aggregate R) : aggregate R :=
  mk_aggregate (nadd (agg_total_ms a) (total_ms data))
               (agg_count a + count data)
               (test_variants a + 1).

Definition aggregate_loop (totals_dict : dict (total R)) : dict (aggregate R) :=
  fold_left
    (fun aggregated item =>
       update_default (mk_aggregate nzero 0 0) (normalize_test_name (fst item))
                      (add_variant (snd item)) aggregated)
    totals_dict [].

(** [None] and the empty dictionary both give the empty result. *)
Definition aggregate_by_function (totals_dict : option (dict (total R)))
    : dict (aggregate R) :=
  match totals_dict with
  | None => []
  | Some d => aggregate_loop d
  end.

End Aggregate.

(** *** [export_to_csv] *)

Record csv_row : Type := mk_row
  { Test_Name : string;
    baseline_kernel_time : string;
    compute_sanitizer_kernel_time : string;
    triton_sanitizer_kernel_time : string }.

Definition name_set : Type := PySet.iteration string string_dec.

(** The first original name seen for each normalised name. *)
Definition collect_original (all_original_tests : dict string)
    (totals_dict : option (dict (total float))) : dict string :=
  match totals_dict with
  | None => all_original_tests
  | Some d =>
      fold_left
        (fun acc test_name =>
           let normalized := normalize_test_name test_name in
           if mem normalized acc then acc else set normalized test_name acc)
        (keys d) all_original_tests
  end.

(** [r'^(\d+)_'] without its anchor. *)
Definition number_prefix_group : re := Grp (Plus is_digit) >> Lit "_".

Definition extract_test_number (all_original_tests : dict string) (test_name : string)
    : PySort.key :=
  let original := match get test_name all_original_tests with
                  | Some o => o
                  | None => test_name
                  end in
  match match_start number_prefix_group original with
  | Some h => PySort.Num (PyFloat.int_of_digits (group 1 h))
  | None => PySort.Inf
  end.

(** [agg.get(test_name, {}).get('total_ms', 0.0)] *)
Definition time_or_zero (agg : dict (aggregate float)) (test_name : string) : float :=
  match get test_name agg with
  | Some a => agg_total_ms a
  | None => 0%float
  end.

(** The rows [export_to_csv] hands to the CSV writer; [None] when there is
    nothing to export. *)
Definition export_to_csv (S : name_set)
    (baseline_totals compute_totals triton_totals : option (dict (total float)))
    : option (list csv_row) :=
  let all_original_tests :=
    fold_left collect_original [baseline_totals; compute_totals; triton_totals] [] in
  let baseline_agg := aggregate_by_function baseline_totals in
  let compute_agg := aggregate_by_function compute_totals in
  let triton_agg := aggregate_by_function triton_totals in
  let all_tests :=
    PySet.elements S (keys baseline_agg ++ keys compute_agg ++ keys triton_agg) in
  match all_tests with
  | [] => None
  | _ =>
      let sorted_tests := PySort.sorted (extract_test_number all_original_tests) all_tests in
      Some (map (fun test_name =>
                   mk_row test_name
                          (PyFloat.format_3f (time_or_zero baseline_agg test_name))
                          (PyFloat.format_3f (time_or_zero compute_agg test_name))
                          (PyFloat.format_3f (time_or_zero triton_agg test_name)))
                sorted_tests)
  end.

End KernelTime.

(** ** [analyze_ablation_kernel_time.py]

    Its [parse_triton_sanitizer], [normalize_test_name] and
    [aggregate_by_function] are those of [analysis/analyze_kernel_time.py],
    line for line; [find_log_files] tries other directories. *)

Module Ablation.

Definition parse_triton_sanitizer := KernelTime.parse_triton_sanitizer.
Definition normalize_test_name := KernelTime.normalize_test_name.
Definition aggregate_by_function {R : Type} {N : Numeric R} :=
  @KernelTime.aggregate_by_function R N.

Definition find_log_files
  : KernelTime.path_set -> FileSystem.node -> string -> list FileSystem.path :=
  KernelTime.find_log_files_under ["ablation_studies"].

End Ablation.

(** ** [calculate_end_to_end_overhead.py] and [calculate_kernel_only_overhead.py] *)

Module Overhead.
Import Text Dict.

(** A row of [csv.DictReader]: column name to cell. *)
Definition row : Type := dict string.

(** The test that skips a pair before any conversion. *)
Definition unusable (sanitizer_val baseline_val : string) : bool :=
  negb (nonempty sanitizer_val) || negb (nonempty baseline_val)
  || String.eqb sanitizer_val "FAILED" || String.eqb baseline_val "FAILED"
  || contains "Block Tensor Not Supported" sanitizer_val
  || contains "Block Tensor Not Supported" baseline_val.

(** What one pair of stripped cells adds to [ratios]. *)
Definition pair_ratio (sanitizer_val baseline_val : string) : list float :=
  if unusable sanitizer_val baseline_val then []
  else
    match PyFloat.py_float sanitizer_val with
    | None => []
    | Some s =>
        match PyFloat.py_float baseline_val with
        | None => []
        | Some b => if PyFloat.gt0 b then [PrimFloat.div s b] else []
        end
    end.

(** The loop over the rows; [None] is the [KeyError] of a row that lacks
    one of the two columns. *)
Fixpoint overhead_loop (data : list row) (sanitizer_col baseline_col : string)
    (ratios : list float) : option (list float) :=
  match data with
  | [] => Some ratios
  | r :: data' =>
      match get sanitizer_col r, get baseline_col r with
      | Some sv, Some bv =>
          overhead_loop data' sanitizer_col baseline_col
                        (ratios ++ pair_ratio (strip sv) (strip bv))
      | _, _ => None
      end
  end.

Definition calculate_overhead (data : list row) (sanitizer_col baseline_col : string)
    : option (list float) :=
  overhead_loop data sanitizer_col baseline_col [].

(** The same function under its name in [calculate_kernel_only_overhead.py]. *)
Definition calculate_kernel_overhead := calculate_overhead.

End Overhead.

(** ** [print_results]: the name shown for a test *)

Module Report.

(** [s[:n]] *)
Fixpoint take (n : nat) (s : string) : string :=
  match n, s with
  | S n', String c s' => String c (take n' s')
  | _, _ => EmptyString
  end.

(** [s[n:]] *)
Fixpoint drop (n : nat) (s : string) : string :=
  match n, s with
  | S n', String _ s' => drop n' s'
  | _, _ => s
  end.

(** The name [print_results] prints: names over 60 characters are cut to
    57 and marked with three dots. *)
Definition display_name (test_name : string) : string :=
  if 60 <? String.length test_name
  then (take 57 test_name ++ "...")%string
  else test_name.

End Report.

(** ** [analyze_memory_usage.py]: [extract_memory_usage] *)

Module MemoryUsage.
Import Text Re.

Local Notation "r1 >> r2" := (Cat r1 r2) (at level 61, right associativity).

(** [r'Maximum resident set size \(kbytes\):\s*(\d+)']; the greedy [\s*] is
    a run of spaces, longest first, or nothing. *)
Definition memory_pattern : re :=
  Lit "Maximum resident set size (kbytes):" >> Opt (Plus is_space) >> Grp (Plus is_digit).

(** [int(s)] of a run of digits.  It raises [ValueError] when the run is
    longer than [sys.get_int_max_str_digits()], which is 4300 by default
    from Python 3.11 on; [max_str_digits = None] stands for an interpreter
    without the limit. *)
Definition py_int (max_str_digits : option nat) (ds : string) : option N :=
  match max_str_digits with
  | Some m =>
      if m <? String.length ds then None else Some (PyFloat.int_of_digits ds)
  | None => Some (PyFloat.int_of_digits ds)
  end.

(** The content is [None] when the file cannot be read.  Every exception,
    that of [int] included, is caught, and [None] is returned. *)
Definition extract_memory_usage (max_str_digits : option nat) (content : option string)
    : option N :=
  match content with
  | None => None
  | Some text =>
      match search memory_pattern text with
      | Some h => py_int max_str_digits (group 1 h)
      | None => None
      end
  end.

End MemoryUsage.

(** ** [analyze_ablation_kernel_time.py]: totals per file, names, export *)

Module AblationReport.
Import Text Re.

Local Notation "r1 >> r2" := (Cat r1 r2) (at level 61, right associativity).

(** A dictionary keyed by file number. *)
Definition file_dict (V : Type) : Type := list (N * V).

Fixpoint fget {V : Type} (k : N) (d : file_dict V) : option V :=
  match d with
  | [] => None
  | (k', v) :: d' => if N.eqb k k' then Some v else fget k d'
  end.

Fixpoint fset {V : Type} (k : N) (v : V) (d : file_dict V) : file_dict V :=
  match d with
  | [] => [(k, v)]
  | (k', v') :: d' => if N.eqb k k' then (k', v) :: d' else (k', v') :: fset k v d'
  end.

(** [r'^(\d+)_(.+)\.log$'] without its anchors. *)
Definition file_name_pattern : re :=
  Grp (Plus is_digit) >> Lit "_" >> Grp (Plus is_dot) >> Lit ".log".

(** Where [$] matches: at the end, or before a newline that ends the text. *)
Definition at_end (s : string) : bool := String.eqb s EmptyString || String.eqb s nl.

(** [re.search('^' r '$', s)]: the first way to match [r] at the start of
    [s] that stops where [$] matches. *)
Definition match_whole (r : re) (s : string) : option hit :=
  find (fun h => at_end (rest h)) (run r s []).

Record file_total : Type := mk_file_total
  { file_name : string; total_ms : float; count : nat }.

(** The two nested loops that add up the times of one file. *)
Definition sum_measurements (results : Dict.dict (list (KernelTime.measurement float)))
    : float * nat :=
  fold_left
    (fun acc item =>
       fold_left (fun acc m => (PrimFloat.add (fst acc) (KernelTime.time_ms m), snd acc + 1))
                 (snd item) acc)
    results (0%float, 0).

(** The loop of [analyze_configuration] over the log files, each given with
    what reading it yields. *)
Definition analyze_files (log_files : list (string * option (list string)))
    : file_dict file_total :=
  fold_left
    (fun file_totals f =>
       match match_whole file_name_pattern (fst f) with
       | None => file_totals
       | Some h =>
           let file_number := PyFloat.int_of_digits (group 1 h) in
           let base_name := group 2 h in
           let sums := sum_measurements (Ablation.parse_triton_sanitizer (snd f)) in
           fset file_number (mk_file_total base_name (fst sums) (snd sums)) file_totals
       end)
    log_files [].

Definition analyze_configuration (S : KernelTime.path_set) (output_dir : FileSystem.node)
    (config_name : string) : option (file_dict file_total) :=
  match Ablation.find_log_files S output_dir config_name with
  | [] => None
  | log_files =>
      Some (analyze_files
              (map (fun p => (FileSystem.name p, FileSystem.read output_dir p)) log_files))
  end.

(** [format_test_name] *)

Definition repos : list string := ["liger_kernel"; "flag_gems"; "tritonbench"].

(** The first known repository whose name and an underscore start the
    file name, with the remainder of the file name. *)
Fixpoint find_repo (rs : list string) (file_name : string) : option (string * string) :=
  match rs with
  | [] => None
  | r :: rs' =>
      match strip_prefix (r ++ "_") file_name with
      | Some remainder => Some (r, remainder)
      | None => find_repo rs' file_name
      end
  end.

(** The [while] loop that records where [test_] starts: [i] is the index of
    the first character of [s], and [skip] the number of characters still
    to pass over after a find. *)
Fixpoint test_positions (i skip : nat) (s : string) : list nat :=
  match s with
  | EmptyString => []
  | String _ s' =>
      match skip with
      | S k => test_positions (S i) k s'
      | O =>
          match strip_prefix "test_" s with
          | Some _ => i :: test_positions (S i) 4 s'
          | None => test_positions (S i) 0 s'
          end
      end
  end.

Definition format_test_name (file_name : string) : string :=
  match find_repo repos file_name with
  | None => file_name
  | Some (repo, remainder) =>
      if String.eqb repo "tritonbench" then (repo ++ "/" ++ remainder)%string
      else
        match test_positions 0 0 remainder with
        | [] | [_] => (repo ++ "/" ++ remainder)%string
        | positions =>
            let split_pos := last positions 0 in
            let test_file := Report.take (split_pos - 1) remainder in
            let test_func := Report.drop split_pos remainder in
            (repo ++ "/" ++ test_file ++ "/" ++ test_func)%string
        end
  end.

(** [export_to_csv] *)

Definition config_names : list string :=
  ["no_cache"; "symbol_only"; "symbol_loop"; "symbol_loop_grid"; "all_cache"].

(** The results handed to the export: a configuration may be missing, or
    present with [None] when it had no log files. *)
Definition config_results : Type := Dict.dict (option (file_dict file_total)).

Definition number_set : Type := PySet.iteration N N.eq_dec.

(** A row: the test name, then for each configuration its column
    [ablation_kernel_time_<name>] and cell. *)
Record csv_row : Type := mk_row { Test_Name : string; cells : list (string * string) }.

(** What the export does: it raises, or returns with or without rows. *)
Inductive outcome : Type :=
| Raised
| Returned (rows : option (list csv_row)).

(** The numbers of all the files of all the configurations. *)
Definition all_file_numbers (results : config_results) : list N :=
  flat_map
    (fun config_name =>
       match Dict.get config_name results with
       | Some (Some file_totals) => map fst file_totals
       | _ => []
       end)
    config_names.

(** The loop that looks for the name of a file; [None] when testing
    membership in [None] raises. *)
Fixpoint first_file_name (results : config_results) (names : list string) (file_number : N)
    : option (option string) :=
  match names with
  | [] => Some None
  | config_name :: names' =>
      match Dict.get config_name results with
      | Some None => None
      | Some (Some file_totals) =>
          match fget file_number file_totals with
          | Some ft => Some (Some (file_name ft))
          | None => first_file_name results names' file_number
          end
      | None => first_file_name results names' file_number
      end
  end.

(** The loop that fills the cells of a row; [None] when [.get] is called on
    [None]. *)
Fixpoint row_cells (results : config_results) (names : list string) (file_number : N)
    : option (list (string * string)) :=
  match names with
  | [] => Some []
  | config_name :: names' =>
      match Dict.get config_name results with
      | Some None => None
      | found =>
          let file_totals := match found with Some (Some d) => d | _ => [] end in
          let time_ms := match fget file_number file_totals with
                         | Some ft => total_ms ft
                         | None => 0%float
                         end in
          match row_cells results names' file_number with
          | Some cs =>
              Some (("ablation_kernel_time_" ++ config_name, PyFloat.format_3f time_ms)%string
                      :: cs)
          | None => None
          end
      end
  end.

(** The loop over the sorted file numbers. *)
Fixpoint export_rows (results : config_results) (numbers : list N)
    : option (list csv_row) :=
  match numbers with
  | [] => Some []
  | file_number :: numbers' =>
      match first_file_name results config_names file_number with
      | None => None
      | Some None => export_rows results numbers'
      | Some (Some name) =>
          match row_cells results config_names file_number with
          | None => None
          | Some cs =>
              match export_rows results numbers' with
              | Some rows => Some (mk_row (format_test_name name) cs :: rows)
              | None => None
              end
          end
      end
  end.

Definition export_to_csv (S : number_set) (results : config_results) : outcome :=
  match PySet.elements S (all_file_numbers results) with
  | [] => Returned None
  | numbers =>
      match export_rows results (PySort.sorted PySort.Num numbers) with
      | Some rows => Returned (Some rows)
      | None => Raised
      end
  end.

End AblationReport.

(** ** Vocabulary of the statements *)

(** The measurements of the records filed under [k], in their order. *)
Definition measurements_for {R : Type} (k : string) (l : list (KernelTime.log_record R))
    : list (KernelTime.measurement R) :=
  map KernelTime.measurement_of
      (filter (fun r => String.eqb k (KernelTime.test_identifier r)) l).

(** Some record is filed under [k]. *)
Definition mentions {R : Type} (k : string) (l : list (KernelTime.log_record R)) : bool :=
  existsb (fun r => String.eqb k (KernelTime.test_identifier r)) l.

Definition or_empty {A : Type} (o : option (list A)) : list A :=
  match o with Some ms => ms | None => [] end.

(** The stored test number is absent or has at least one character. *)
Definition number_ok (o : option string) : Prop :=
  match o with Some n => Text.nonempty n = true | None => True end.

(** Order of two elements by their sort keys. *)
Definition key_le {A : Type} (key_of : A -> PySort.key) (x y : A) : Prop :=
  PySort.key_leb (key_of x) (key_of y) = true.

(** An iteration order for sets: the order of first insertion. *)
Definition first_seen {A : Type} (eq_dec : forall x y : A, {x = y} + {x <> y})
    : PySet.iteration A eq_dec :=
  PySet.mk_iteration A eq_dec (nodup eq_dec) (fun l => Permutation_refl (nodup eq_dec l)).

(** The record a line adds to the results, if any, from the state in which
    the line is read. *)
Definition record_of (metric : string -> option Re.hit) (st : KernelTime.parser_state)
    (l : string) : option (KernelTime.log_record float) :=
  match metric l, KernelTime.name_after l st with
  | Some h, Some nm =>
      if Text.nonempty nm
      then option_map (KernelTime.mk_record nm (Re.group 1 h))
                      (PyFloat.py_float (Re.group 2 h))
      else None
  | _, _ => None
  end.

(** The records the lines of a file add, in order, up to a line that raises. *)
Fixpoint records_of (metric : string -> option Re.hit) (st : KernelTime.parser_state)
    (lines : list string) : list (KernelTime.log_record float) :=
  match lines with
  | [] => []
  | l :: lines' =>
      match KernelTime.step metric st l with
      | Some st' =>
          match record_of metric st l with
          | Some r => r :: records_of metric st' lines'
          | None => records_of metric st' lines'
          end
      | None => []
      end
  end.

(** The items of a totals dictionary whose name normalises to [k], in
    their order. *)
Definition variants_of {R : Type} (k : string) (d : Dict.dict (KernelTime.total R))
    : Dict.dict (KernelTime.total R) :=
  filter (fun item => String.eqb k (KernelTime.normalize_test_name (fst item))) d.

(** The keys of the three totals, in the order [export_to_csv] visits them. *)
Definition original_names
    (baseline_totals compute_totals triton_totals
       : option (Dict.dict (KernelTime.total float))) : list string :=
  Dict.keys (or_empty baseline_totals) ++ Dict.keys (or_empty compute_totals)
    ++ Dict.keys (or_empty triton_totals).

(** The time a configuration shows for a normalised name: the times of
    the name's variants added up from zero in their order, or zero. *)
Definition shown_time (totals_dict : option (Dict.dict (KernelTime.total float)))
    (name : string) : float :=
  match variants_of name (or_empty totals_dict) with
  | [] => 0%float
  | vs => py_sum (map KernelTime.total_ms (Dict.values vs))
  end.



(** Results as a parser may return them: each test once, under a
    non-empty identifier, with at least one measurement. *)
Definition well_formed_results {R : Type}
    (res : Dict.dict (list (KernelTime.measurement R))) : Prop :=
  NoDup (Dict.keys res)
  /\ forall k ms, Dict.get k res = Some ms -> Text.nonempty k = true /\ ms <> [].

(** What a log file enters into the totals of the ablation analysis: its
    number and its entry, when its name has the form of a numbered log. *)
Definition file_entry (f : string * option (list string))
    : option (N * AblationReport.file_total) :=
  match AblationReport.match_whole AblationReport.file_name_pattern (fst f) with
  | None => None
  | Some h =>
      let ms := concat (Dict.values (Ablation.parse_triton_sanitizer (snd f))) in
      Some (PyFloat.int_of_digits (Re.group 1 h),
            AblationReport.mk_file_total (Re.group 2 h)
              (py_sum (map KernelTime.time_ms ms)) (length ms))
  end.

(** The last entry with number [n]. *)
Fixpoint last_entry {V : Type} (n : N) (entries : list (N * V)) : option V :=
  match entries with
  | [] => None
  | (k, v) :: rest =>
      match last_entry n rest with
      | Some w => Some w
      | None => if N.eqb n k then Some v else None
      end
  end.





(** The entries of the files that have one, in the order of the files. *)
Definition file_entries (log_files : list (string * option (list string)))
    : list (N * AblationReport.file_total) :=
  flat_map (fun f => match file_entry f with Some e => [e] | None => [] end) log_files.

(** The file numbers of the given configurations. *)
Definition numbers_in (results : AblationReport.config_results) (names : list string)
    : list N :=
  flat_map
    (fun config_name =>
       match Dict.get config_name results with
       | Some (Some file_totals) => map fst file_totals
       | _ => []
       end)
    names.

(** All the characters of [s] are in the class [cls]. *)
Fixpoint all_chars (cls : ascii -> bool) (s : string) : bool :=
  match s with
  | EmptyString => true
  | String c s' => cls c && all_chars cls s'
  end.

(** [s] starts with a character of the class [cls]. *)
Definition first_is (cls : ascii -> bool) (s : string) : bool :=
  match s with
  | EmptyString => false
  | String c _ => cls c
  end.

(** The number embedded before an underscore in a name, read off the
    characters of the name from left to right: the value of the first run
    of digits that an underscore follows directly.  [digits] holds the run
    of digits that ends where the reading stands. *)
Fixpoint embedded_number_from (digits : string) (s : string) : option N :=
  match s with
  | EmptyString => None
  | String c s' =>
      if Text.is_digit c then embedded_number_from (digits ++ String c EmptyString) s'
      else if Ascii.eqb c "_" && Text.nonempty digits
           then Some (PyFloat.int_of_digits digits)
           else embedded_number_from EmptyString s'
  end.

Definition embedded_number (name : string) : option N :=
  embedded_number_from EmptyString name.

(** The place of a name in the order: its embedded number, or after all
    numbers when it has none. *)
Definition embedded_key (name : string) : PySort.key :=
  match embedded_number name with
  | Some n => PySort.Num n
  | None => PySort.Inf
  end.

(** Some digit of [s] is directly followed by an underscore. *)
Fixpoint digit_before_underscore (s : string) : bool :=
  match s with
  | EmptyString => false
  | String c s' =>
      (Text.is_digit c && match s' with String d _ => Ascii.eqb d "_" | EmptyString => false end)
      || digit_before_underscore s'
  end.

(** While the scan of [format_test_name] passes over the rest of a found
    [test_], the text ahead starts with what is left of it before its
    underscore. *)
Definition skip_ok (skip : nat) (a : string) : Prop :=
  match skip with
  | 0 | 1 => True
  | 2 => Text.strip_prefix "t" a <> None
  | 3 => Text.strip_prefix "st" a <> None
  | 4 => Text.strip_prefix "est" a <> None
  | _ => False
  end.

(** ** Sample inputs *)

(** Results of the ablation analysis: two configurations with files, the
    others never analysed. *)
Definition sample_ablation_results : AblationReport.config_results :=
  [ ("no_cache",
     Some [(1%N, AblationReport.mk_file_total "tritonbench_softmax" 2.5%float 1)]);
    ("all_cache",
     Some [(2%N, AblationReport.mk_file_total "flag_gems_test_x_test_y" 1%float 1);
           (1%N, AblationReport.mk_file_total "tritonbench_softmax" 0.5%float 1)]) ].

(** The same with a configuration that had no log files. *)
Definition sample_ablation_results_with_none : AblationReport.config_results :=
  ("symbol_only", None) :: sample_ablation_results.

Definition line (text : string) : string := (text ++ Text.nl)%string.

Definition metric_line_k1 : string :=
  line "[liger][triton] kernel=k1 cpu_launch_ms=1.0 gpu_time_ms=2.5".
Definition metric_line_k3 : string :=
  line "[liger][triton] kernel=k3 cpu_launch_ms=1.0 gpu_time_ms=4.0".
Definition metric_line_bad : string :=
  line "[liger][triton] kernel=k2 cpu_launch_ms=1.0 gpu_time_ms=1.2.3".
Definition triton_line_bad : string :=
  line "Triton-Viz: execution time for k2: 1.2.3 ms".

(** A log whose third line carries a number that [float] rejects. *)
Definition log_with_bad_number : list string :=
  [line "Test: t"; metric_line_k1; metric_line_bad; metric_line_k3].

(** The same log without that line. *)
Definition log_without_bad_number : list string :=
  [line "Test: t"; metric_line_k1; metric_line_k3].

(** A [Test:] header whose name is a pytest identifier. *)
Definition log_pytest_header : list string :=
  [line "Test Number: 01"; line "Test: test_a.py::b"].

(** Three pytest-style tests, two of them variants of one function, with
    kernel times 0.1, 0.1 and 0.4 ms. *)
Definition log_three_tests : list string :=
  [ line "test_k.py::test_a[x]";
    line "[liger][triton] kernel=k cpu_launch_ms=1.0 gpu_time_ms=0.1";
    line "test_k.py::test_b";
    line "[liger][triton] kernel=k cpu_launch_ms=1.0 gpu_time_ms=0.1";
    line "test_k.py::test_a[y]";
    line "[liger][triton] kernel=k cpu_launch_ms=1.0 gpu_time_ms=0.4" ].

(** The totals [analyze_configuration] computes from that log. *)
Definition totals_three_tests : Dict.dict (KernelTime.total float) :=
  KernelTime.totals_of_files
    [KernelTime.parse_baseline_compute_sanitizer (Some log_three_tests)].

(** The two records of the design note's example, in exact arithmetic. *)
Definition record_k1 : KernelTime.log_record Qc :=
  KernelTime.mk_record "t" "k1" (Q2Qc (5 # 2)).
Definition record_k2 : KernelTime.log_record Qc :=
  KernelTime.mk_record "t" "k2" (Q2Qc (7 # 2)).

(** An output directory in the layout of the runner. *)
Definition sample_output_dir : FileSystem.node :=
  FileSystem.Dir
    [ ("kernel_time_tritonbench",
       FileSystem.Dir
         [ ("baseline",
            FileSystem.Dir
              [ ("run.log", FileSystem.File []);
                ("02_b.log", FileSystem.File []);
                ("notes.txt", FileSystem.File []);
                ("sub", FileSystem.Dir [("01_a.log", FileSystem.File [])]) ]) ]) ].

(** Totals of two configurations with different tests; the third
    configuration has no log files. *)
Definition sample_baseline_totals : option (Dict.dict (KernelTime.total float)) :=
  Some [("01_suite/test[param]", KernelTime.mk_total 2.5%float 1 None)].
Definition sample_triton_totals : option (Dict.dict (KernelTime.total float)) :=
  Some [("02_other", KernelTime.mk_total 1%float 1 None)].
Definition sample_rows : list KernelTime.csv_row :=
  [ KernelTime.mk_row "suite/test" "2.500" "0.000" "0.000";
    KernelTime.mk_row "other" "0.000" "0.000" "1.000" ].

(** A header with number and name, then two metric lines of the two formats
    around a line of noise. *)
Definition log_two_kernels : list string :=
  [ line "Test Number: 01";
    line "Test: tritonbench/softmax";
    line "[liger][triton] kernel=k1 cpu_launch_ms=1.0 gpu_time_ms=2.5";
    line "noise";
    line "[triton-profiler] kernel=k2 [M=256, N=256] cpu_launch_ms=1.0 gpu_time_ms=3.5" ].

(** A [Test:] header whose name is blank. *)
Definition log_blank_name : list string :=
  [line "Test Number: 01"; line "Test:   "].

(** Rows of a results table. *)
Definition sample_table : list Overhead.row :=
  [ [("s", "10.0"); ("b", "0.0")]; [("s", "0.0"); ("b", "5.0")];
    [("s", "FAILED"); ("b", "5.0")]; [("s", " 3 "); ("b", "2")];
    [("s", "1"); ("b", "nan")] ].

(** * Properties *)


(** ** The embedding on sample inputs *)

Example normalize_docstring_cases :
  KernelTime.normalize_test_name "test_cross_entropy.py::test_correctness[0.1-dtype0-x]"
  = "test_cross_entropy.py::test_correctness"
  /\ KernelTime.normalize_test_name "01_tritonbench/softmax_optimize"
     = "tritonbench/softmax_optimize"
  /\ KernelTime.normalize_test_name "1_2_x" = "2_x".
Proof. repeat split; reflexivity. Qed.

Example py_float_samples :
  PyFloat.py_float "2.5" = Some 2.5%float
  /\ PyFloat.py_float "1.2.3" = None
  /\ PyFloat.py_float " 1_0.5e-1 " = Some 0x1.0cccccccccccdp+0%float
  /\ PyFloat.py_float "0.1" = Some 0x1.999999999999ap-4%float
  /\ PyFloat.py_float "1e400" = Some infinity
  /\ PyFloat.py_float "1e-400" = Some 0%float
  /\ PyFloat.py_float "5e-324" = Some 0x1p-1074%float
  /\ PyFloat.py_float "1.7976931348623157e308" = Some 0x1.fffffffffffffp+1023%float
  /\ PyFloat.py_float "1.7976931348623159e308" = Some infinity
  /\ PyFloat.py_float "9007199254740993" = Some 9007199254740992%float
  /\ PyFloat.py_float "-.5" = Some (-0.5)%float
  /\ PyFloat.py_float "1." = Some 1%float
  /\ PyFloat.py_float "-Infinity" = Some neg_infinity
  /\ PyFloat.py_float "FAILED" = None
  /\ PyFloat.py_float "." = None
  /\ PyFloat.py_float "1e" = None
  /\ PyFloat.py_float "1__0" = None
  /\ PyFloat.py_float "1_.5" = None.
Proof. vm_compute. repeat split; reflexivity. Qed.

Example format_3f_samples :
  PyFloat.format_3f 0%float = "0.000"
  /\ PyFloat.format_3f 6%float = "6.000"
  /\ PyFloat.format_3f 2.5%float = "2.500"
  /\ PyFloat.format_3f 0x1.0624dd2f1a9fcp-11%float = "0.001"
  /\ PyFloat.format_3f 0x1.0020c49ba5e35p+0%float = "1.000"
  /\ PyFloat.format_3f 0x1.34a456d5cfaadp+10%float = "1234.568"
  /\ PyFloat.format_3f (-0x1.a36e2eb1c432dp-14)%float = "-0.000"
  /\ PyFloat.format_3f 1e22%float = "10000000000000000000000.000"
  /\ PyFloat.format_3f 0.0625%float = "0.062"
  /\ PyFloat.format_3f 0.1875%float = "0.188"
  /\ PyFloat.format_3f infinity = "inf".
Proof. vm_compute. repeat split; reflexivity. Qed.

(** The example of the design note: two kernel lines under one header
    total 6.0 ms with count 2. *)
Example two_kernels_total :
  KernelTime.calculate_totals
    (KernelTime.parse_baseline_compute_sanitizer (Some log_two_kernels))
  = [("01_tritonbench/softmax", KernelTime.mk_total 6%float 2 None)].
Proof. vm_compute. reflexivity. Qed.

Example blank_name_unsets_identifier :
  option_map KernelTime.test_name
    (KernelTime.run_lines KernelTime.gpu_time_match KernelTime.initial log_blank_name)
  = Some (Some EmptyString).
Proof. vm_compute. reflexivity. Qed.

Example sample_table_ratios :
  Overhead.calculate_overhead sample_table "s" "b" = Some [0%float; 1.5%float].
Proof. vm_compute. reflexivity. Qed.

(** ** Name normalisation *)

(** C6: normalising ["01_suite/test[param]"] yields ["suite/test"]: the
    bracketed suffix from the first bracket on and the leading digits with
    their underscore are both removed. *)
Theorem normalize_suite_test_param :
  KernelTime.normalize_test_name "01_suite/test[param]" = "suite/test"
  /\ KernelTime.cut_params "01_suite/test[param]" = "01_suite/test"
  /\ Re.sub_start KernelTime.number_prefix EmptyString "01_suite/test" = "suite/test".
Proof. repeat split; reflexivity. Qed.

(** ** The matcher *)

Section MatcherFacts.
Import Re.

Lemma plus_runs_split cls s m r :
  In (m, r) (plus_runs cls s) -> s = (m ++ r)%string /\ m <> EmptyString.
Proof.
  revert m r. induction s as [|c s IH]; simpl; intros m r H; [contradiction|].
  destruct (cls c); [|contradiction].
  apply in_app_or in H. destruct H as [H|[H|[]]].
  - apply in_map_iff in H. destruct H as ([m' r'] & E & H). simpl in E.
    inversion E; subst. destruct (IH _ _ H) as [-> _]. split; [reflexivity|discriminate].
  - inversion H; subst. split; [reflexivity|discriminate].
Qed.

Lemma lazy_runs_split cls s m r :
  In (m, r) (lazy_runs cls s) -> s = (m ++ r)%string.
Proof.
  revert m r. induction s as [|c s IH]; simpl; intros m r [H|H].
  - inversion H; reflexivity.
  - contradiction.
  - inversion H; reflexivity.
  - destruct (cls c); [|contradiction].
    apply in_map_iff in H. destruct H as ([m' r'] & E & H). simpl in E.
    inversion E; subst. now rewrite (IH _ _ H) at 1.
Qed.

Lemma strip_prefix_split p s s' :
  Text.strip_prefix p s = Some s' -> s = (p ++ s')%string.
Proof.
  revert s. induction p as [|a p IH]; simpl; intros s H.
  - now inversion H.
  - destruct s as [|b s]; [discriminate|].
    destruct (Ascii.eqb_spec a b); [|discriminate]. subst. now rewrite (IH _ H) at 1.
Qed.

Lemma string_app_assoc (a b c : string) : ((a ++ b) ++ c = a ++ (b ++ c))%string.
Proof. induction a; simpl; [reflexivity|now rewrite IHa]. Qed.

(** Every hit splits the text into what was matched and what is left. *)
Lemma run_split r : forall s g h, In h (run r s g) -> s = (matched h ++ rest h)%string.
Proof.
  induction r as [p|cls|cls|r1 IH1 r2 IH2|r1 IH1|r1 IH1]; simpl; intros s g h H.
  - destruct (Text.strip_prefix p s) eqn:E; [|contradiction].
    destruct H as [<-|[]]. simpl. now apply strip_prefix_split.
  - apply in_map_iff in H. destruct H as ([m r] & <- & H). simpl.
    now apply plus_runs_split in H.
  - apply in_map_iff in H. destruct H as ([m r] & <- & H). simpl.
    now apply lazy_runs_split in H.
  - apply in_flat_map in H. destruct H as (h1 & H1 & H).
    apply in_map_iff in H. destruct H as (h2 & <- & H2). simpl.
    rewrite string_app_assoc, <- (IH2 _ _ _ H2). now apply IH1 in H1.
  - apply in_app_or in H. destruct H as [H|[<-|[]]]; [now apply IH1 in H|reflexivity].
  - apply in_map_iff in H. destruct H as (h1 & <- & H). simpl. now apply IH1 in H.
Qed.

Lemma match_start_in r s h : match_start r s = Some h -> In h (run r s []).
Proof.
  unfold match_start. destruct (run r s []) as [|h' l]; [discriminate|].
  intros E; inversion E; subst. now left.
Qed.

Lemma plus_runs_all cls s m r :
  In (m, r) (plus_runs cls s) -> all_chars cls m = true.
Proof.
  revert m r. induction s as [|c s IH]; cbn [plus_runs]; intros m r H; [contradiction|].
  destruct (cls c) eqn:Ec; [|contradiction].
  apply in_app_or in H. destruct H as [H|[H|[]]].
  - apply in_map_iff in H. destruct H as ([m' r'] & E & H). cbn [fst snd] in E.
    inversion E; subst. cbn [all_chars]. now rewrite Ec, (IH _ _ H).
  - inversion H; subst. cbn [all_chars]. now rewrite Ec.
Qed.

Lemma plus_runs_none cls s : plus_runs cls s = [] -> first_is cls s = false.
Proof.
  destruct s as [|c s]; cbn [plus_runs first_is]; [reflexivity|].
  destruct (cls c); [|reflexivity].
  intros H. now apply app_eq_nil in H.
Qed.

(** The first run is the longest: what it leaves does not go on in the
    class. *)
Lemma plus_runs_first cls s : forall m r l,
  plus_runs cls s = (m, r) :: l -> first_is cls r = false.
Proof.
  induction s as [|c s IH]; cbn [plus_runs]; intros m r l H; [discriminate|].
  destruct (cls c); [|discriminate].
  destruct (plus_runs cls s) as [|[m' r'] l'] eqn:E.
  - cbn in H. inversion H; subst. now apply plus_runs_none.
  - cbn in H. inversion H; subst. exact (IH _ _ _ eq_refl).
Qed.

End MatcherFacts.

(** ** Name normalisation *)

Section NormalizeFacts.
Import Text Re KernelTime.

Lemma contains_char_before c s : contains_char c (before_char c s) = false.
Proof.
  induction s as [|d s IH]; simpl; [reflexivity|].
  destruct (Ascii.eqb c d) eqn:E; simpl; [reflexivity|]. now rewrite E.
Qed.

Lemma contains_char_app c a b :
  contains_char c (a ++ b)%string = contains_char c a || contains_char c b.
Proof.
  induction a as [|d a IH]; simpl; [reflexivity|]. now rewrite IH, orb_assoc.
Qed.

Lemma cut_params_no_bracket s : contains_char "[" (cut_params s) = false.
Proof.
  unfold cut_params. destruct (contains_char "[" s) eqn:E; [apply contains_char_before|exact E].
Qed.

Lemma cut_params_fixed s : contains_char "[" s = false -> cut_params s = s.
Proof. unfold cut_params. now intros ->. Qed.

Lemma sub_start_no_bracket r s :
  contains_char "[" s = false -> contains_char "[" (sub_start r EmptyString s) = false.
Proof.
  unfold sub_start. intros H. destruct (match_start r s) as [h|] eqn:E; [|exact H].
  apply match_start_in, run_split in E. rewrite E, contains_char_app in H.
  apply orb_false_elim in H. simpl. tauto.
Qed.

Lemma normalize_no_bracket s : contains_char "[" (normalize_test_name s) = false.
Proof. apply sub_start_no_bracket, cut_params_no_bracket. Qed.

Lemma string_length_app (a b : string) :
  String.length (a ++ b)%string = String.length a + String.length b.
Proof. induction a; simpl; [reflexivity|now rewrite IHa]. Qed.

(** A number prefix takes at least one digit and the underscore. *)
Lemma number_prefix_shortens s h :
  match_start number_prefix s = Some h -> String.length (rest h) < String.length s.
Proof.
  intros E. apply match_start_in in E. pose proof (run_split _ _ _ _ E) as Hs.
  unfold number_prefix in E. cbn [run] in E.
  apply in_flat_map in E. destruct E as (h1 & H1 & E).
  apply in_map_iff in E. destruct E as (h2 & <- & H2).
  destruct (strip_prefix "_" (rest h1)); [|contradiction].
  destruct H2 as [<-|[]]. cbn [matched rest] in *.
  rewrite Hs, !string_length_app. cbn [String.length]. lia.
Qed.

End NormalizeFacts.

(** C3, as the design note states it, fails: a name with two number prefixes
    loses one of them at each pass. *)
Lemma normalize_twice_differs :
  KernelTime.normalize_test_name (KernelTime.normalize_test_name "01_02_suite/test")
  <> KernelTime.normalize_test_name "01_02_suite/test".
Proof. vm_compute. discriminate. Qed.

(** C3, amended: a second pass changes nothing exactly when the first result
    does not begin with digits and an underscore once more; cutting the
    bracketed suffix is idempotent on every name. *)
Theorem normalize_idempotent_iff_single_prefix (x : string) :
  (KernelTime.normalize_test_name (KernelTime.normalize_test_name x)
   = KernelTime.normalize_test_name x
   <-> Re.match_start KernelTime.number_prefix (KernelTime.normalize_test_name x) = None)
  /\ KernelTime.cut_params (KernelTime.cut_params x) = KernelTime.cut_params x.
Proof.
  split.
  - set (y := KernelTime.normalize_test_name x).
    assert (Hy : KernelTime.cut_params y = y)
      by apply cut_params_fixed, normalize_no_bracket.
    unfold KernelTime.normalize_test_name at 1. fold y. rewrite Hy.
    unfold Re.sub_start.
    destruct (Re.match_start KernelTime.number_prefix y) as [h|] eqn:E.
    + split; [|discriminate]. simpl. intros Hr.
      apply number_prefix_shortens in E. rewrite Hr in E. lia.
    + split; reflexivity.
  - apply cut_params_fixed, cut_params_no_bracket.
Qed.

Lemma normalize_idempotent_iff_single_prefix_witness :
  KernelTime.normalize_test_name (KernelTime.normalize_test_name "01_suite/test[param]")
  = KernelTime.normalize_test_name "01_suite/test[param]".
Proof.
  apply (proj1 (normalize_idempotent_iff_single_prefix "01_suite/test[param]")).
  reflexivity.
Defined.

(** ** The parsers *)

Section ParserFacts.
Import Text Re Dict KernelTime.
Variable metric : string -> option hit.

Lemma run_lines_app pre post st :
  run_lines metric st (pre ++ post)
  = match run_lines metric st pre with
    | Some st' => run_lines metric st' post
    | None => None
    end.
Proof.
  revert st. induction pre as [|l pre IH]; simpl; intros st; [reflexivity|].
  destruct (step metric st l); [apply IH|reflexivity].
Qed.

(** A step that does not raise leaves the headers as the line sets them. *)
Lemma step_headers st line st' :
  step metric st line = Some st' ->
  test_name st' = name_after line st /\ test_number st' = number_after line st.
Proof.
  unfold step. intros H.
  destruct (metric line) as [h|]; [destruct (name_after line st) as [nm|]|].
  - destruct (nonempty nm); [destruct (PyFloat.py_float (group 2 h))|];
      inversion H; subst; split; reflexivity.
  - inversion H; split; reflexivity.
  - inversion H; split; reflexivity.
Qed.

(** What a step does to the results. *)
Lemma step_results st line st' :
  step metric st line = Some st' ->
  results st' = results st
  \/ exists h nm t,
       metric line = Some h /\ name_after line st = Some nm /\ nonempty nm = true
       /\ PyFloat.py_float (group 2 h) = Some t
       /\ results st' = append_result nm (mk_measurement (group 1 h) t) (results st).
Proof.
  unfold step. intros H.
  destruct (metric line) as [h|]; [destruct (name_after line st) as [nm|] eqn:En|].
  - destruct (nonempty nm) eqn:Ene; [destruct (PyFloat.py_float (group 2 h)) as [t|] eqn:Ef|].
    + inversion H; subst. right. exists h, nm, t. repeat split; reflexivity || assumption.
    + discriminate.
    + inversion H; now left.
  - inversion H; now left.
  - inversion H; now left.
Qed.

(** A step raises exactly on a metric line with an identifier set and a
    number that [float] rejects. *)
Lemma step_raises st line :
  step metric st line = None
  <-> exists h, metric line = Some h /\ truthy (name_after line st) = true
                /\ PyFloat.py_float (group 2 h) = None.
Proof.
  unfold step, truthy. split.
  - intros H. destruct (metric line) as [h|]; [|discriminate].
    destruct (name_after line st) as [nm|]; [|discriminate].
    destruct (nonempty nm); [|discriminate].
    destruct (PyFloat.py_float (group 2 h)) eqn:Ef; [discriminate|].
    exists h. repeat split; assumption.
  - intros (h & -> & Ht & Hf). destruct (name_after line st) as [nm|]; [|discriminate].
    now rewrite Ht, Hf.
Qed.

Lemma name_after_no_header line st :
  header_line line = false -> name_after line st = test_name st.
Proof.
  unfold header_line, name_after, update_pytest, update_name. intros H.
  destruct (search name_header line); [discriminate|].
  destruct (search pytest_id line); [discriminate|reflexivity].
Qed.

(** Lines without a header keep an unset identifier unset and add no result. *)
Lemma run_lines_no_header lines : forall st,
  test_name st = None ->
  Forall (fun l => header_line l = false) lines ->
  exists st', run_lines metric st lines = Some st'
              /\ test_name st' = None /\ results st' = results st.
Proof.
  induction lines as [|l lines IH]; intros st Hn Hall.
  - exists st. repeat split; assumption || reflexivity.
  - inversion Hall as [|? ? Hl Hrest]; subst.
    assert (Ea : name_after l st = None) by (rewrite name_after_no_header; assumption).
    assert (Es : step metric st l = Some (mk_state None (number_after l st) (results st))).
    { unfold step. rewrite Ea. now destruct (metric l). }
    simpl. rewrite Es.
    destruct (IH (mk_state None (number_after l st) (results st)) eq_refl Hrest)
      as (st' & Hr & Hn' & Hres).
    exists st'. repeat split; assumption.
Qed.

(** An identifier that is set was set by a header line. *)
Lemma identifier_from_header lines st :
  run_lines metric initial lines = Some st ->
  test_name st <> None -> Exists (fun l => header_line l = true) lines.
Proof.
  intros Hr Hn.
  destruct (Forall_Exists_dec (fun l => header_line l = false)
              (fun l => bool_dec (header_line l) false) lines) as [Hall|Hex].
  - destruct (run_lines_no_header lines initial eq_refl Hall) as (st' & Hr' & Hn' & _).
    rewrite Hr in Hr'. inversion Hr'; subst. contradiction.
  - apply Exists_impl with (2 := Hex). intros l Hl. now destruct (header_line l).
Qed.

(** Lines without a metric match never raise and add no result. *)
Lemma run_lines_no_metric lines : forall st,
  Forall (fun l => metric l = None) lines ->
  exists st', run_lines metric st lines = Some st' /\ results st' = results st.
Proof.
  induction lines as [|l lines IH]; intros st Hall.
  - exists st. split; reflexivity.
  - inversion Hall as [|? ? Hl Hrest]; subst.
    simpl. unfold step. rewrite Hl.
    destruct (IH (mk_state (name_after l st) (number_after l st) (results st)) Hrest)
      as (st' & Hr & Hres).
    exists st'. split; assumption.
Qed.

(** The results of a parse are its records, grouped in their order. *)
Lemma results_are_grouped_records lines : forall st st',
  run_lines metric st lines = Some st' ->
  results st'
  = fold_left (fun res r => append_result (test_identifier r) (measurement_of r) res)
              (records_of metric st lines) (results st).
Proof.
  induction lines as [|l lines IH]; intros st st' H.
  - inversion H; reflexivity.
  - cbn [run_lines records_of] in *.
    destruct (step metric st l) as [st1|] eqn:Es; [|discriminate].
    rewrite (IH _ _ H). unfold step in Es. unfold record_of.
    destruct (metric l) as [h|]; [destruct (name_after l st) as [nm|]|].
    + destruct (nonempty nm); [destruct (PyFloat.py_float (group 2 h))|];
        inversion Es; subst; reflexivity.
    + inversion Es; subst; reflexivity.
    + inversion Es; subst; reflexivity.
Qed.

Lemma parse_is_grouping lines st :
  run_lines metric initial lines = Some st ->
  parse_with metric (Some lines) = group_records (records_of metric initial lines).
Proof.
  intros H. unfold parse_with, group_records. rewrite H.
  now rewrite (results_are_grouped_records _ _ _ H).
Qed.

End ParserFacts.

Section HeaderFacts.
Import Text Re Dict KernelTime.

Lemma search_hit r s h : search r s = Some h -> exists s', In h (run r s' []).
Proof.
  induction s as [|c s IH]; simpl.
  - destruct (match_start r EmptyString) eqn:E; [|discriminate].
    intros H; inversion H; subst. exists EmptyString. now apply match_start_in.
  - destruct (match_start r (String c s)) eqn:E.
    + intros H; inversion H; subst. exists (String c s). now apply match_start_in.
    + exact IH.
Qed.

Lemma nonempty_iff s : nonempty s = true <-> s <> EmptyString.
Proof. destruct s; simpl; split; congruence. Qed.

(** The number a [Test Number:] header captures has at least one digit. *)
Lemma number_header_group line h :
  search number_header line = Some h -> nonempty (group 1 h) = true.
Proof.
  intros H. apply search_hit in H. destruct H as (s & H).
  unfold number_header in H. cbn [run] in H.
  apply in_flat_map in H. destruct H as (h1 & H1 & H).
  destruct (strip_prefix "Test Number:" s) as [s1|]; [|contradiction].
  destruct H1 as [<-|[]]. cbn [rest groups matched] in H.
  apply in_map_iff in H. destruct H as (h2 & <- & H).
  apply in_flat_map in H. destruct H as (h3 & H3 & H).
  apply in_map_iff in H3. destruct H3 as ([m3 r3] & <- & _). cbn [rest groups fst snd] in H.
  apply in_map_iff in H. destruct H as (h4 & <- & H).
  apply in_map_iff in H. destruct H as (h5 & <- & H).
  apply in_map_iff in H. destruct H as ([m r] & <- & H).
  apply plus_runs_split in H. destruct H as [_ Hm].
  unfold group. cbn. now apply nonempty_iff.
Qed.

Lemma update_number_ok line o : number_ok o -> number_ok (update_number line o).
Proof.
  unfold update_number. intros H.
  destruct (search number_header line) eqn:E; [|exact H].
  simpl. now apply number_header_group in E.
Qed.

(** The stored number, once a file has one, is a non-empty run of digits. *)
Lemma reachable_number_ok metric lines : forall st st',
  number_ok (test_number st) ->
  run_lines metric st lines = Some st' -> number_ok (test_number st').
Proof.
  induction lines as [|l lines IH]; simpl; intros st st' Hok H.
  - inversion H; subst; exact Hok.
  - destruct (step metric st l) as [st1|] eqn:Es; [|discriminate].
    apply IH with (2 := H). apply step_headers in Es. destruct Es as [_ ->].
    now apply update_number_ok.
Qed.

End HeaderFacts.

(** C4: a record is added only for a line that matches a metric pattern
    while a test identifier, set by a header line read so far, is in force;
    metric lines before any header line add nothing, and a text without
    metric lines gives the empty mapping and raises nothing. *)
Theorem records_need_metric_and_identifier (metric : string -> option Re.hit) :
  (forall pre line st st',
      KernelTime.run_lines metric KernelTime.initial pre = Some st ->
      KernelTime.step metric st line = Some st' ->
      KernelTime.results st' = KernelTime.results st
      \/ exists h nm t,
           metric line = Some h
           /\ KernelTime.test_name st' = Some nm /\ Text.nonempty nm = true
           /\ Exists (fun l => KernelTime.header_line l = true) (pre ++ [line])
           /\ PyFloat.py_float (Re.group 2 h) = Some t
           /\ KernelTime.results st'
              = KernelTime.append_result nm (KernelTime.mk_measurement (Re.group 1 h) t)
                  (KernelTime.results st))
  /\ (forall lines rest,
        Forall (fun l => KernelTime.header_line l = false) lines ->
        exists st,
          KernelTime.run_lines metric KernelTime.initial lines = Some st
          /\ KernelTime.test_name st = None /\ KernelTime.results st = []
          /\ KernelTime.parse_with metric (Some (lines ++ rest))
             = match KernelTime.run_lines metric st rest with
               | Some st' => KernelTime.results st'
               | None => []
               end)
  /\ (forall lines,
        Forall (fun l => metric l = None) lines ->
        KernelTime.run_lines metric KernelTime.initial lines <> None
        /\ KernelTime.parse_with metric (Some lines) = []).
Proof.
  split; [|split].
  - intros pre line st st' Hpre Hstep.
    destruct (step_results metric _ _ _ Hstep) as [Hsame|(h & nm & t & Hm & Hn & Hne & Hf & Hres)];
      [now left|right].
    destruct (step_headers metric _ _ _ Hstep) as [Hname _].
    exists h, nm, t. repeat split; try assumption.
    + now rewrite Hname.
    + assert (Hrun : KernelTime.run_lines metric KernelTime.initial (pre ++ [line]) = Some st').
      { rewrite run_lines_app, Hpre. simpl. now rewrite Hstep. }
      apply (identifier_from_header metric _ _ Hrun). rewrite Hname, Hn. discriminate.
  - intros lines rest Hall.
    destruct (run_lines_no_header metric lines KernelTime.initial eq_refl Hall)
      as (st & Hr & Hn & Hres).
    exists st. repeat split; try assumption.
    unfold KernelTime.parse_with. now rewrite run_lines_app, Hr.
  - intros lines Hall.
    destruct (run_lines_no_metric metric lines KernelTime.initial Hall) as (st & Hr & Hres).
    unfold KernelTime.parse_with. rewrite Hr. split; [discriminate|exact Hres].
Qed.

Lemma records_need_metric_and_identifier_witness :
  exists st,
    KernelTime.run_lines KernelTime.gpu_time_match KernelTime.initial [metric_line_k1] = Some st
    /\ KernelTime.test_name st = None /\ KernelTime.results st = []
    /\ KernelTime.parse_with KernelTime.gpu_time_match
         (Some ([metric_line_k1] ++ [line "Test: t"; metric_line_k3]))
       = match KernelTime.run_lines KernelTime.gpu_time_match st [line "Test: t"; metric_line_k3] with
         | Some st' => KernelTime.results st'
         | None => []
         end.
Proof.
  apply (proj1 (proj2 (records_need_metric_and_identifier KernelTime.gpu_time_match))).
  constructor; [vm_compute; reflexivity|constructor].
Defined.

(** C1, as the design note states it, fails: one number that [float]
    rejects empties the result of the whole file, in both parsers. *)
Lemma bad_number_discards_records :
  KernelTime.gpu_time_match metric_line_bad <> None
  /\ KernelTime.parse_baseline_compute_sanitizer (Some log_with_bad_number) = []
  /\ KernelTime.parse_baseline_compute_sanitizer (Some log_without_bad_number)
     = [("t", [KernelTime.mk_measurement "k1" 2.5%float; KernelTime.mk_measurement "k3" 4%float])]
  /\ KernelTime.parse_baseline_compute_sanitizer (Some log_with_bad_number)
     <> KernelTime.parse_baseline_compute_sanitizer (Some log_without_bad_number)
  /\ Ablation.parse_triton_sanitizer
       (Some [line "Test: t"; line "Triton-Viz: execution time for k1: 2.5 ms"; triton_line_bad])
     = []
  /\ Ablation.parse_triton_sanitizer
       (Some [line "Test: t"; line "Triton-Viz: execution time for k1: 2.5 ms"])
     = [("t", [KernelTime.mk_measurement "k1" 2.5%float])].
Proof. vm_compute. repeat split; try reflexivity; discriminate. Qed.

(** C1, amended: a metric line whose number [float] rejects, met while a
    test identifier is set, makes the parser return the empty mapping for
    the whole file; met while none is set, the conversion is not tried and
    the line alone is passed over. *)
Theorem bad_number_empties_file (metric : string -> option Re.hit)
    (pre post : list string) (bad : string) (st : KernelTime.parser_state) (h : Re.hit) :
  KernelTime.run_lines metric KernelTime.initial pre = Some st ->
  metric bad = Some h ->
  PyFloat.py_float (Re.group 2 h) = None ->
  (Text.truthy (KernelTime.name_after bad st) = true ->
     KernelTime.parse_with metric (Some (pre ++ bad :: post)) = [])
  /\ (Text.truthy (KernelTime.name_after bad st) = false ->
      exists st',
        KernelTime.step metric st bad = Some st'
        /\ KernelTime.results st' = KernelTime.results st
        /\ KernelTime.run_lines metric KernelTime.initial (pre ++ bad :: post)
           = KernelTime.run_lines metric st' post).
Proof.
  intros Hpre Hm Hf. split; intros Ht.
  - assert (Hs : KernelTime.step metric st bad = None).
    { apply step_raises. exists h. repeat split; assumption. }
    unfold KernelTime.parse_with. rewrite run_lines_app, Hpre. simpl. now rewrite Hs.
  - destruct (KernelTime.step metric st bad) as [st'|] eqn:Hs.
    + exists st'. split; [reflexivity|]. split.
      * destruct (step_results metric _ _ _ Hs) as [E|(h' & nm & t & _ & Hn & Hne & _)];
          [exact E|].
        unfold Text.truthy in Ht. rewrite Hn, Hne in Ht. discriminate.
      * rewrite run_lines_app, Hpre. simpl. now rewrite Hs.
    + apply step_raises in Hs. destruct Hs as (h' & _ & Ht' & _). congruence.
Qed.

Lemma bad_number_empties_file_witness :
  KernelTime.parse_with KernelTime.gpu_time_match
    (Some ([line "Test: t"; metric_line_k1] ++ metric_line_bad :: [metric_line_k3])) = [].
Proof.
  refine (proj1 (bad_number_empties_file KernelTime.gpu_time_match
                   [line "Test: t"; metric_line_k1] [metric_line_k3] metric_line_bad
                   (KernelTime.mk_state (Some "t") None
                      [("t", [KernelTime.mk_measurement "k1" 2.5%float])])
                   (Re.mk_hit
                      "[liger][triton] kernel=k2 cpu_launch_ms=1.0 gpu_time_ms=1.2.3"
                      Text.nl ["k2"; "1.2.3"])
                   _ _ _) _);
    vm_compute; reflexivity.
Defined.

(** C10, as stated, fails on a [Test:] line whose name is a pytest
    identifier: the identifier ends as the pytest one, without the number. *)
Lemma pytest_header_drops_number :
  exists st,
    KernelTime.run_lines KernelTime.gpu_time_match KernelTime.initial log_pytest_header = Some st
    /\ KernelTime.test_number st = Some "01"
    /\ KernelTime.test_name st = Some "test_a.py::b"
    /\ KernelTime.test_name st <> Some "01_test_a.py::b".
Proof.
  eexists. split; [vm_compute; reflexivity|].
  repeat split; try reflexivity. discriminate.
Qed.

(** C10, amended: while one file is parsed, a line without a [Test:] header
    and without a pytest identifier, such as a [Test Number:] line by itself,
    leaves the identifier as it is; a [Test:] line without a pytest
    identifier sets it to the number seen so far, an underscore and the
    stripped name when that name is not blank, and to the stripped name
    alone when no number has been seen or the name is blank; a pytest
    identifier on the line takes precedence; the stored number changes only
    to a newly read one and is never cleared. *)
Theorem header_lines_set_identifier (metric : string -> option Re.hit)
    (pre : list string) (l : string) (st st' : KernelTime.parser_state) :
  KernelTime.run_lines metric KernelTime.initial pre = Some st ->
  KernelTime.step metric st l = Some st' ->
  (Re.search KernelTime.name_header l = None ->
   Re.search KernelTime.pytest_id l = None ->
   KernelTime.test_name st' = KernelTime.test_name st)
  /\ (forall h n,
        Re.search KernelTime.name_header l = Some h ->
        Re.search KernelTime.pytest_id l = None ->
        Text.nonempty (Text.strip (Re.group 1 h)) = true ->
        KernelTime.test_number st' = Some n ->
        KernelTime.test_name st' = Some (n ++ "_" ++ Text.strip (Re.group 1 h))%string)
  /\ (forall h,
        Re.search KernelTime.name_header l = Some h ->
        Re.search KernelTime.pytest_id l = None ->
        KernelTime.test_number st' = None
        \/ Text.nonempty (Text.strip (Re.group 1 h)) = false ->
        KernelTime.test_name st' = Some (Text.strip (Re.group 1 h)))
  /\ (forall h,
        Re.search KernelTime.pytest_id l = Some h ->
        KernelTime.test_name st' = Some (Re.group 1 h))
  /\ (KernelTime.test_number st'
      = match Re.search KernelTime.number_header l with
        | Some h => Some (Re.group 1 h)
        | None => KernelTime.test_number st
        end)
  /\ (KernelTime.test_number st <> None -> KernelTime.test_number st' <> None).
Proof.
  intros Hpre Hstep.
  pose proof (reachable_number_ok metric pre KernelTime.initial st I Hpre) as Hok.
  destruct (step_headers metric _ _ _ Hstep) as [Hname Hnum].
  apply (update_number_ok l) in Hok.
  unfold KernelTime.name_after, KernelTime.update_pytest, KernelTime.update_name in Hname.
  unfold KernelTime.number_after in Hname, Hnum. rewrite <- Hnum in Hname, Hok.
  repeat split.
  - intros Hn Hp. now rewrite Hn, Hp in Hname.
  - intros h n Hn Hp Hne En. rewrite Hn, Hp, Hne, En in Hname.
    rewrite En in Hok. simpl in Hok, Hname. now rewrite Hok in Hname.
  - intros h Hn Hp Hor. rewrite Hn, Hp in Hname.
    destruct Hor as [En|Hne].
    + now rewrite En in Hname.
    + now rewrite Hne, andb_false_r in Hname.
  - intros h Hp. now rewrite Hp in Hname.
  - exact Hnum.
  - rewrite Hnum. unfold KernelTime.update_number.
    destruct (Re.search KernelTime.number_header l); [discriminate|tauto].
Qed.

Lemma header_lines_set_identifier_witness :
  KernelTime.test_name
    (KernelTime.mk_state (Some "01_tritonbench/softmax_optimize") (Some "01") [])
  = Some ("01" ++ "_" ++ Text.strip "tritonbench/softmax_optimize")%string.
Proof.
  refine (proj1 (proj2 (header_lines_set_identifier KernelTime.exec_time_match
                          [line "Test Number: 01"] (line "Test: tritonbench/softmax_optimize")
                          (KernelTime.mk_state None (Some "01") [])
                          (KernelTime.mk_state (Some "01_tritonbench/softmax_optimize")
                                               (Some "01") [])
                          _ _))
                (Re.mk_hit "Test: tritonbench/softmax_optimize" Text.nl
                           ["tritonbench/softmax_optimize"])
                "01" _ _ _ _);
    vm_compute; reflexivity.
Defined.

(** ** Ratios *)

Section OverheadFacts.
Import Text Dict Overhead.

(** A float equal to zero is not greater than zero. *)
Lemma zero_not_gt0 (b : float) : PrimFloat.eqb b 0%float = true -> PyFloat.gt0 b = false.
Proof.
  unfold PyFloat.gt0. rewrite FloatAxioms.eqb_spec, FloatAxioms.ltb_spec.
  change (Prim2SF 0%float) with (S754_zero false).
  destruct (Prim2SF b) as [s|s| |s m e]; try destruct s; cbv; congruence.
Qed.

Lemma overhead_loop_spec data scol bcol : forall ratios,
  Forall (fun r => get scol r <> None /\ get bcol r <> None) data ->
  overhead_loop data scol bcol ratios
  = Some (ratios ++ flat_map
            (fun r => match get scol r, get bcol r with
                      | Some sv, Some bv => pair_ratio (strip sv) (strip bv)
                      | _, _ => []
                      end) data).
Proof.
  induction data as [|r data IH]; simpl; intros ratios Hall.
  - now rewrite app_nil_r.
  - inversion Hall as [|? ? [Hs Hb] Hrest]; subst.
    destruct (get scol r) as [sv|]; [|congruence].
    destruct (get bcol r) as [bv|]; [|congruence].
    rewrite IH by assumption. now rewrite app_assoc.
Qed.

(** A float below zero, equal to zero, or not a number is not greater than
    zero. *)
Lemma not_gt0 (b : float) :
  PrimFloat.eqb b 0%float = true \/ PrimFloat.ltb b 0%float = true \/ b = nan ->
  PyFloat.gt0 b = false.
Proof.
  intros [H|[H| ->]]; [now apply zero_not_gt0| |reflexivity].
  unfold PyFloat.gt0. rewrite FloatAxioms.ltb_spec in *.
  change (Prim2SF 0%float) with (S754_zero false) in *.
  destruct (Prim2SF b) as [s|s| |s m e]; try destruct s; cbv in *; congruence.
Qed.

(** What the test before the conversions looks at. *)
Lemma unusable_iff sv bv :
  unusable sv bv = true
  <-> sv = EmptyString \/ bv = EmptyString \/ sv = "FAILED" \/ bv = "FAILED"
      \/ contains "Block Tensor Not Supported" sv = true
      \/ contains "Block Tensor Not Supported" bv = true.
Proof.
  unfold unusable. rewrite !orb_true_iff, !negb_true_iff, !String.eqb_eq.
  assert (He : forall t, nonempty t = false <-> t = EmptyString).
  { intros [|c t]; cbn; split; congruence. }
  rewrite !He. tauto.
Qed.

(** A pair adds nothing exactly when the test before the conversions
    rejects it, a conversion fails, or the baseline is not greater than
    zero. *)
Lemma pair_ratio_nil_iff sv bv :
  pair_ratio sv bv = []
  <-> sv = EmptyString \/ bv = EmptyString \/ sv = "FAILED" \/ bv = "FAILED"
      \/ contains "Block Tensor Not Supported" sv = true
      \/ contains "Block Tensor Not Supported" bv = true
      \/ PyFloat.py_float sv = None \/ PyFloat.py_float bv = None
      \/ (exists b, PyFloat.py_float bv = Some b /\ PyFloat.gt0 b = false).
Proof.
  unfold pair_ratio. pose proof (unusable_iff sv bv) as Hu.
  destruct (unusable sv bv).
  - split; [intros _|reflexivity].
    destruct (proj1 Hu eq_refl) as [H|[H|[H|[H|[H|H]]]]]; tauto.
  - assert (Hn : ~ (sv = EmptyString \/ bv = EmptyString \/ sv = "FAILED" \/ bv = "FAILED"
                    \/ contains "Block Tensor Not Supported" sv = true
                    \/ contains "Block Tensor Not Supported" bv = true)).
    { intros H. apply Hu in H. discriminate. }
    destruct (PyFloat.py_float sv) as [x|]; [|tauto].
    destruct (PyFloat.py_float bv) as [b|]; [|tauto].
    destruct (PyFloat.gt0 b) eqn:Eg.
    + split; [discriminate|].
      intros [H|[H|[H|[H|[H|[H|[H|[H|(b' & Hb & Hg)]]]]]]]]; try tauto; try discriminate.
      inversion Hb; subst. congruence.
    + split; [intros _|reflexivity].
      do 8 right. now exists b.
Qed.

End OverheadFacts.

(** C2, as stated, fails for a zero sanitizer value: over a positive
    baseline it is kept, as the ratio zero. *)
Lemma zero_sanitizer_is_kept :
  Overhead.calculate_overhead [[("sanitizer", "0.0"); ("baseline", "5.0")]]
    "sanitizer" "baseline" = Some [0%float]
  /\ Overhead.calculate_kernel_overhead [[("sanitizer", "0.0"); ("baseline", "5.0")]]
       "sanitizer" "baseline" <> Some [].
Proof. vm_compute. split; [reflexivity|discriminate]. Qed.

(** C2, amended: when every row has the two columns, the ratios are the
    rows' contributions in order and nothing is raised; a pair contributes
    nothing when either stripped value is empty or [FAILED], or when the
    baseline is zero, so [10.0] over [0.0] gives no entry; a pair of numbers
    with a positive baseline, a zero sanitizer value included, contributes
    its quotient.  A pair contributes nothing exactly when either stripped
    value is empty, [FAILED], contains [Block Tensor Not Supported] or does
    not convert to a float, or the baseline is not greater than zero, which
    covers a zero, a negative baseline and one that is not a number. *)
Theorem ratio_pairs_skipped (data : list Overhead.row) (sanitizer_col baseline_col : string) :
  Forall (fun r => Dict.get sanitizer_col r <> None /\ Dict.get baseline_col r <> None) data ->
  Overhead.calculate_overhead data sanitizer_col baseline_col
  = Some (flat_map
            (fun r => match Dict.get sanitizer_col r, Dict.get baseline_col r with
                      | Some sv, Some bv => Overhead.pair_ratio (Text.strip sv) (Text.strip bv)
                      | _, _ => []
                      end) data)
  /\ (forall sv bv,
        sv = EmptyString \/ bv = EmptyString \/ sv = "FAILED" \/ bv = "FAILED"
        \/ (exists b, PyFloat.py_float bv = Some b /\ PrimFloat.eqb b 0%float = true) ->
        Overhead.pair_ratio sv bv = [])
  /\ Overhead.pair_ratio "10.0" "0.0" = []
  /\ (forall sv bv s b,
        Overhead.unusable sv bv = false ->
        PyFloat.py_float sv = Some s -> PyFloat.py_float bv = Some b ->
        PyFloat.gt0 b = true ->
        Overhead.pair_ratio sv bv = [PrimFloat.div s b])
  /\ (forall sv bv,
        Overhead.pair_ratio sv bv = []
        <-> sv = EmptyString \/ bv = EmptyString \/ sv = "FAILED" \/ bv = "FAILED"
            \/ Text.contains "Block Tensor Not Supported" sv = true
            \/ Text.contains "Block Tensor Not Supported" bv = true
            \/ PyFloat.py_float sv = None \/ PyFloat.py_float bv = None
            \/ (exists b, PyFloat.py_float bv = Some b /\ PyFloat.gt0 b = false))
  /\ (forall b,
        PrimFloat.eqb b 0%float = true \/ PrimFloat.ltb b 0%float = true \/ b = nan ->
        PyFloat.gt0 b = false)
  /\ Overhead.pair_ratio "10.0" "-2.0" = []
  /\ Overhead.pair_ratio "10.0" "nan" = []
  /\ Overhead.pair_ratio "10.0" "1.2.3" = []
  /\ Overhead.pair_ratio "n/a" "2.0" = []
  /\ Overhead.pair_ratio "Block Tensor Not Supported (x)" "2.0" = [].
Proof.
  intros Hall. split; [|split; [|split; [|split; [|split; [|split]]]]].
  - unfold Overhead.calculate_overhead. now rewrite overhead_loop_spec.
  - intros sv bv H. unfold Overhead.pair_ratio, Overhead.unusable.
    destruct H as [->|[->|[->|[->|(b & Hb & Hz)]]]].
    + reflexivity.
    + simpl. now rewrite orb_true_r.
    + simpl. now rewrite orb_true_r.
    + destruct (Text.nonempty sv); simpl; [|reflexivity].
      destruct (String.eqb sv "FAILED"); reflexivity.
    + match goal with |- (if ?c then _ else _) = _ => destruct c end; [reflexivity|].
      destruct (PyFloat.py_float sv); [|reflexivity].
      now rewrite Hb, (zero_not_gt0 _ Hz).
  - vm_compute. reflexivity.
  - intros sv bv s b Hu Hs Hb Hg. unfold Overhead.pair_ratio. now rewrite Hu, Hs, Hb, Hg.
  - exact pair_ratio_nil_iff.
  - exact not_gt0.
  - vm_compute. repeat split; reflexivity.
Qed.

Lemma ratio_pairs_skipped_witness :
  Overhead.calculate_overhead
    [ [("sanitizer", "10.0"); ("baseline", "0.0")];
      [("sanitizer", "FAILED"); ("baseline", "2.0")];
      [("sanitizer", "Block Tensor Not Supported"); ("baseline", "2.0")];
      [("sanitizer", "1.2.3"); ("baseline", "2.0")];
      [("sanitizer", "10.0"); ("baseline", "-2.0")];
      [("sanitizer", "10.0"); ("baseline", "nan")];
      [("sanitizer", "3.0"); ("baseline", "2.0")] ] "sanitizer" "baseline"
  = Some [1.5%float].
Proof.
  refine (eq_trans
            (proj1 (ratio_pairs_skipped
                      [ [("sanitizer", "10.0"); ("baseline", "0.0")];
                        [("sanitizer", "FAILED"); ("baseline", "2.0")];
                        [("sanitizer", "Block Tensor Not Supported"); ("baseline", "2.0")];
                        [("sanitizer", "1.2.3"); ("baseline", "2.0")];
                        [("sanitizer", "10.0"); ("baseline", "-2.0")];
                        [("sanitizer", "10.0"); ("baseline", "nan")];
                        [("sanitizer", "3.0"); ("baseline", "2.0")] ]
                      "sanitizer" "baseline" _)) _).
  - repeat constructor; vm_compute; discriminate.
  - vm_compute. reflexivity.
Defined.

(** ** Dictionaries *)

Section DictFacts.
Import Dict.
Context {V : Type}.
Implicit Types (d : dict V) (k : string) (v : V).

Lemma get_set_same k v d : get k (set k v d) = Some v.
Proof.
  induction d as [|[k' v'] d IH]; simpl.
  - now rewrite String.eqb_refl.
  - destruct (String.eqb k k') eqn:E; simpl; rewrite E; [reflexivity|exact IH].
Qed.

Lemma get_set_other k k' v d : k <> k' -> get k' (set k v d) = get k' d.
Proof.
  intros Hne. induction d as [|[k1 v1] d IH]; simpl.
  - destruct (String.eqb_spec k' k); [congruence|reflexivity].
  - destruct (String.eqb_spec k k1); simpl.
    + subst. destruct (String.eqb_spec k' k1); [congruence|reflexivity].
    + destruct (String.eqb k' k1); [reflexivity|exact IH].
Qed.

Lemma get_none_keys k d : get k d = None <-> ~ In k (keys d).
Proof.
  induction d as [|[k' v'] d IH]; simpl; [tauto|].
  destruct (String.eqb_spec k k').
  - subst. split; [discriminate|tauto].
  - rewrite IH. split; [intros H [E|Hin]; congruence || tauto|tauto].
Qed.

Lemma keys_set k v d :
  keys (set k v d) = if mem k d then keys d else keys d ++ [k].
Proof.
  unfold mem. induction d as [|[k' v'] d IH]; simpl; [reflexivity|].
  destruct (String.eqb k k') eqn:E; simpl; [reflexivity|].
  rewrite IH. now destruct (get k d).
Qed.

Lemma set_keeps_unique k v d : NoDup (keys d) -> NoDup (keys (set k v d)).
Proof.
  intros H. rewrite keys_set. unfold mem.
  destruct (get k d) eqn:E; [exact H|].
  apply get_none_keys in E.
  apply NoDup_rev in H. rewrite <- (rev_involutive (keys d ++ [k])).
  apply NoDup_rev. rewrite rev_app_distr. simpl. constructor; [|exact H].
  now rewrite <- in_rev.
Qed.

Lemma update_default_nil dflt k (f : V -> V) :
  update_default dflt k f [] = [(k, f dflt)].
Proof. reflexivity. Qed.

Lemma update_default_cons dflt k (f : V -> V) k' v d :
  update_default dflt k f ((k', v) :: d)
  = if String.eqb k k' then (k', f v) :: d else (k', v) :: update_default dflt k f d.
Proof. unfold update_default. simpl. now destruct (String.eqb k k'). Qed.

Lemma get_update_default dflt k (f : V -> V) k' d :
  get k' (update_default dflt k f d)
  = if String.eqb k' k
    then Some (f (match get k d with Some v => v | None => dflt end))
    else get k' d.
Proof.
  unfold update_default. destruct (String.eqb_spec k' k).
  - subst. apply get_set_same.
  - apply get_set_other. congruence.
Qed.

Lemma update_default_keeps_unique dflt k (f : V -> V) d :
  NoDup (keys d) -> NoDup (keys (update_default dflt k f d)).
Proof. apply set_keeps_unique. Qed.

End DictFacts.

(** ** Sums *)

#[export] Instance nat_exact : ExactArith nat.
Proof. split; simpl; intros; lia. Qed.

#[export] Instance Qc_exact : ExactArith Qc.
Proof.
  split; simpl; intros.
  - apply Qcplus_assoc.
  - apply Qcplus_comm.
  - apply Qcplus_0_l.
Qed.

Section SumFacts.
Context {A : Type} {NA : Numeric A} {EA : ExactArith A}.

Lemma nadd_zero_r (a : A) : nadd a nzero = a.
Proof. now rewrite nadd_comm, nadd_zero_l. Qed.

Lemma fold_left_nadd (xs : list A) : forall z,
  fold_left nadd xs z = nadd z (fold_right nadd nzero xs).
Proof.
  induction xs as [|x xs IH]; simpl; intros z.
  - now rewrite nadd_zero_r.
  - now rewrite IH, nadd_assoc.
Qed.

Lemma py_sum_cons (x : A) xs : py_sum (x :: xs) = nadd x (py_sum xs).
Proof.
  unfold py_sum. rewrite !fold_left_nadd. simpl. now rewrite !nadd_zero_l.
Qed.

Lemma py_sum_nil : py_sum (@nil A) = nzero.
Proof. reflexivity. Qed.

Lemma py_sum_app (xs ys : list A) : py_sum (xs ++ ys) = nadd (py_sum xs) (py_sum ys).
Proof.
  induction xs as [|x xs IH]; simpl.
  - now rewrite py_sum_nil, nadd_zero_l.
  - now rewrite !py_sum_cons, IH, nadd_assoc.
Qed.

(** Without rounding, a sum does not depend on the order of its terms. *)
Lemma py_sum_perm (xs ys : list A) : Permutation xs ys -> py_sum xs = py_sum ys.
Proof.
  induction 1 as [|x xs ys _ IH|x y xs|xs ys zs _ IH1 _ IH2].
  - reflexivity.
  - now rewrite !py_sum_cons, IH.
  - rewrite !py_sum_cons, !nadd_assoc. now rewrite (nadd_comm y x).
  - now rewrite IH1.
Qed.

End SumFacts.

(** ** Grouping and totals *)

Section TotalsFacts.
Import Dict KernelTime.
Context {R : Type}.

Lemma not_mentioned k (l : list (log_record R)) : mentions k l = false -> measurements_for k l = [].
Proof.
  unfold mentions, measurements_for. induction l as [|r l IH]; simpl; [reflexivity|].
  destruct (String.eqb k (test_identifier r)); simpl; [discriminate|exact IH].
Qed.

Lemma mentions_app k (l1 l2 : list (log_record R)) : mentions k (l1 ++ l2) = mentions k l1 || mentions k l2.
Proof. apply existsb_app. Qed.

Lemma measurements_for_app k (l1 l2 : list (log_record R)) :
  measurements_for k (l1 ++ l2) = measurements_for k l1 ++ measurements_for k l2.
Proof. unfold measurements_for. now rewrite filter_app, map_app. Qed.

Lemma mentions_perm k (l1 l2 : list (log_record R)) : Permutation l1 l2 -> mentions k l1 = mentions k l2.
Proof.
  intros HP. unfold mentions. apply eq_true_iff_eq. rewrite !existsb_exists.
  split; intros (r & Hin & Hr); exists r; split; try assumption.
  - now apply (Permutation_in _ HP).
  - now apply (Permutation_in _ (Permutation_sym HP)).
Qed.

Lemma filter_perm {A : Type} (f : A -> bool) (l1 l2 : list A) :
  Permutation l1 l2 -> Permutation (filter f l1) (filter f l2).
Proof.
  induction 1 as [|x xs ys _ IH|x y xs|xs ys zs _ IH1 _ IH2]; simpl.
  - constructor.
  - destruct (f x); [now constructor|exact IH].
  - destruct (f x), (f y); try reflexivity. apply perm_swap.
  - now transitivity (filter f ys).
Qed.

Lemma measurements_for_perm k (l1 l2 : list (log_record R)) :
  Permutation l1 l2 -> Permutation (measurements_for k l1) (measurements_for k l2).
Proof. intros HP. unfold measurements_for. now apply Permutation_map, filter_perm. Qed.

(** The loop of appends, from any starting results. *)
Lemma group_from_get (l : list (log_record R)) : forall acc k,
  get k (fold_left (fun res r => append_result (test_identifier r) (measurement_of r) res) l acc)
  = if mentions k l
    then Some (or_empty (get k acc) ++ measurements_for k l)
    else get k acc.
Proof.
  induction l as [|r l IH]; intros acc k; [reflexivity|].
  cbn [fold_left]. rewrite IH. unfold append_result. rewrite get_update_default.
  unfold mentions, measurements_for. cbn [existsb filter].
  destruct (String.eqb_spec k (test_identifier r)) as [->|Hne]; cbn [orb map].
  - fold (mentions (test_identifier r) l). fold (measurements_for (test_identifier r) l).
    destruct (mentions (test_identifier r) l) eqn:Em; cbn [or_empty].
    + f_equal. now rewrite <- app_assoc.
    + rewrite (not_mentioned _ _ Em). reflexivity.
  - reflexivity.
Qed.

Lemma group_records_get (l : list (log_record R)) k :
  get k (group_records l) = if mentions k l then Some (measurements_for k l) else None.
Proof. unfold group_records. now rewrite group_from_get. Qed.

Lemma group_from_unique (l : list (log_record R)) : forall acc,
  NoDup (keys acc) ->
  NoDup (keys (fold_left
                 (fun res r => append_result (test_identifier r) (measurement_of r) res) l acc)).
Proof.
  induction l as [|r l IH]; intros acc H; [exact H|].
  cbn [fold_left]. apply IH. now apply update_default_keeps_unique.
Qed.

Lemma group_records_unique (l : list (log_record R)) : NoDup (keys (group_records l)).
Proof. apply group_from_unique. constructor. Qed.

Context {N : Numeric R}.

(** The loop that assigns one total per key. *)
Lemma totals_loop_get keep (res : dict (list (measurement R))) : forall acc k,
  NoDup (keys res) ->
  get k (fold_left (fun totals item => set (fst item) (total_of keep (snd item)) totals) res acc)
  = match get k res with
    | Some ms => Some (total_of keep ms)
    | None => get k acc
    end.
Proof.
  induction res as [|[k1 v1] res IH]; intros acc k Hnd; [reflexivity|].
  inversion Hnd as [|? ? Hk1 Hnd']; subst.
  cbn [fold_left fst snd]. rewrite IH by assumption. cbn [get].
  destruct (String.eqb_spec k k1) as [->|Hne].
  - apply get_none_keys in Hk1. rewrite Hk1. apply get_set_same.
  - destruct (get k res); [reflexivity|]. apply get_set_other. congruence.
Qed.

Lemma merge_results_get (res : dict (list (measurement R))) : forall acc k,
  NoDup (keys res) ->
  get k (merge_results acc res)
  = match get k res with
    | Some ms => Some (or_empty (get k acc) ++ ms)
    | None => get k acc
    end.
Proof.
  unfold merge_results.
  induction res as [|[k1 v1] res IH]; intros acc k Hnd; [reflexivity|].
  inversion Hnd as [|? ? Hk1 Hnd']; subst.
  cbn [fold_left fst snd]. rewrite IH by assumption. rewrite !get_update_default. cbn [get].
  destruct (String.eqb_spec k k1) as [->|Hne].
  - apply get_none_keys in Hk1. now rewrite Hk1.
  - reflexivity.
Qed.

Lemma merge_results_unique (res : dict (list (measurement R))) : forall acc,
  NoDup (keys acc) -> NoDup (keys (merge_results acc res)).
Proof.
  unfold merge_results. induction res as [|item res IH]; intros acc H; [exact H|].
  cbn [fold_left]. apply IH. now apply update_default_keeps_unique.
Qed.

Lemma merged_files_get (files : list (list (log_record R))) : forall acc k,
  get k (fold_left merge_results (map group_records files) acc)
  = if mentions k (concat files)
    then Some (or_empty (get k acc) ++ measurements_for k (concat files))
    else get k acc.
Proof.
  induction files as [|f files IH]; intros acc k; [reflexivity|].
  cbn [map fold_left concat]. rewrite IH.
  rewrite merge_results_get by apply group_records_unique.
  rewrite group_records_get, mentions_app, measurements_for_app.
  destruct (mentions k f) eqn:Ef; cbn [orb or_empty].
  - destruct (mentions k (concat files)) eqn:Eg.
    + now rewrite <- app_assoc.
    + now rewrite (not_mentioned _ _ Eg), app_nil_r.
  - now rewrite (not_mentioned _ _ Ef).
Qed.

Lemma merged_files_unique (files : list (list (log_record R))) : forall acc,
  NoDup (keys acc) -> NoDup (keys (fold_left merge_results (map group_records files) acc)).
Proof.
  induction files as [|f files IH]; intros acc H; [exact H|].
  cbn [map fold_left]. apply IH. now apply merge_results_unique.
Qed.

Lemma calculate_totals_get (l : list (log_record R)) k :
  get k (calculate_totals (group_records l))
  = if mentions k l then Some (total_of false (measurements_for k l)) else None.
Proof.
  unfold calculate_totals. rewrite totals_loop_get by apply group_records_unique.
  rewrite group_records_get. now destruct (mentions k l).
Qed.

Lemma totals_of_files_get (files : list (list (log_record R))) k :
  get k (totals_of_files (map group_records files))
  = if mentions k (concat files)
    then Some (total_of true (measurements_for k (concat files)))
    else None.
Proof.
  unfold totals_of_files.
  rewrite totals_loop_get by (apply merged_files_unique; constructor).
  rewrite merged_files_get. now destruct (mentions k (concat files)).
Qed.

End TotalsFacts.

(** C5: with sums in exact arithmetic, the totals and counts per test do
    not depend on the order of the records, whether the records of one
    parse are totalled or those of several files are merged first. *)
Theorem aggregation_order_independent {R : Type} {N : Numeric R} {E : ExactArith R} :
  (forall l1 l2 : list (KernelTime.log_record R),
      Permutation l1 l2 ->
      Dict.same_mapping (KernelTime.calculate_totals (KernelTime.group_records l1))
                        (KernelTime.calculate_totals (KernelTime.group_records l2)))
  /\ (forall files1 files2 : list (list (KernelTime.log_record R)),
        Permutation (concat files1) (concat files2) ->
        forall k,
          option_map (fun t => (KernelTime.total_ms t, KernelTime.count t))
            (Dict.get k (KernelTime.totals_of_files (map KernelTime.group_records files1)))
          = option_map (fun t => (KernelTime.total_ms t, KernelTime.count t))
              (Dict.get k (KernelTime.totals_of_files (map KernelTime.group_records files2)))).
Proof.
  assert (Hsum : forall k (l1 l2 : list (KernelTime.log_record R)),
             Permutation l1 l2 ->
             py_sum (map KernelTime.time_ms (measurements_for k l1))
             = py_sum (map KernelTime.time_ms (measurements_for k l2))
             /\ length (measurements_for k l1) = length (measurements_for k l2)).
  { intros k l1 l2 HP. pose proof (measurements_for_perm k _ _ HP) as HM. split.
    - now apply py_sum_perm, Permutation_map.
    - now apply Permutation_length. }
  split.
  - intros l1 l2 HP k. rewrite !calculate_totals_get, (mentions_perm k _ _ HP).
    destruct (mentions k l2); [|reflexivity].
    unfold KernelTime.total_of. destruct (Hsum k _ _ HP) as [-> ->]. reflexivity.
  - intros files1 files2 HP k. rewrite !totals_of_files_get, (mentions_perm k _ _ HP).
    destruct (mentions k (concat files2)); [|reflexivity].
    unfold KernelTime.total_of. cbn [option_map KernelTime.total_ms KernelTime.count].
    destruct (Hsum k _ _ HP) as [-> ->]. reflexivity.
Qed.

Lemma aggregation_order_independent_witness :
  Dict.same_mapping
    (KernelTime.calculate_totals (KernelTime.group_records [record_k1; record_k2]))
    (KernelTime.calculate_totals (KernelTime.group_records [record_k2; record_k1])).
Proof.
  apply (proj1 (@aggregation_order_independent Qc Qc_numeric Qc_exact)).
  apply perm_swap.
Defined.

(** ** Aggregation by function *)

Section AggregateFacts.
Import Dict KernelTime.
Context {R : Type} {N : Numeric R}.
Context {A : Type} {NA : Numeric A} {EA : ExactArith A}.
Variable p : aggregate R -> A.
Variable q : total R -> A.
Hypothesis p_add : forall x a, p (add_variant x a) = nadd (p a) (q x).
Hypothesis p_default : p (mk_aggregate nzero 0 0) = nzero.

Lemma nadd_swap (a b c : A) : nadd (nadd a b) c = nadd (nadd a c) b.
Proof. now rewrite <- !nadd_assoc, (nadd_comm b c). Qed.

(** One update of the aggregated dictionary adds the item's share. *)
Lemma sum_after_update k x (d : dict (aggregate R)) :
  py_sum (map p (values (update_default (mk_aggregate nzero 0 0) k (add_variant x) d)))
  = nadd (py_sum (map p (values d))) (q x).
Proof.
  induction d as [|[k' v] d IH].
  - rewrite update_default_nil. cbn [values map snd].
    now rewrite py_sum_cons, !py_sum_nil, p_add, p_default, nadd_zero_r.
  - rewrite update_default_cons. destruct (String.eqb k k'); cbn [values map snd].
    + rewrite !py_sum_cons, p_add. apply nadd_swap.
    + fold (values (update_default (mk_aggregate nzero 0 0) k (add_variant x) d)).
      fold (values d). now rewrite !py_sum_cons, IH, nadd_assoc.
Qed.

Lemma sum_after_loop (items : dict (total R)) : forall acc : dict (aggregate R),
  py_sum (map p (values
     (fold_left
        (fun aggregated item =>
           update_default (mk_aggregate nzero 0 0) (normalize_test_name (fst item))
                          (add_variant (snd item)) aggregated)
        items acc)))
  = nadd (py_sum (map p (values acc))) (py_sum (map q (values items))).
Proof.
  induction items as [|[k x] items IH]; intros acc.
  - cbn [fold_left values map]. now rewrite py_sum_nil, nadd_zero_r.
  - cbn [fold_left]. rewrite IH, sum_after_update. cbn [fst snd].
    change (values ((k, x) :: items)) with (x :: values items).
    cbn [map]. now rewrite py_sum_cons, nadd_assoc.
Qed.

Lemma sum_of_aggregate (totals_dict : option (dict (total R))) :
  py_sum (map p (values (aggregate_by_function totals_dict)))
  = py_sum (map q (match totals_dict with Some d => values d | None => [] end)).
Proof.
  destruct totals_dict as [d|]; [|reflexivity].
  unfold aggregate_by_function, aggregate_loop. rewrite sum_after_loop.
  cbn [values map]. now rewrite py_sum_nil, nadd_zero_l.
Qed.

End AggregateFacts.

Lemma py_sum_ones {A : Type} (l : list A) : py_sum (map (fun _ => 1) l) = length l.
Proof.
  induction l as [|x l IH]; [reflexivity|].
  cbn [map length]. now rewrite py_sum_cons, IH.
Qed.

(** C9, as stated, fails on floats: the additions inside the aggregation
    round, and the grand total of the aggregated times differs from that of
    the times it was given. *)
Lemma aggregate_changes_float_total :
  Dict.values totals_three_tests
  = [ KernelTime.mk_total 0x1.999999999999ap-4%float 1
        (Some [KernelTime.mk_measurement "k" 0x1.999999999999ap-4%float]);
      KernelTime.mk_total 0x1.999999999999ap-4%float 1
        (Some [KernelTime.mk_measurement "k" 0x1.999999999999ap-4%float]);
      KernelTime.mk_total 0x1.999999999999ap-2%float 1
        (Some [KernelTime.mk_measurement "k" 0x1.999999999999ap-2%float]) ]
  /\ KernelTime.aggregate_by_function (Some totals_three_tests)
     = [ ("test_k.py::test_a", KernelTime.mk_aggregate 0.5%float 2 2);
         ("test_k.py::test_b", KernelTime.mk_aggregate 0x1.999999999999ap-4%float 1 1) ]
  /\ py_sum (map KernelTime.total_ms (Dict.values totals_three_tests))
     = 0x1.3333333333334p-1%float
  /\ py_sum (map KernelTime.agg_total_ms
               (Dict.values (KernelTime.aggregate_by_function (Some totals_three_tests))))
     = 0x1.3333333333333p-1%float
  /\ py_sum (map KernelTime.agg_total_ms
               (Dict.values (KernelTime.aggregate_by_function (Some totals_three_tests))))
     <> py_sum (map KernelTime.total_ms (Dict.values totals_three_tests)).
Proof.
  vm_compute. repeat split; try reflexivity.
  intros H. apply (f_equal Prim2SF) in H. vm_compute in H. discriminate.
Qed.

(** C9, amended: the aggregation by normalised name preserves the grand
    total of the counts and the number of variants exactly, and the grand
    total of the times whenever the additions are exact. *)
Theorem aggregate_preserves_grand_total {R : Type} {N : Numeric R}
    (totals_dict : option (Dict.dict (KernelTime.total R))) :
  let input := match totals_dict with Some d => Dict.values d | None => [] end in
  let output := Dict.values (KernelTime.aggregate_by_function totals_dict) in
  py_sum (map KernelTime.agg_count output) = py_sum (map KernelTime.count input)
  /\ py_sum (map KernelTime.test_variants output) = length input
  /\ (ExactArith R ->
      py_sum (map KernelTime.agg_total_ms output) = py_sum (map KernelTime.total_ms input)).
Proof.
  cbv zeta. split; [|split].
  - apply (sum_of_aggregate KernelTime.agg_count KernelTime.count); reflexivity.
  - rewrite <- py_sum_ones.
    apply (sum_of_aggregate KernelTime.test_variants (fun _ => 1)); reflexivity.
  - intros E. apply (sum_of_aggregate KernelTime.agg_total_ms KernelTime.total_ms); reflexivity.
Qed.

Lemma aggregate_preserves_grand_total_witness :
  py_sum (map KernelTime.agg_total_ms
            (Dict.values
               (KernelTime.aggregate_by_function
                  (Some [ ("01_t[a]", KernelTime.mk_total (Q2Qc (5 # 2)) 1 None);
                          ("01_t[b]", KernelTime.mk_total (Q2Qc (7 # 2)) 1 None) ]))))
  = py_sum (map KernelTime.total_ms
              (Dict.values [ ("01_t[a]", KernelTime.mk_total (Q2Qc (5 # 2)) 1 None);
                             ("01_t[b]", KernelTime.mk_total (Q2Qc (7 # 2)) 1 None) ])).
Proof.
  apply (aggregate_preserves_grand_total
           (Some [ ("01_t[a]", KernelTime.mk_total (Q2Qc (5 # 2)) 1 None);
                   ("01_t[b]", KernelTime.mk_total (Q2Qc (7 # 2)) 1 None) ])).
  exact Qc_exact.
Defined.

(** ** Sorting *)

Section SortFacts.
Import PySort.
Context {A : Type} (key_of : A -> key).

Lemma key_leb_total a b : key_leb a b = false -> key_leb b a = true.
Proof.
  destruct a as [x|], b as [y|]; simpl; try congruence.
  rewrite N.leb_gt, N.leb_le. lia.
Qed.

Lemma key_leb_trans a b c : key_leb a b = true -> key_leb b c = true -> key_leb a c = true.
Proof.
  destruct a as [x|], b as [y|], c as [z|]; simpl; try congruence.
  rewrite !N.leb_le. lia.
Qed.

Lemma insert_perm x l : Permutation (insert key_of x l) (x :: l).
Proof.
  induction l as [|y l IH]; simpl; [reflexivity|].
  destruct (key_leb (key_of x) (key_of y)); [reflexivity|].
  rewrite IH. apply perm_swap.
Qed.

Lemma sorted_perm l : Permutation (sorted key_of l) l.
Proof.
  induction l as [|x l IH]; simpl; [reflexivity|].
  rewrite insert_perm. now constructor.
Qed.

Lemma insert_sorted x l :
  StronglySorted (key_le key_of) l -> StronglySorted (key_le key_of) (insert key_of x l).
Proof.
  induction 1 as [|y l Hs IH Hall]; simpl.
  - constructor; constructor.
  - destruct (key_leb (key_of x) (key_of y)) eqn:E.
    + constructor; [now constructor|]. constructor; [exact E|].
      apply Forall_impl with (2 := Hall). intros z Hz.
      exact (key_leb_trans _ _ _ E Hz).
    + constructor; [exact IH|].
      apply (Permutation_Forall (Permutation_sym (insert_perm x l))).
      constructor; [now apply key_leb_total|exact Hall].
Qed.

Lemma sorted_sorted l : StronglySorted (key_le key_of) (sorted key_of l).
Proof.
  induction l as [|x l IH]; simpl; [constructor|now apply insert_sorted].
Qed.

(** In a sorted list nothing with a number follows something without one. *)
Lemma sorted_inf_last l before x after :
  StronglySorted (key_le key_of) l -> l = before ++ x :: after -> key_of x = Inf ->
  Forall (fun y => key_of y = Inf) after.
Proof.
  intros Hs -> Hx. revert Hs. induction before as [|b before IH]; simpl; intros Hs.
  - apply StronglySorted_inv in Hs. destruct Hs as [_ Hall].
    apply Forall_impl with (2 := Hall). unfold key_le. rewrite Hx.
    intros y. now destruct (key_of y).
  - apply StronglySorted_inv in Hs. now apply IH.
Qed.

End SortFacts.

Lemma strongly_sorted_impl {A : Type} (P Q : A -> A -> Prop) (l : list A) :
  (forall x y, P x y -> Q x y) -> StronglySorted P l -> StronglySorted Q l.
Proof.
  intros H. induction 1 as [|x l Hs IH Hall]; constructor; [exact IH|].
  apply Forall_impl with (2 := Hall). apply H.
Qed.

(** ** Discovery of the log files *)

Section DiscoveryFacts.
Import FileSystem.

Lemma children_in_walk n p : In p (children n) -> In p (walk n).
Proof.
  destruct n as [ls|entries]; simpl; [tauto|].
  induction entries as [|[nm child] es IH]; simpl; [tauto|].
  intros [<-|H]; [now left|]. right. apply in_or_app. right. now apply IH.
Qed.

Lemma glob_in_rglob root dir p : In p (glob_log root dir) -> In p (rglob_log root dir).
Proof.
  unfold glob_log, rglob_log. destruct (lookup dir root) as [n|]; [|tauto].
  rewrite !in_map_iff. intros (rel & <- & H). exists rel. split; [reflexivity|].
  apply filter_In in H. apply filter_In. split; [apply children_in_walk|]; tauto.
Qed.

End DiscoveryFacts.

Section FileNumberFacts.
Import Text Re KernelTime.

Lemma all_chars_app cls (a b : string) :
  all_chars cls (a ++ b) = all_chars cls a && all_chars cls b.
Proof.
  induction a as [|c a IH]; cbn [append all_chars]; [reflexivity|].
  now rewrite IH, andb_assoc.
Qed.

Lemma string_app_nil_r (a : string) : (a ++ EmptyString)%string = a.
Proof. induction a as [|c a IH]; cbn [append]; [reflexivity|now rewrite IH]. Qed.

(** A run of [cls] characters at the start of a text that goes on with
    [r] and then leaves the class lies within [r]. *)
Lemma app_cls_split cls (m : string) : forall r rest c s',
  (m ++ rest = r ++ String c s')%string -> all_chars cls m = true -> cls c = false ->
  exists r2, r = (m ++ r2)%string /\ rest = (r2 ++ String c s')%string.
Proof.
  induction m as [|a m IH]; intros r rest c s' E Hm Hc.
  - exists r. cbn [append] in *. now split.
  - cbn [append all_chars] in *. apply andb_true_iff in Hm. destruct Hm as [Ha Hm].
    destruct r as [|b r]; cbn [append] in E; inversion E; subst.
    + congruence.
    + destruct (IH r rest c s' H1 Hm Hc) as (r2 & -> & ->). now exists r2.
Qed.

(** A match of [(\d+)_] is a run of digits with an underscore behind it. *)
Lemma file_number_hit s h :
  In h (run file_number s []) ->
  exists m rst t,
    In (m, rst) (plus_runs is_digit s) /\ strip_prefix "_" rst = Some t
    /\ groups h = [m].
Proof.
  unfold file_number. cbn [run]. intros H.
  apply in_flat_map in H. destruct H as (h1 & H1 & H).
  apply in_map_iff in H. destruct H as (h2 & <- & H2).
  apply in_map_iff in H1. destruct H1 as (h0 & <- & H0).
  apply in_map_iff in H0. destruct H0 as ([m rst] & <- & Hin).
  cbn [rest groups matched fst snd app] in H2.
  destruct (strip_prefix "_" rst) as [t|] eqn:E; [|contradiction].
  destruct H2 as [<-|[]]. now exists m, rst, t.
Qed.

Lemma search_at_start r s h : match_start r s = Some h -> search r s = Some h.
Proof. intros H. destruct s; cbn [search]; now rewrite H. Qed.

(** No match starts in a run of digits that something other than an
    underscore follows, nor at a character that is no digit. *)
Lemma file_number_no_match r c s' :
  all_chars is_digit r = true -> is_digit c = false -> r = EmptyString \/ c <> "_"%char ->
  match_start file_number (r ++ String c s') = None.
Proof.
  intros Hr Hc Hor.
  destruct (match_start file_number (r ++ String c s')) as [h|] eqn:E; [|reflexivity].
  exfalso. apply match_start_in, file_number_hit in E.
  destruct E as (m & rest & t & Hin & Ht & _).
  pose proof (plus_runs_all _ _ _ _ Hin) as Hm.
  apply plus_runs_split in Hin. destruct Hin as [Hs Hne].
  destruct (app_cls_split is_digit m r rest c s' (eq_sym Hs) Hm Hc) as (r2 & -> & ->).
  apply strip_prefix_split in Ht.
  destruct r2 as [|d r2]; cbn [append] in Ht; inversion Ht; subst.
  - destruct Hor as [Hor|Hor]; [|congruence].
    rewrite string_app_nil_r in Hor. congruence.
  - rewrite all_chars_app in Hr. apply andb_true_iff in Hr. destruct Hr as [_ Hr].
    cbn [all_chars] in Hr. apply andb_true_iff in Hr. destruct Hr as [Hd _].
    vm_compute in Hd. discriminate.
Qed.

Lemma search_passes_digits r : forall c s',
  all_chars is_digit r = true -> is_digit c = false -> r = EmptyString \/ c <> "_"%char ->
  search file_number (r ++ String c s') = search file_number s'.
Proof.
  induction r as [|d r IH]; intros c s' Hr Hc Hor.
  - pose proof (file_number_no_match EmptyString c s' Hr Hc Hor) as Hn.
    cbn [append] in Hn |- *. cbn [search]. now rewrite Hn.
  - pose proof (file_number_no_match (String d r) c s' Hr Hc Hor) as Hn.
    cbn [append] in Hn |- *. cbn [search]. rewrite Hn.
    cbn [all_chars] in Hr. apply andb_true_iff in Hr. destruct Hr as [_ Hr].
    apply IH; [exact Hr|exact Hc|].
    right. destruct Hor as [Hor|Hor]; [discriminate|exact Hor].
Qed.

Lemma search_digits_only r : all_chars is_digit r = true -> search file_number r = None.
Proof.
  induction r as [|d r IH]; intros Hr; [reflexivity|].
  cbn [search].
  destruct (match_start file_number (String d r)) as [h|] eqn:E.
  - exfalso. apply match_start_in, file_number_hit in E.
    destruct E as (m & rest & t & Hin & Ht & _).
    apply plus_runs_split in Hin. destruct Hin as [Hs _].
    apply strip_prefix_split in Ht. rewrite Hs, Ht, !all_chars_app in Hr.
    cbn [append all_chars] in Hr.
    apply andb_true_iff in Hr. destruct Hr as [_ Hr].
    apply andb_true_iff in Hr. destruct Hr as [Hr _].
    apply andb_true_iff in Hr. destruct Hr as [Hr _].
    vm_compute in Hr. discriminate.
  - cbn [all_chars] in Hr. apply andb_true_iff in Hr. now apply IH.
Qed.

(** The match at the start of a run of digits that an underscore follows
    takes the whole run. *)
Lemma file_number_match r s' :
  r <> EmptyString -> all_chars is_digit r = true ->
  exists h, match_start file_number (r ++ String "_" s') = Some h /\ group 1 h = r.
Proof.
  intros Hne Hr.
  destruct (plus_runs is_digit (r ++ String "_" s')) as [|[m rst] l] eqn:E.
  - exfalso. destruct r as [|d r]; [congruence|].
    cbn [append plus_runs all_chars] in E, Hr.
    apply andb_true_iff in Hr. destruct Hr as [Hd _]. rewrite Hd in E.
    now apply app_eq_nil in E.
  - assert (Hin : In (m, rst) (plus_runs is_digit (r ++ String "_" s')))
      by (rewrite E; now left).
    pose proof (plus_runs_all _ _ _ _ Hin) as Hm.
    pose proof (plus_runs_first _ _ _ _ _ E) as Hf.
    apply plus_runs_split in Hin. destruct Hin as [Hs _].
    destruct (app_cls_split is_digit m r rst "_"%char s' (eq_sym Hs) Hm eq_refl)
      as (r2 & -> & ->).
    destruct r2 as [|d r2].
    + rewrite string_app_nil_r in *.
      unfold match_start, file_number. cbn [run]. rewrite E.
      cbn [map flat_map rest groups matched fst snd app append strip_prefix].
      change (Ascii.eqb "_" "_") with true. cbn [map app].
      eexists. split; reflexivity.
    + exfalso. cbn [append first_is] in Hf.
      rewrite all_chars_app in Hr. apply andb_true_iff in Hr. destruct Hr as [_ Hr].
      cbn [all_chars] in Hr. apply andb_true_iff in Hr. destruct Hr as [Hd _].
      congruence.
Qed.

(** The search of [(\d+)_] finds what the reading of the name from left to
    right finds. *)
Lemma search_embedded s : forall r,
  all_chars is_digit r = true ->
  match search file_number (r ++ s) with
  | Some h => Some (PyFloat.int_of_digits (group 1 h))
  | None => None
  end = embedded_number_from r s.
Proof.
  induction s as [|c s IH]; intros r Hr.
  - rewrite string_app_nil_r, (search_digits_only r Hr). reflexivity.
  - cbn [embedded_number_from]. destruct (is_digit c) eqn:Ec.
    + replace (r ++ String c s)%string with ((r ++ String c EmptyString) ++ s)%string
        by (now rewrite string_app_assoc).
      apply IH. rewrite all_chars_app, Hr. cbn [all_chars]. now rewrite Ec.
    + destruct (Ascii.eqb c "_" && nonempty r) eqn:E.
      * apply andb_true_iff in E. destruct E as [E1 E2].
        apply Ascii.eqb_eq in E1. subst c.
        assert (Hne : r <> EmptyString) by (intros ->; discriminate).
        destruct (file_number_match r s Hne Hr) as (h & Hm & Hg).
        now rewrite (search_at_start _ _ _ Hm), Hg.
      * rewrite search_passes_digits; [exact (IH EmptyString eq_refl)|exact Hr|exact Ec|].
        apply andb_false_iff in E. destruct E as [E|E].
        -- right. intros ->. discriminate.
        -- left. destruct r; [reflexivity|discriminate].
Qed.

(** The sort key of [find_log_files] is the number embedded before an
    underscore in the name of the file. *)
Lemma extract_number_embedded (p : FileSystem.path) :
  extract_number p = embedded_key (FileSystem.name p).
Proof.
  unfold extract_number, embedded_key, embedded_number.
  rewrite <- (search_embedded (FileSystem.name p) EmptyString eq_refl).
  cbn [append]. now destruct (search file_number (FileSystem.name p)).
Qed.

(** A name has an embedded number exactly when one of its digits is
    directly followed by an underscore. *)
Lemma embedded_number_from_none s : forall r,
  embedded_number_from r s = None
  <-> (nonempty r && match s with String d _ => Ascii.eqb d "_" | EmptyString => false end
       || digit_before_underscore s) = false.
Proof.
  induction s as [|c s IH]; intros r; cbn [embedded_number_from digit_before_underscore].
  - rewrite andb_false_r. tauto.
  - destruct (is_digit c) eqn:Ec.
    + rewrite IH.
      assert (Hc : Ascii.eqb c "_" = false).
      { destruct (Ascii.eqb_spec c "_"%char); [subst; discriminate|reflexivity]. }
      rewrite Hc, andb_false_r. cbn [orb andb].
      assert (Hn : nonempty (r ++ String c EmptyString) = true) by (now destruct r).
      rewrite Hn. cbn [andb]. tauto.
    + cbn [andb orb]. destruct (Ascii.eqb c "_") eqn:Eu; cbn [andb].
      * destruct (nonempty r); cbn [andb orb]; [split; discriminate|].
        rewrite IH. cbn [nonempty andb orb]. tauto.
      * rewrite andb_false_r. cbn [orb]. rewrite IH. cbn [nonempty andb orb]. tauto.
Qed.

Lemma embedded_number_none (name : string) :
  embedded_number name = None <-> digit_before_underscore name = false.
Proof. unfold embedded_number. rewrite embedded_number_from_none. cbn [nonempty andb orb]. tauto. Qed.

End FileNumberFacts.

Example embedded_number_samples :
  embedded_number "01_a.log" = Some 1%N
  /\ embedded_number "run.log" = None
  /\ embedded_number "7.log" = None
  /\ embedded_number "test_3_x.log" = Some 3%N
  /\ embedded_number "a1b22_c.log" = Some 22%N
  /\ embedded_number "12a_3_4_.log" = Some 3%N
  /\ KernelTime.extract_number ["baseline"; "sub"; "010_flag_gems_test_abs.log"]
     = PySort.Num 10%N.
Proof. vm_compute. repeat split; reflexivity. Qed.

(** C8: for a configuration directory that exists, the discoverer returns
    the collection of [run.log], when present, and of every [*.log] entry
    found at any depth, each once, in nondecreasing order of the number
    that stands before an underscore in the name; names without such a
    number come after all the names that have one.  This holds for the
    layouts of both scripts and for any iteration order of the set.  The
    key the code sorts by is the number embedded in the name, the value of
    the first run of digits that an underscore follows directly, and a name
    has none exactly when none of its digits is directly followed by an
    underscore. *)
Theorem discovered_logs_sorted (parents : list string) (S : KernelTime.path_set)
    (output_dir : FileSystem.node) (config_name : string) (config_path : FileSystem.path) :
  find (FileSystem.exists_ output_dir) (KernelTime.possible_paths parents config_name)
    = Some config_path ->
  let run_log := config_path ++ ["run.log"] in
  let found :=
    (if FileSystem.exists_ output_dir run_log then [run_log] else [])
      ++ FileSystem.glob_log output_dir config_path
      ++ FileSystem.rglob_log output_dir config_path in
  let result := KernelTime.find_log_files_under parents S output_dir config_name in
  Permutation result (nodup FileSystem.path_eq_dec found)
  /\ NoDup result
  /\ (forall p, In p result <->
                (p = run_log /\ FileSystem.exists_ output_dir run_log = true)
                \/ In p (FileSystem.rglob_log output_dir config_path))
  /\ StronglySorted
       (fun p q => PySort.key_leb (KernelTime.extract_number p) (KernelTime.extract_number q)
                   = true) result
  /\ (forall before p after,
        result = before ++ p :: after ->
        KernelTime.extract_number p = PySort.Inf ->
        Forall (fun q => KernelTime.extract_number q = PySort.Inf) after)
  /\ (forall p, KernelTime.extract_number p = embedded_key (FileSystem.name p))
  /\ (forall p, KernelTime.extract_number p = PySort.Inf
                <-> digit_before_underscore (FileSystem.name p) = false)
  /\ StronglySorted
       (fun p q => PySort.key_leb (embedded_key (FileSystem.name p))
                                  (embedded_key (FileSystem.name q)) = true) result
  /\ (forall before p after,
        result = before ++ p :: after ->
        digit_before_underscore (FileSystem.name p) = false ->
        Forall (fun q => digit_before_underscore (FileSystem.name q) = false) after).
Proof.
  intros Hfind run_log found result.
  assert (Hinf : forall p, KernelTime.extract_number p = PySort.Inf
                           <-> digit_before_underscore (FileSystem.name p) = false).
  { intros p. rewrite extract_number_embedded, <- embedded_number_none.
    unfold embedded_key. destruct (embedded_number (FileSystem.name p));
      split; congruence. }
  assert (HP : Permutation result (nodup FileSystem.path_eq_dec found)).
  { unfold result, KernelTime.find_log_files_under. rewrite Hfind.
    fold run_log. fold found. rewrite sorted_perm. apply PySet.elements_perm. }
  assert (Hs : StronglySorted (key_le KernelTime.extract_number) result).
  { unfold result, KernelTime.find_log_files_under. rewrite Hfind. apply sorted_sorted. }
  split; [exact HP|]. split; [|split; [|split; [|split; [|split; [|split; [|split]]]]]].
  - apply (Permutation_NoDup (Permutation_sym HP)), NoDup_nodup.
  - intros p. split.
    + intros H. apply (Permutation_in _ HP), nodup_In in H.
      unfold found in H. apply in_app_or in H. destruct H as [H|H].
      * left. destruct (FileSystem.exists_ output_dir run_log); [|contradiction].
        destruct H as [<-|[]]. split; reflexivity.
      * right. apply in_app_or in H. destruct H as [H|H]; [now apply glob_in_rglob|exact H].
    + intros H. apply (Permutation_in _ (Permutation_sym HP)), nodup_In.
      unfold found. destruct H as [[-> He]|H].
      * rewrite He. apply in_or_app. left. now left.
      * apply in_or_app. right. apply in_or_app. now right.
  - exact Hs.
  - intros before p after. now apply sorted_inf_last.
  - exact extract_number_embedded.
  - exact Hinf.
  - apply strongly_sorted_impl with (2 := Hs). intros p q H.
    unfold key_le in H. now rewrite !extract_number_embedded in H.
  - intros before p after E Hp. apply Hinf in Hp.
    pose proof (sorted_inf_last KernelTime.extract_number result before p after Hs E Hp)
      as Hall.
    apply Forall_impl with (2 := Hall). intros q. apply Hinf.
Qed.

Example find_log_files_sample :
  KernelTime.find_log_files (first_seen FileSystem.path_eq_dec) sample_output_dir "baseline"
  = [ ["kernel_time_tritonbench"; "baseline"; "sub"; "01_a.log"];
      ["kernel_time_tritonbench"; "baseline"; "02_b.log"];
      ["kernel_time_tritonbench"; "baseline"; "run.log"] ].
Proof. vm_compute. reflexivity. Qed.

Lemma discovered_logs_sorted_witness :
  NoDup (KernelTime.find_log_files (first_seen FileSystem.path_eq_dec)
           sample_output_dir "baseline")
  /\ StronglySorted
       (fun p q => PySort.key_leb (KernelTime.extract_number p) (KernelTime.extract_number q)
                   = true)
       (KernelTime.find_log_files (first_seen FileSystem.path_eq_dec)
          sample_output_dir "baseline")
  /\ StronglySorted
       (fun p q => PySort.key_leb (embedded_key (FileSystem.name p))
                                  (embedded_key (FileSystem.name q)) = true)
       (KernelTime.find_log_files (first_seen FileSystem.path_eq_dec)
          sample_output_dir "baseline").
Proof.
  pose proof (discovered_logs_sorted
                ["kernel_time_liger_kernel"; "kernel_time_tritonbench"]
                (first_seen FileSystem.path_eq_dec) sample_output_dir "baseline"
                ["kernel_time_tritonbench"; "baseline"] eq_refl) as T.
  cbv zeta in T. destruct T as (_ & Hnd & _ & Hs & _ & _ & _ & He & _).
  split; [exact Hnd|split; [exact Hs|exact He]].
Defined.

(** ** The CSV rows *)

Section ExportFacts.
Import Dict KernelTime.

Lemma mem_keys {V : Type} k (d : dict V) : mem k d = true <-> In k (keys d).
Proof.
  unfold mem. pose proof (get_none_keys k d) as H.
  destruct (get k d); split; intros; try reflexivity; try discriminate.
  - destruct (in_dec string_dec k (keys d)) as [Hin|Hn]; [exact Hin|].
    apply H in Hn. discriminate.
  - exfalso. now apply (proj1 H).
Qed.

Lemma format_zero : PyFloat.format_3f 0%float = "0.000".
Proof. vm_compute. reflexivity. Qed.

Lemma time_or_zero_absent (agg : dict (aggregate float)) name :
  mem name agg = false -> PyFloat.format_3f (time_or_zero agg name) = "0.000".
Proof.
  unfold mem, time_or_zero. destruct (get name agg); [discriminate|].
  intros _. exact format_zero.
Qed.

End ExportFacts.

(** The rows of an export that has any: one for each normalised name of
    the three aggregated results, with zero cells for absent tests. *)
Lemma export_rows (S : KernelTime.name_set)
    (baseline_totals compute_totals triton_totals
       : option (Dict.dict (KernelTime.total float)))
    (rows : list KernelTime.csv_row) :
  KernelTime.export_to_csv S baseline_totals compute_totals triton_totals = Some rows ->
  let baseline_agg := KernelTime.aggregate_by_function baseline_totals in
  let compute_agg := KernelTime.aggregate_by_function compute_totals in
  let triton_agg := KernelTime.aggregate_by_function triton_totals in
  (forall name,
      Dict.mem name baseline_agg || Dict.mem name compute_agg || Dict.mem name triton_agg = true
      <-> exists row, In row rows /\ KernelTime.Test_Name row = name)
  /\ NoDup (map KernelTime.Test_Name rows)
  /\ (forall row, In row rows ->
        (Dict.mem (KernelTime.Test_Name row) baseline_agg = false ->
         KernelTime.baseline_kernel_time row = "0.000")
        /\ (Dict.mem (KernelTime.Test_Name row) compute_agg = false ->
            KernelTime.compute_sanitizer_kernel_time row = "0.000")
        /\ (Dict.mem (KernelTime.Test_Name row) triton_agg = false ->
            KernelTime.triton_sanitizer_kernel_time row = "0.000")).
Proof.
  intros Hexp baseline_agg compute_agg triton_agg.
  unfold KernelTime.export_to_csv in Hexp.
  fold baseline_agg compute_agg triton_agg in Hexp.
  set (names := Dict.keys baseline_agg ++ Dict.keys compute_agg ++ Dict.keys triton_agg) in *.
  set (key := KernelTime.extract_test_number _) in *.
  assert (Hrows : rows
     = map (fun test_name =>
              KernelTime.mk_row test_name
                (PyFloat.format_3f (KernelTime.time_or_zero baseline_agg test_name))
                (PyFloat.format_3f (KernelTime.time_or_zero compute_agg test_name))
                (PyFloat.format_3f (KernelTime.time_or_zero triton_agg test_name)))
           (PySort.sorted key (PySet.elements S names))).
  { destruct (PySet.elements S names); [discriminate|]. now inversion Hexp. }
  clear Hexp.
  assert (HP : Permutation (PySort.sorted key (PySet.elements S names))
                           (nodup string_dec names)).
  { rewrite sorted_perm. apply PySet.elements_perm. }
  assert (Hnames : map KernelTime.Test_Name rows = PySort.sorted key (PySet.elements S names)).
  { rewrite Hrows, map_map. cbn [KernelTime.Test_Name]. apply map_id. }
  split; [|split].
  - intros name. rewrite !orb_true_iff, !mem_keys.
    transitivity (In name (map KernelTime.Test_Name rows)).
    + rewrite Hnames. split.
      * intros H. apply (Permutation_in _ (Permutation_sym HP)), nodup_In.
        unfold names. rewrite !in_app_iff. tauto.
      * intros H. apply (Permutation_in _ HP), nodup_In in H.
        unfold names in H. rewrite !in_app_iff in H. tauto.
    + rewrite in_map_iff. split; intros (row & H1 & H2); exists row; tauto.
  - rewrite Hnames. apply (Permutation_NoDup (Permutation_sym HP)), NoDup_nodup.
  - intros row Hin. rewrite Hrows in Hin. apply in_map_iff in Hin.
    destruct Hin as (name & <- & _). cbn.
    repeat split; apply time_or_zero_absent.
Qed.



Example export_sample_rows :
  KernelTime.export_to_csv (first_seen string_dec)
    sample_baseline_totals None sample_triton_totals = Some sample_rows.
Proof. vm_compute. reflexivity. Qed.

(** * Further properties of the scripts *)

(** ** Name normalisation *)

Section NormalizeMore.
Import Text Re KernelTime.

Lemma before_char_app c x rest :
  contains_char c x = false -> before_char c (x ++ String c rest)%string = x.
Proof.
  induction x as [|d x IH]; simpl; intros H.
  - now rewrite Ascii.eqb_refl.
  - apply orb_false_elim in H. destruct H as [Hd Hx]. rewrite Hd. now rewrite IH.
Qed.

Lemma cut_params_variant x params :
  contains_char "[" x = false -> cut_params (x ++ String "[" params)%string = x.
Proof.
  intros H. unfold cut_params. rewrite contains_char_app. simpl.
  rewrite orb_true_r. now apply before_char_app.
Qed.

Lemma before_char_length c s : String.length (before_char c s) <= String.length s.
Proof.
  induction s as [|d s IH]; cbn [before_char String.length]; [lia|].
  destruct (Ascii.eqb c d); cbn [String.length]; lia.
Qed.

End NormalizeMore.

(** All the parametrised variants of a test normalise to the name of the
    test itself: whatever follows the first bracket is ignored. *)
Theorem normalize_variants_collapse (x params : string) :
  Text.contains_char "[" x = false ->
  KernelTime.normalize_test_name (x ++ String "[" params)%string
  = KernelTime.normalize_test_name x.
Proof.
  intros H. unfold KernelTime.normalize_test_name.
  now rewrite cut_params_variant, cut_params_fixed.
Qed.

Lemma normalize_variants_collapse_witness :
  KernelTime.normalize_test_name ("test_a.py::test_f" ++ String "[" "0.1-dtype0]")%string
  = KernelTime.normalize_test_name "test_a.py::test_f".
Proof. apply normalize_variants_collapse. reflexivity. Defined.

(** The names that normalisation leaves alone are exactly those without a
    bracket and without a leading number and underscore; a normalised name
    never contains a bracket and is never longer than the original. *)
Theorem normalize_fixed_points (x : string) :
  (KernelTime.normalize_test_name x = x
   <-> Text.contains_char "[" x = false
       /\ Re.match_start KernelTime.number_prefix x = None)
  /\ Text.contains_char "[" (KernelTime.normalize_test_name x) = false
  /\ String.length (KernelTime.normalize_test_name x) <= String.length x.
Proof.
  split; [|split].
  - split.
    + intros Hx. assert (Hb : Text.contains_char "[" x = false).
      { rewrite <- Hx. apply normalize_no_bracket. }
      split; [exact Hb|].
      unfold KernelTime.normalize_test_name in Hx. rewrite (cut_params_fixed _ Hb) in Hx.
      unfold Re.sub_start in Hx.
      destruct (Re.match_start KernelTime.number_prefix x) as [h|] eqn:E; [|reflexivity].
      apply number_prefix_shortens in E. simpl in Hx. rewrite Hx in E. lia.
    + intros [Hb Hm]. unfold KernelTime.normalize_test_name, Re.sub_start.
      now rewrite (cut_params_fixed _ Hb), Hm.
  - apply normalize_no_bracket.
  - unfold KernelTime.normalize_test_name.
    assert (Hc : String.length (KernelTime.cut_params x) <= String.length x).
    { unfold KernelTime.cut_params. destruct (Text.contains_char "[" x); [|lia].
      apply before_char_length. }
    unfold Re.sub_start.
    destruct (Re.match_start KernelTime.number_prefix (KernelTime.cut_params x)) as [h|] eqn:E.
    + apply number_prefix_shortens in E. simpl. lia.
    + exact Hc.
Qed.

Lemma normalize_fixed_points_witness :
  KernelTime.normalize_test_name "tritonbench/softmax" = "tritonbench/softmax".
Proof.
  apply (proj2 (proj1 (normalize_fixed_points "tritonbench/softmax"))).
  split; reflexivity.
Defined.

(** ** Aggregation by function, key by key *)

Section AggregateByKey.
Import Dict KernelTime.
Context {R : Type} {N : Numeric R}.

Lemma add_variants_fold (xs : list (total R)) : forall a,
  fold_left (fun a x => add_variant x a) xs a
  = mk_aggregate (fold_left nadd (map total_ms xs) (agg_total_ms a))
                 (fold_left nadd (map count xs) (agg_count a))
                 (test_variants a + length xs).
Proof.
  induction xs as [|x xs IH]; intros a.
  - destruct a. cbn. f_equal. lia.
  - cbn [fold_left map length]. rewrite IH. cbn. f_equal. lia.
Qed.

Lemma aggregate_loop_get (items : dict (total R)) : forall (acc : dict (aggregate R)) k,
  get k (fold_left
           (fun aggregated item =>
              update_default (mk_aggregate nzero 0 0) (normalize_test_name (fst item))
                             (add_variant (snd item)) aggregated)
           items acc)
  = match variants_of k items with
    | [] => get k acc
    | vs => Some (fold_left (fun a x => add_variant x a) (values vs)
                    (match get k acc with Some a => a | None => mk_aggregate nzero 0 0 end))
    end.
Proof.
  induction items as [|[name x] items IH]; intros acc k; [reflexivity|].
  cbn [fold_left fst snd]. rewrite IH. unfold variants_of. cbn [filter fst].
  rewrite get_update_default.
  destruct (String.eqb_spec k (normalize_test_name name)) as [->|Hne].
  - fold (variants_of (normalize_test_name name) items).
    destruct (variants_of (normalize_test_name name) items); reflexivity.
  - reflexivity.
Qed.

Lemma aggregate_loop_unique (items : dict (total R)) : forall acc : dict (aggregate R),
  NoDup (keys acc) ->
  NoDup (keys (fold_left
                 (fun aggregated item =>
                    update_default (mk_aggregate nzero 0 0) (normalize_test_name (fst item))
                                   (add_variant (snd item)) aggregated)
                 items acc)).
Proof.
  induction items as [|item items IH]; intros acc Hacc; [exact Hacc|].
  cbn [fold_left]. apply IH. now apply update_default_keeps_unique.
Qed.

End AggregateByKey.

Lemma aggregate_get_of_variants {R : Type} {N : Numeric R}
    (d : Dict.dict (KernelTime.total R)) (k : string) :
  Dict.get k (KernelTime.aggregate_by_function (Some d))
  = match variants_of k d with
    | [] => None
    | vs => Some (KernelTime.mk_aggregate
                    (py_sum (map KernelTime.total_ms (Dict.values vs)))
                    (py_sum (map KernelTime.count (Dict.values vs)))
                    (length vs))
    end.
Proof.
  unfold KernelTime.aggregate_by_function, KernelTime.aggregate_loop.
  rewrite aggregate_loop_get. destruct (variants_of k d) as [|v vs] eqn:E; [reflexivity|].
  cbn [Dict.get]. rewrite add_variants_fold. unfold Dict.values. now rewrite length_map.
Qed.

(** For every normalised name, the aggregated entry is built from the
    variants of that name alone: their times added from zero in their
    order, their counts added, and their number; a name without variants
    has no entry.  No exactness of the additions is needed. *)
Theorem aggregate_entry_of_variants {R : Type} {N : Numeric R}
    (d : Dict.dict (KernelTime.total R)) (k : string) :
  Dict.get k (KernelTime.aggregate_by_function (Some d))
  = match variants_of k d with
    | [] => None
    | vs => Some (KernelTime.mk_aggregate
                    (py_sum (map KernelTime.total_ms (Dict.values vs)))
                    (py_sum (map KernelTime.count (Dict.values vs)))
                    (length vs))
    end.
Proof. exact (aggregate_get_of_variants d k). Qed.

Lemma aggregate_keys_normalized {R : Type} {N : Numeric R} (d : Dict.dict (KernelTime.total R)) :
  NoDup (Dict.keys (KernelTime.aggregate_by_function (Some d)))
  /\ (forall k, In k (Dict.keys (KernelTime.aggregate_by_function (Some d)))
                <-> In k (map KernelTime.normalize_test_name (Dict.keys d)))
  /\ length (KernelTime.aggregate_by_function (Some d)) <= length d.
Proof.
  assert (Hnd : NoDup (Dict.keys (KernelTime.aggregate_by_function (Some d)))).
  { apply aggregate_loop_unique. constructor. }
  assert (Hin : forall k, In k (Dict.keys (KernelTime.aggregate_by_function (Some d)))
                          <-> In k (map KernelTime.normalize_test_name (Dict.keys d))).
  { intros k. rewrite <- mem_keys. unfold Dict.mem. rewrite aggregate_get_of_variants.
    unfold Dict.keys. rewrite map_map, in_map_iff. split.
    - destruct (variants_of k d) as [|v vs] eqn:E; [discriminate|]. intros _.
      assert (Hv : In v (variants_of k d)) by (rewrite E; now left).
      apply filter_In in Hv. destruct Hv as [Hv Hk]. exists v. split; [|exact Hv].
      symmetry. now apply String.eqb_eq.
    - intros (item & Hk & Hitem).
      assert (Hv : In item (variants_of k d)).
      { apply filter_In. split; [exact Hitem|]. apply String.eqb_eq. now symmetry. }
      destruct (variants_of k d); [contradiction|reflexivity]. }
  split; [exact Hnd|]. split; [exact Hin|].
  rewrite <- (length_map fst), <- (length_map fst d).
  rewrite <- (length_map KernelTime.normalize_test_name (map fst d)).
  apply NoDup_incl_length; [exact Hnd|]. intros k Hk. now apply Hin.
Qed.

(** The aggregated names are the normalised input names, each once. *)
Theorem aggregate_keys {R : Type} {N : Numeric R} (d : Dict.dict (KernelTime.total R)) :
  NoDup (Dict.keys (KernelTime.aggregate_by_function (Some d)))
  /\ (forall k, In k (Dict.keys (KernelTime.aggregate_by_function (Some d)))
                <-> In k (map KernelTime.normalize_test_name (Dict.keys d)))
  /\ length (KernelTime.aggregate_by_function (Some d)) <= length d.
Proof. exact (aggregate_keys_normalized d). Qed.

(** ** The CSV rows, cell by cell and in order *)

Section ExportMore.
Import Dict KernelTime.

Lemma time_or_zero_shown (totals_dict : option (dict (total float))) name :
  time_or_zero (aggregate_by_function totals_dict) name = shown_time totals_dict name.
Proof.
  unfold time_or_zero, shown_time. destruct totals_dict as [d|]; [|reflexivity].
  rewrite aggregate_get_of_variants. cbn [or_empty].
  now destruct (variants_of name d).
Qed.

Lemma aggregate_keys_nil (totals_dict : option (dict (total float))) :
  keys (aggregate_by_function totals_dict) = [] <-> keys (or_empty totals_dict) = [].
Proof.
  destruct totals_dict as [d|]; [|split; reflexivity]. cbn [or_empty].
  destruct (aggregate_keys_normalized d) as (_ & Hin & _). split; intros H.
  - destruct d as [|[k v] d]; [reflexivity|]. exfalso.
    specialize (Hin (normalize_test_name k)). rewrite H in Hin.
    apply (proj2 Hin). now left.
  - destruct d; [reflexivity|discriminate].
Qed.

Lemma export_rows_form (S : name_set)
    (baseline_totals compute_totals triton_totals : option (dict (total float))) :
  let names := keys (aggregate_by_function baseline_totals)
               ++ keys (aggregate_by_function compute_totals)
               ++ keys (aggregate_by_function triton_totals) in
  let key := extract_test_number
               (fold_left collect_original [baseline_totals; compute_totals; triton_totals] []) in
  export_to_csv S baseline_totals compute_totals triton_totals
  = match PySet.elements S names with
    | [] => None
    | _ => Some (map (fun test_name =>
                        mk_row test_name
                          (PyFloat.format_3f (shown_time baseline_totals test_name))
                          (PyFloat.format_3f (shown_time compute_totals test_name))
                          (PyFloat.format_3f (shown_time triton_totals test_name)))
                     (PySort.sorted key (PySet.elements S names)))
    end.
Proof.
  cbv zeta. unfold export_to_csv.
  destruct (PySet.elements S _); [reflexivity|].
  f_equal. apply map_ext. intros name. now rewrite !time_or_zero_shown.
Qed.

Lemma elements_nil {A : Type} {dec : forall x y : A, {x = y} + {x <> y}}
    (S : PySet.iteration A dec) (l : list A) :
  PySet.elements S l = [] <-> l = [].
Proof.
  pose proof (PySet.elements_perm S l) as HP. split; intros H.
  - rewrite H in HP. apply Permutation_nil in HP.
    destruct l as [|x l]; [reflexivity|]. exfalso.
    assert (Hin : In x (nodup dec (x :: l))) by (apply nodup_In; now left).
    rewrite HP in Hin. contradiction.
  - subst l. cbn in HP. now apply Permutation_nil, Permutation_sym.
Qed.





End ExportMore.

(** The export has no rows exactly when no configuration has any test;
    otherwise every cell of every row is the three-decimal form of the time
    its configuration shows for the row's name: the times of the name's
    variants added up in their order, zero when there is none. *)
Theorem export_cells (S : KernelTime.name_set)
    (baseline_totals compute_totals triton_totals
       : option (Dict.dict (KernelTime.total float))) :
  (KernelTime.export_to_csv S baseline_totals compute_totals triton_totals = None
   <-> original_names baseline_totals compute_totals triton_totals = [])
  /\ (forall rows row,
        KernelTime.export_to_csv S baseline_totals compute_totals triton_totals = Some rows ->
        In row rows ->
        KernelTime.baseline_kernel_time row
        = PyFloat.format_3f (shown_time baseline_totals (KernelTime.Test_Name row))
        /\ KernelTime.compute_sanitizer_kernel_time row
           = PyFloat.format_3f (shown_time compute_totals (KernelTime.Test_Name row))
        /\ KernelTime.triton_sanitizer_kernel_time row
           = PyFloat.format_3f (shown_time triton_totals (KernelTime.Test_Name row))).
Proof.
  pose proof (export_rows_form S baseline_totals compute_totals triton_totals) as F.
  cbv zeta in F. split.
  - rewrite F. unfold original_names.
    set (names := Dict.keys _ ++ Dict.keys _ ++ Dict.keys _).
    transitivity (names = []).
    + rewrite <- (elements_nil S names).
      destruct (PySet.elements S names); split; congruence.
    + unfold names. split; intros H.
      * apply app_eq_nil in H. destruct H as [H1 H]. apply app_eq_nil in H.
        destruct H as [H2 H3]. apply aggregate_keys_nil in H1, H2, H3.
        now rewrite H1, H2, H3.
      * apply app_eq_nil in H. destruct H as [H1 H]. apply app_eq_nil in H.
        destruct H as [H2 H3]. apply aggregate_keys_nil in H1, H2, H3.
        now rewrite H1, H2, H3.
  - intros rows row Hexp Hin. rewrite F in Hexp.
    destruct (PySet.elements S _); [discriminate|]. inversion Hexp; subst rows.
    apply in_map_iff in Hin. destruct Hin as (name & <- & _). cbn. repeat split.
Qed.

Lemma export_cells_witness :
  KernelTime.baseline_kernel_time (KernelTime.mk_row "suite/test" "2.500" "0.000" "0.000")
  = PyFloat.format_3f
      (shown_time sample_baseline_totals
         (KernelTime.Test_Name (KernelTime.mk_row "suite/test" "2.500" "0.000" "0.000"))).
Proof.
  refine (proj1 (proj2 (export_cells (first_seen string_dec)
                          sample_baseline_totals None sample_triton_totals)
                       sample_rows _ _ _)).
  - vm_compute. reflexivity.
  - left. reflexivity.
Defined.



(** ** Discovery: what is found, and where *)

Section DiscoveryMore.
Import FileSystem.

Lemma lookup_app p q n :
  lookup (p ++ q) n = match lookup p n with Some m => lookup q m | None => None end.
Proof.
  revert n. induction p as [|c p IH]; intros n; [reflexivity|].
  cbn [app lookup]. destruct n as [ls|es]; [reflexivity|].
  destruct (entry c es); [apply IH|reflexivity].
Qed.

Lemma entry_in_children nm es child :
  entry nm es = Some child -> In [nm] (children (Dir es)).
Proof.
  cbn [children]. induction es as [|[n c] es IH]; cbn [entry map fst]; [discriminate|].
  destruct (String.eqb_spec nm n) as [->|Hne]; [now left|]. intros H. right. now apply IH.
Qed.

Lemma walk_nonempty n rel : In rel (walk n) -> rel <> [].
Proof.
  destruct n as [ls|es]; cbn [walk]; [tauto|].
  induction es as [|[nm child] es IH]; [tauto|].
  intros H. apply in_app_or in H. destruct H as [[<-|H]|H].
  - discriminate.
  - apply in_map_iff in H. destruct H as (x & <- & _). discriminate.
  - now apply IH.
Qed.

Lemma name_app p rel : rel <> [] -> name (p ++ rel) = name rel.
Proof.
  intros Hne. unfold name. induction p as [|c p IH]; [reflexivity|].
  cbn [app last]. destruct (p ++ rel) eqn:E; [|exact IH].
  apply app_eq_nil in E. tauto.
Qed.

(** An existing [run.log] is among the entries the recursive pattern finds. *)
Lemma run_log_in_rglob root dir :
  exists_ root (dir ++ ["run.log"]) = true -> In (dir ++ ["run.log"]) (rglob_log root dir).
Proof.
  unfold exists_, rglob_log. rewrite lookup_app.
  destruct (lookup dir root) as [n|]; [|discriminate].
  cbn [lookup]. destruct n as [ls|es]; [discriminate|].
  destruct (entry "run.log" es) as [child|] eqn:E; [|discriminate]. intros _.
  apply in_map, filter_In. split; [|reflexivity].
  apply children_in_walk. now apply entry_in_children in E.
Qed.

Lemma rglob_shape root dir p :
  In p (rglob_log root dir) ->
  (exists rel, rel <> [] /\ p = dir ++ rel) /\ is_log (name p) = true.
Proof.
  unfold rglob_log. destruct (lookup dir root) as [n|]; [|contradiction].
  intros H. apply in_map_iff in H. destruct H as (rel & <- & H).
  apply filter_In in H. destruct H as [Hw Hl].
  pose proof (walk_nonempty _ _ Hw) as Hne. split.
  - exists rel. now split.
  - now rewrite name_app.
Qed.

Lemma find_first {A : Type} (f : A -> bool) (x : A) (l : list A) :
  f x = true -> find f (x :: l) = Some x.
Proof. intros H. cbn. now rewrite H. Qed.

Lemma find_nothing {A : Type} (f : A -> bool) (l : list A) :
  (forall x, In x l -> f x = false) -> find f l = None.
Proof.
  induction l as [|x l IH]; intros H; [reflexivity|].
  cbn. rewrite (H x (or_introl eq_refl)). apply IH. intros y Hy. apply H. now right.
Qed.

End DiscoveryMore.

Lemma discovered_logs_are_recursive_matches_aux (parents : list string)
    (S : KernelTime.path_set) (output_dir : FileSystem.node) (config_name : string)
    (config_path : FileSystem.path) :
  find (FileSystem.exists_ output_dir) (KernelTime.possible_paths parents config_name)
    = Some config_path ->
  Permutation (KernelTime.find_log_files_under parents S output_dir config_name)
    (nodup FileSystem.path_eq_dec (FileSystem.rglob_log output_dir config_path)).
Proof.
  intros Hfind.
  set (run_log := config_path ++ ["run.log"]).
  set (found := (if FileSystem.exists_ output_dir run_log then [run_log] else [])
                  ++ FileSystem.glob_log output_dir config_path
                  ++ FileSystem.rglob_log output_dir config_path).
  assert (HP : Permutation (KernelTime.find_log_files_under parents S output_dir config_name)
                           (nodup FileSystem.path_eq_dec found)).
  { unfold KernelTime.find_log_files_under. rewrite Hfind.
    fold run_log. fold found. rewrite sorted_perm. apply PySet.elements_perm. }
  rewrite HP. apply NoDup_Permutation; try apply NoDup_nodup.
  intros p. rewrite !nodup_In. unfold found. rewrite !in_app_iff. split; [|tauto].
  intros [H|[H|H]]; [|now apply glob_in_rglob|exact H].
  destruct (FileSystem.exists_ output_dir run_log) eqn:He; [|contradiction].
  destruct H as [<-|[]]. now apply run_log_in_rglob.
Qed.

(** The discovered files are exactly the entries, at any depth below the
    configuration directory, whose name ends in [.log]: the separate look
    for [run.log] and the pattern for the directory itself add nothing to
    what the recursive pattern finds.  Every file returned lies below the
    configuration directory. *)
Theorem discovered_logs_are_recursive_matches (parents : list string)
    (S : KernelTime.path_set) (output_dir : FileSystem.node) (config_name : string)
    (config_path : FileSystem.path) :
  find (FileSystem.exists_ output_dir) (KernelTime.possible_paths parents config_name)
    = Some config_path ->
  let result := KernelTime.find_log_files_under parents S output_dir config_name in
  Permutation result
    (nodup FileSystem.path_eq_dec (FileSystem.rglob_log output_dir config_path))
  /\ (forall p, In p result ->
        (exists rel, rel <> [] /\ p = config_path ++ rel)
        /\ FileSystem.is_log (FileSystem.name p) = true).
Proof.
  intros Hfind result.
  pose proof (discovered_logs_are_recursive_matches_aux parents S output_dir config_name
                config_path Hfind) as HP.
  fold result in HP. split; [exact HP|].
  intros p Hp. apply (Permutation_in _ HP), nodup_In in Hp.
  now apply (rglob_shape output_dir config_path).
Qed.

Lemma discovered_logs_are_recursive_matches_witness :
  Permutation
    (KernelTime.find_log_files (first_seen FileSystem.path_eq_dec) sample_output_dir "baseline")
    (nodup FileSystem.path_eq_dec
       (FileSystem.rglob_log sample_output_dir ["kernel_time_tritonbench"; "baseline"])).
Proof.
  refine (proj1 (discovered_logs_are_recursive_matches
                   ["kernel_time_liger_kernel"; "kernel_time_tritonbench"]
                   (first_seen FileSystem.path_eq_dec) sample_output_dir "baseline"
                   ["kernel_time_tritonbench"; "baseline"] _)).
  reflexivity.
Defined.

(** Nothing is found, and [analyze_configuration] returns [None], when none
    of the layouts exists, and also when the directory chosen holds no entry
    whose name ends in [.log]; [analyze_configuration] returns [None] in no
    other case. *)
Theorem nothing_to_analyze (S : KernelTime.path_set) (output_dir : FileSystem.node)
    (config_name : string) (is_triton_sanitizer : bool) :
  ((forall p,
       In p (KernelTime.possible_paths
               ["kernel_time_liger_kernel"; "kernel_time_tritonbench"] config_name) ->
       FileSystem.exists_ output_dir p = false) ->
   KernelTime.find_log_files S output_dir config_name = [])
  /\ (forall config_path,
        find (FileSystem.exists_ output_dir)
             (KernelTime.possible_paths
                ["kernel_time_liger_kernel"; "kernel_time_tritonbench"] config_name)
          = Some config_path ->
        FileSystem.rglob_log output_dir config_path = [] ->
        KernelTime.find_log_files S output_dir config_name = [])
  /\ (KernelTime.analyze_configuration S output_dir config_name is_triton_sanitizer = None
      <-> KernelTime.find_log_files S output_dir config_name = []).
Proof.
  split; [|split].
  - intros H. unfold KernelTime.find_log_files, KernelTime.find_log_files_under.
    now rewrite (find_nothing _ _ H).
  - intros config_path Hfind Hempty.
    pose proof (discovered_logs_are_recursive_matches_aux
                  ["kernel_time_liger_kernel"; "kernel_time_tritonbench"]
                  S output_dir config_name config_path Hfind) as HP.
    rewrite Hempty in HP. cbn in HP. now apply Permutation_nil, Permutation_sym.
  - unfold KernelTime.analyze_configuration.
    destruct (KernelTime.find_log_files S output_dir config_name); split;
      congruence.
Qed.

Lemma nothing_to_analyze_witness :
  KernelTime.find_log_files (first_seen FileSystem.path_eq_dec)
    (FileSystem.Dir [("plots", FileSystem.Dir [("01_a.log", FileSystem.File [])])])
    "baseline" = [].
Proof.
  apply (proj1 (nothing_to_analyze (first_seen FileSystem.path_eq_dec)
                  (FileSystem.Dir [("plots", FileSystem.Dir [("01_a.log", FileSystem.File [])])])
                  "baseline" false)).
  intros p Hp. cbn in Hp. destruct Hp as [<-|[<-|[<-|[]]]]; reflexivity.
Defined.

(** When the configuration directory exists directly under the output
    directory, the nested layouts are not consulted: the result is the same
    whatever parents are tried, for both scripts. *)
Theorem direct_layout_wins (parents : list string) (S : KernelTime.path_set)
    (output_dir : FileSystem.node) (config_name : string) :
  FileSystem.exists_ output_dir [config_name] = true ->
  KernelTime.find_log_files_under parents S output_dir config_name
  = KernelTime.find_log_files_under [] S output_dir config_name
  /\ KernelTime.find_log_files S output_dir config_name
     = Ablation.find_log_files S output_dir config_name.
Proof.
  intros H. unfold Ablation.find_log_files, KernelTime.find_log_files,
    KernelTime.find_log_files_under, KernelTime.possible_paths.
  now rewrite !(find_first _ _ _ H).
Qed.

Lemma direct_layout_wins_witness :
  KernelTime.find_log_files (first_seen FileSystem.path_eq_dec)
    (FileSystem.Dir [("baseline", FileSystem.Dir [("01_a.log", FileSystem.File [])]);
                     ("ablation_studies",
                      FileSystem.Dir [("baseline",
                                       FileSystem.Dir [("02_b.log", FileSystem.File [])])])])
    "baseline"
  = Ablation.find_log_files (first_seen FileSystem.path_eq_dec)
      (FileSystem.Dir [("baseline", FileSystem.Dir [("01_a.log", FileSystem.File [])]);
                       ("ablation_studies",
                        FileSystem.Dir [("baseline",
                                         FileSystem.Dir [("02_b.log", FileSystem.File [])])])])
      "baseline".
Proof.
  refine (proj2 (direct_layout_wins [] (first_seen FileSystem.path_eq_dec) _ "baseline" _)).
  reflexivity.
Defined.

(** ** The parsers: shape of the results, markers, counts, files *)

Section ParserMore.
Import Text Re Dict KernelTime.
Variable metric : string -> option hit.

Lemma append_result_well_formed nm (m : measurement float) res :
  nonempty nm = true -> well_formed_results res ->
  well_formed_results (append_result nm m res).
Proof.
  intros Hnm [Hnd Hall]. unfold append_result. split.
  - now apply update_default_keeps_unique.
  - intros k ms. rewrite get_update_default.
    destruct (String.eqb_spec k nm) as [->|Hne].
    + intros E. inversion E. split; [exact Hnm|]. intros Hn.
      apply app_eq_nil in Hn. destruct Hn as [_ Hn]. discriminate.
    + apply Hall.
Qed.

Lemma run_lines_well_formed lines : forall st st',
  well_formed_results (results st) ->
  run_lines metric st lines = Some st' -> well_formed_results (results st').
Proof.
  induction lines as [|l lines IH]; cbn [run_lines]; intros st st' Hwf H.
  - now inversion H; subst.
  - destruct (step metric st l) as [st1|] eqn:Es; [|discriminate].
    apply (IH st1 st'); [|exact H].
    destruct (step_results metric _ _ _ Es) as [->|(h & nm & t & _ & _ & Hne & _ & ->)];
      [exact Hwf|now apply append_result_well_formed].
Qed.

Lemma empty_well_formed : well_formed_results (@nil (string * list (measurement float))).
Proof. split; [constructor|]. intros k ms H. discriminate. Qed.

Lemma parse_with_well_formed log_file : well_formed_results (parse_with metric log_file).
Proof.
  unfold parse_with. destruct log_file as [lines|]; [|apply empty_well_formed].
  destruct (run_lines metric initial lines) as [st|] eqn:E; [|apply empty_well_formed].
  apply (run_lines_well_formed lines initial st); [apply empty_well_formed|exact E].
Qed.

End ParserMore.

Section MarkerFacts.
Import Text Re KernelTime.

Lemma search_hit_suffix r s h :
  search r s = Some h -> exists pre s', s = (pre ++ s')%string /\ In h (run r s' []).
Proof.
  induction s as [|c s IH]; cbn [search].
  - destruct (match_start r EmptyString) eqn:E; [|discriminate].
    intros H; inversion H; subst. exists EmptyString, EmptyString.
    split; [reflexivity|now apply match_start_in].
  - destruct (match_start r (String c s)) eqn:E.
    + intros H; inversion H; subst. exists EmptyString, (String c s).
      split; [reflexivity|now apply match_start_in].
    + intros H. destruct (IH H) as (pre & s' & -> & Hin).
      exists (String c pre), s'. split; [reflexivity|exact Hin].
Qed.

Lemma contains_at p pre s' t :
  strip_prefix p s' = Some t -> contains p (pre ++ s')%string = true.
Proof.
  intros H. induction pre as [|c pre IH].
  - cbn [append]. destruct s'; cbn [contains]; now rewrite H.
  - cbn [append contains]. destruct (strip_prefix p (String c (pre ++ s'))); [reflexivity|].
    exact IH.
Qed.

(** A match of a pattern that opens with literal text needs that text. *)
Lemma search_needs_literal p r s h :
  search (Cat (Lit p) r) s = Some h -> contains p s = true.
Proof.
  intros H. apply search_hit_suffix in H. destruct H as (pre & s' & -> & Hin).
  cbn [run] in Hin. apply in_flat_map in Hin. destruct Hin as (h1 & H1 & _).
  destruct (strip_prefix p s') as [t|] eqn:E; [|contradiction].
  now apply (contains_at p pre s' t).
Qed.

Lemma gpu_time_match_marker l :
  contains "[liger][triton]" l = false -> contains "[triton-profiler]" l = false ->
  gpu_time_match l = None.
Proof.
  intros H1 H2. unfold gpu_time_match.
  destruct (search pattern1 l) eqn:E1.
  - apply search_needs_literal in E1. congruence.
  - destruct (search pattern2 l) eqn:E2; [|reflexivity].
    apply search_needs_literal in E2. congruence.
Qed.

Lemma exec_time_match_marker l :
  contains "Triton-Viz:" l = false -> exec_time_match l = None.
Proof.
  intros H. unfold exec_time_match.
  destruct (search triton_pattern l) eqn:E; [|reflexivity].
  apply search_needs_literal in E. congruence.
Qed.

End MarkerFacts.

(** Whatever the file, a parser returns each test at most once, never
    under an empty identifier, and never with an empty list of
    measurements; this holds for both parsers. *)
Theorem parse_results_well_formed (log_file : option (list string)) :
  well_formed_results (KernelTime.parse_baseline_compute_sanitizer log_file)
  /\ well_formed_results (KernelTime.parse_triton_sanitizer log_file).
Proof. split; apply parse_with_well_formed. Qed.

(** A log without the markers of a parser gives that parser nothing and
    makes it raise nothing: no [[liger][triton]] and no [[triton-profiler]]
    text for the baseline and compute-sanitizer parser, no [Triton-Viz:] text
    for the triton-sanitizer parser, whatever else the lines hold. *)
Theorem unmarked_lines_give_nothing (lines : list string) :
  (Forall (fun l => Text.contains "[liger][triton]" l = false
                    /\ Text.contains "[triton-profiler]" l = false) lines ->
   KernelTime.run_lines KernelTime.gpu_time_match KernelTime.initial lines <> None
   /\ KernelTime.parse_baseline_compute_sanitizer (Some lines) = [])
  /\ (Forall (fun l => Text.contains "Triton-Viz:" l = false) lines ->
      KernelTime.run_lines KernelTime.exec_time_match KernelTime.initial lines <> None
      /\ KernelTime.parse_triton_sanitizer (Some lines) = []).
Proof.
  split; intros Hall.
  - assert (Hm : Forall (fun l => KernelTime.gpu_time_match l = None) lines).
    { apply Forall_impl with (2 := Hall). intros l [H1 H2]. now apply gpu_time_match_marker. }
    destruct (run_lines_no_metric _ lines KernelTime.initial Hm) as (st & Hr & Hres).
    unfold KernelTime.parse_baseline_compute_sanitizer, KernelTime.parse_with.
    rewrite Hr. split; [discriminate|exact Hres].
  - assert (Hm : Forall (fun l => KernelTime.exec_time_match l = None) lines).
    { apply Forall_impl with (2 := Hall). intros l H. now apply exec_time_match_marker. }
    destruct (run_lines_no_metric _ lines KernelTime.initial Hm) as (st & Hr & Hres).
    unfold KernelTime.parse_triton_sanitizer, KernelTime.parse_with.
    rewrite Hr. split; [discriminate|exact Hres].
Qed.

Lemma unmarked_lines_give_nothing_witness :
  KernelTime.parse_baseline_compute_sanitizer
    (Some [line "Test: t"; line "Triton-Viz: execution time for k1: 1.2.3 ms"]) = [].
Proof.
  refine (proj2 (proj1 (unmarked_lines_give_nothing
                          [line "Test: t"; line "Triton-Viz: execution time for k1: 1.2.3 ms"])
                       _)).
  repeat constructor.
Defined.

Section TotalsMore.
Import Dict KernelTime.

Lemma set_fresh {V : Type} k (v : V) (d : dict V) :
  get k d = None -> set k v d = d ++ [(k, v)].
Proof.
  induction d as [|[k' v'] d IH]; cbn [get set app]; [reflexivity|].
  destruct (String.eqb k k'); [discriminate|]. intros H. now rewrite IH.
Qed.

Lemma get_app_fresh {V : Type} k k1 (v1 : V) (d : dict V) :
  k <> k1 -> get k d = None -> get k (d ++ [(k1, v1)]) = None.
Proof.
  intros Hne. induction d as [|[k' v'] d IH]; cbn [get app].
  - destruct (String.eqb_spec k k1); [contradiction|reflexivity].
  - destruct (String.eqb k k'); [discriminate|exact IH].
Qed.

Context {R : Type} {N : Numeric R}.

Lemma totals_loop_shape keep (res : dict (list (measurement R))) : forall acc,
  NoDup (keys res) ->
  (forall k, In k (keys res) -> get k acc = None) ->
  fold_left (fun totals item => set (fst item) (total_of keep (snd item)) totals) res acc
  = acc ++ map (fun item => (fst item, total_of keep (snd item))) res.
Proof.
  induction res as [|[k1 v1] res IH]; intros acc Hnd Hfresh.
  - cbn. now rewrite app_nil_r.
  - inversion Hnd as [|? ? Hk1 Hnd']; subst.
    cbn [fold_left fst snd map]. rewrite set_fresh by (apply Hfresh; now left).
    rewrite IH; [now rewrite <- app_assoc|exact Hnd'|].
    intros k Hk. apply get_app_fresh.
    + intros ->. contradiction.
    + apply Hfresh. now right.
Qed.

Lemma lengths_after_append k (m : measurement R) (d : dict (list (measurement R))) :
  py_sum (map (@length _) (values (update_default [] k (fun l => l ++ [m]) d)))
  = S (py_sum (map (@length _) (values d))).
Proof.
  induction d as [|[k' v] d IH].
  - reflexivity.
  - rewrite update_default_cons. destruct (String.eqb k k'); cbn [values map snd].
    + rewrite !py_sum_cons, length_app. cbn. lia.
    + fold (values (update_default [] k (fun l => l ++ [m]) d)). fold (values d).
      rewrite !py_sum_cons, IH. cbn. lia.
Qed.

Lemma lengths_after_group (l : list (log_record R)) : forall acc,
  py_sum (map (@length _) (values
     (fold_left (fun res r => append_result (test_identifier r) (measurement_of r) res) l acc)))
  = py_sum (map (@length _) (values acc)) + length l.
Proof.
  induction l as [|r l IH]; intros acc; cbn [fold_left length]; [lia|].
  rewrite IH. unfold append_result. rewrite lengths_after_append. lia.
Qed.

End TotalsMore.

Lemma calculate_totals_map {R : Type} {N : Numeric R}
    (res : Dict.dict (list (KernelTime.measurement R))) :
  NoDup (Dict.keys res) ->
  KernelTime.calculate_totals res
  = map (fun item =>
           (fst item,
            KernelTime.mk_total (py_sum (map KernelTime.time_ms (snd item)))
                                (length (snd item)) None))
        res.
Proof.
  intros Hnd. unfold KernelTime.calculate_totals.
  rewrite totals_loop_shape; [reflexivity|exact Hnd|reflexivity].
Qed.

(** On results in which each test occurs once, as every parser returns
    them, [calculate_totals] keeps the tests and their order and gives each
    test the sum of its times, added from zero in their order, and the
    number of its measurements. *)
Theorem calculate_totals_shape {R : Type} {N : Numeric R}
    (res : Dict.dict (list (KernelTime.measurement R))) :
  NoDup (Dict.keys res) ->
  KernelTime.calculate_totals res
  = map (fun item =>
           (fst item,
            KernelTime.mk_total (py_sum (map KernelTime.time_ms (snd item)))
                                (length (snd item)) None))
        res.
Proof. exact (calculate_totals_map res). Qed.

Lemma calculate_totals_shape_witness :
  KernelTime.calculate_totals
    (KernelTime.parse_baseline_compute_sanitizer (Some log_two_kernels))
  = map (fun item =>
           (fst item,
            KernelTime.mk_total (py_sum (map KernelTime.time_ms (snd item)))
                                (length (snd item)) None))
        (KernelTime.parse_baseline_compute_sanitizer (Some log_two_kernels)).
Proof.
  apply calculate_totals_shape. vm_compute. repeat constructor. intros [].
Defined.

(** No measurement is lost or counted twice: when a file is read without
    an exception, the counts of its totals add up to the number of records
    its lines produced. *)
Theorem counts_add_up_to_records (metric : string -> option Re.hit)
    (lines : list string) (st : KernelTime.parser_state) :
  KernelTime.run_lines metric KernelTime.initial lines = Some st ->
  py_sum (map KernelTime.count
            (Dict.values (KernelTime.calculate_totals
                            (KernelTime.parse_with metric (Some lines)))))
  = length (records_of metric KernelTime.initial lines).
Proof.
  intros Hrun.
  pose proof (parse_with_well_formed metric (Some lines)) as [Hnd _].
  rewrite (calculate_totals_map _ Hnd).
  unfold Dict.values. rewrite !map_map. cbn [snd KernelTime.count].
  rewrite (parse_is_grouping metric lines st Hrun). unfold KernelTime.group_records.
  pose proof (lengths_after_group (records_of metric KernelTime.initial lines) []) as H.
  unfold Dict.values in H. rewrite map_map in H. exact H.
Qed.

Lemma counts_add_up_to_records_witness :
  py_sum (map KernelTime.count
            (Dict.values (KernelTime.calculate_totals
                            (KernelTime.parse_with KernelTime.gpu_time_match
                               (Some log_two_kernels)))))
  = length (records_of KernelTime.gpu_time_match KernelTime.initial log_two_kernels).
Proof.
  refine (counts_add_up_to_records KernelTime.gpu_time_match log_two_kernels
            (KernelTime.mk_state (Some "01_tritonbench/softmax") (Some "01")
               [("01_tritonbench/softmax",
                 [KernelTime.mk_measurement "k1" 2.5%float;
                  KernelTime.mk_measurement "k2" 3.5%float])]) _).
  vm_compute. reflexivity.
Defined.

(** A log file that cannot be read, or in which a number fails to convert,
    contributes nothing to the totals of its configuration, and the totals
    are those of the other files. *)
Theorem failing_file_is_left_out (metric : string -> option Re.hit)
    (before after : list (option (list string))) (log_file : option (list string)) :
  log_file = None
  \/ (exists lines, log_file = Some lines
                    /\ KernelTime.run_lines metric KernelTime.initial lines = None) ->
  KernelTime.totals_of_files
    (map (KernelTime.parse_with metric) (before ++ log_file :: after))
  = KernelTime.totals_of_files (map (KernelTime.parse_with metric) (before ++ after)).
Proof.
  intros H.
  assert (Hp : KernelTime.parse_with metric log_file = []).
  { destruct H as [->|(lines & -> & Hr)]; [reflexivity|].
    unfold KernelTime.parse_with. now rewrite Hr. }
  unfold KernelTime.totals_of_files. rewrite !map_app, !fold_left_app.
  cbn [map fold_left]. rewrite Hp. reflexivity.
Qed.

Lemma failing_file_is_left_out_witness :
  KernelTime.totals_of_files
    (map (KernelTime.parse_with KernelTime.gpu_time_match)
         ([Some log_two_kernels] ++ Some log_with_bad_number :: []))
  = KernelTime.totals_of_files
      (map (KernelTime.parse_with KernelTime.gpu_time_match) ([Some log_two_kernels] ++ [])).
Proof.
  apply failing_file_is_left_out. right. exists log_with_bad_number.
  split; vm_compute; reflexivity.
Defined.

(** ** Ratios: rows that lack a column *)

Section OverheadMore.
Import Dict Overhead.

Lemma overhead_loop_missing data scol bcol : forall ratios,
  Exists (fun r => get scol r = None \/ get bcol r = None) data ->
  overhead_loop data scol bcol ratios = None.
Proof.
  induction data as [|r data IH]; intros ratios H; [inversion H|].
  cbn [overhead_loop].
  destruct (get scol r) as [sv|] eqn:Es; [|reflexivity].
  destruct (get bcol r) as [bv|] eqn:Eb; [|reflexivity].
  apply IH. inversion H as [? ? [H1|H1]|? ? H1]; subst; congruence || exact H1.
Qed.

Lemma pair_ratio_short sv bv : length (pair_ratio sv bv) <= 1.
Proof.
  unfold pair_ratio. destruct (unusable sv bv); [cbn; lia|].
  destruct (PyFloat.py_float sv); [|cbn; lia].
  destruct (PyFloat.py_float bv); [|cbn; lia].
  destruct (PyFloat.gt0 _); cbn; lia.
Qed.

Lemma overhead_loop_length data scol bcol : forall ratios out,
  overhead_loop data scol bcol ratios = Some out ->
  length out <= length ratios + length data.
Proof.
  induction data as [|r data IH]; cbn [overhead_loop length]; intros ratios out H.
  - inversion H; lia.
  - destruct (get scol r) as [sv|]; [|discriminate].
    destruct (get bcol r) as [bv|]; [|discriminate].
    apply IH in H. rewrite length_app in H.
    pose proof (pair_ratio_short (Text.strip sv) (Text.strip bv)). lia.
Qed.

End OverheadMore.

(** A row that lacks one of the two columns is not skipped: the lookup
    raises and no ratio list is returned, whatever the other rows hold.  When
    a list is returned, it has at most one ratio per row. *)
Theorem missing_column_raises (data : list Overhead.row) (sanitizer_col baseline_col : string) :
  (Exists (fun r => Dict.get sanitizer_col r = None \/ Dict.get baseline_col r = None) data ->
   Overhead.calculate_overhead data sanitizer_col baseline_col = None)
  /\ (forall ratios,
        Overhead.calculate_overhead data sanitizer_col baseline_col = Some ratios ->
        length ratios <= length data).
Proof.
  split.
  - apply overhead_loop_missing.
  - intros ratios H. apply overhead_loop_length in H. exact H.
Qed.

Lemma missing_column_raises_witness :
  Overhead.calculate_overhead
    [[("sanitizer", "3.0"); ("baseline", "2.0")]; [("sanitizer", "3.0")]]
    "sanitizer" "baseline" = None.
Proof.
  apply (proj1 (missing_column_raises
                  [[("sanitizer", "3.0"); ("baseline", "2.0")]; [("sanitizer", "3.0")]]
                  "sanitizer" "baseline")).
  right. left. right. reflexivity.
Defined.

(** ** The name shown for a test *)

Section ReportFacts.
Import Report.

Lemma take_length n s : String.length (take n s) = Nat.min n (String.length s).
Proof.
  revert s. induction n as [|n IH]; intros s; [reflexivity|].
  destruct s as [|c s]; [reflexivity|]. cbn [take String.length]. now rewrite IH.
Qed.


Lemma take_drop n s : (take n s ++ drop n s)%string = s.
Proof.
  revert s. induction n as [|n IH]; intros s; [reflexivity|].
  destruct s as [|c s]; [reflexivity|]. cbn [take drop append]. now rewrite IH.
Qed.

End ReportFacts.

(** The name printed for a test is never longer than 60 characters: a name
    of at most 60 characters is printed as it is, a longer one as its first
    57 characters followed by three dots, which makes exactly 60. *)
Theorem display_name_bounded (test_name : string) :
  String.length (Report.display_name test_name) <= 60
  /\ (String.length test_name <= 60 -> Report.display_name test_name = test_name)
  /\ (60 < String.length test_name ->
      Report.display_name test_name = (Report.take 57 test_name ++ "...")%string
      /\ String.length (Report.display_name test_name) = 60
      /\ test_name = (Report.take 57 test_name ++ Report.drop 57 test_name)%string).
Proof.
  unfold Report.display_name.
  destruct (Nat.ltb_spec 60 (String.length test_name)) as [Hlt|Hle].
  - rewrite string_length_app, take_length. cbn [String.length].
    repeat split; try lia. now rewrite take_drop.
  - repeat split; try lia.
Qed.

Lemma display_name_bounded_witness :
  Report.display_name "01_tritonbench/softmax_optimize" = "01_tritonbench/softmax_optimize".
Proof.
  apply (proj1 (proj2 (display_name_bounded "01_tritonbench/softmax_optimize"))).
  vm_compute. lia.
Defined.

(** ** The ablation analysis: totals per file *)

Section AblationFacts.
Import AblationReport.

Lemma fget_fset_same {V : Type} k (v : V) d : fget k (fset k v d) = Some v.
Proof.
  induction d as [|[k' v'] d IH]; cbn [fset fget].
  - now rewrite N.eqb_refl.
  - destruct (N.eqb k k') eqn:E; cbn [fget]; rewrite E; [reflexivity|exact IH].
Qed.

Lemma fget_fset_other {V : Type} k k' (v : V) d : k <> k' -> fget k' (fset k v d) = fget k' d.
Proof.
  intros Hne. induction d as [|[k1 v1] d IH]; cbn [fset fget].
  - destruct (N.eqb_spec k' k); [congruence|reflexivity].
  - destruct (N.eqb_spec k k1); cbn [fget].
    + subst. destruct (N.eqb_spec k' k1); [congruence|reflexivity].
    + destruct (N.eqb k' k1); [reflexivity|exact IH].
Qed.

Lemma fget_fset {V : Type} k k' (v : V) d :
  fget k' (fset k v d) = if N.eqb k' k then Some v else fget k' d.
Proof.
  destruct (N.eqb_spec k' k) as [->|Hne]; [apply fget_fset_same|].
  apply fget_fset_other. congruence.
Qed.

Lemma fget_none_keys {V : Type} k (d : file_dict V) : fget k d = None <-> ~ In k (map fst d).
Proof.
  induction d as [|[k' v'] d IH]; cbn [fget map fst In]; [tauto|].
  destruct (N.eqb_spec k k').
  - subst. split; [discriminate|tauto].
  - rewrite IH. split; [intros H [E|Hin]; congruence || tauto|tauto].
Qed.

Lemma inner_sum (ms : list (KernelTime.measurement float)) : forall acc : float * nat,
  fold_left (fun acc m => (PrimFloat.add (fst acc) (KernelTime.time_ms m), snd acc + 1)) ms acc
  = (fold_left PrimFloat.add (map KernelTime.time_ms ms) (fst acc), snd acc + length ms).
Proof.
  induction ms as [|m ms IH]; intros [t c]; cbn [fold_left map length fst snd].
  - f_equal. lia.
  - rewrite IH. cbn [fst snd]. f_equal. lia.
Qed.

Lemma outer_sum (res : Dict.dict (list (KernelTime.measurement float))) :
  forall acc : float * nat,
  fold_left
    (fun acc item =>
       fold_left (fun acc m => (PrimFloat.add (fst acc) (KernelTime.time_ms m), snd acc + 1))
                 (snd item) acc)
    res acc
  = (fold_left PrimFloat.add (map KernelTime.time_ms (concat (Dict.values res))) (fst acc),
     snd acc + length (concat (Dict.values res))).
Proof.
  induction res as [|[k ms] res IH]; intros [t c]; cbn [fold_left fst snd].
  - cbn. f_equal. lia.
  - rewrite inner_sum, IH. cbn [fst snd].
    change (Dict.values ((k, ms) :: res)) with (ms :: Dict.values res).
    cbn [concat]. rewrite map_app, fold_left_app, length_app. f_equal. lia.
Qed.

(** All the measurements of a file are added up, whatever their test. *)
Lemma sum_measurements_all (res : Dict.dict (list (KernelTime.measurement float))) :
  sum_measurements res
  = (py_sum (map KernelTime.time_ms (concat (Dict.values res))),
     length (concat (Dict.values res))).
Proof. unfold sum_measurements. now rewrite outer_sum. Qed.

Lemma analyze_loop_get (log_files : list (string * option (list string))) :
  forall acc n,
  fget n (fold_left
            (fun file_totals f =>
               match match_whole file_name_pattern (fst f) with
               | None => file_totals
               | Some h =>
                   let file_number := PyFloat.int_of_digits (Re.group 1 h) in
                   let base_name := Re.group 2 h in
                   let sums := sum_measurements (Ablation.parse_triton_sanitizer (snd f)) in
                   fset file_number (mk_file_total base_name (fst sums) (snd sums)) file_totals
               end)
            log_files acc)
  = match last_entry n (file_entries log_files) with
    | Some v => Some v
    | None => fget n acc
    end.
Proof.
  induction log_files as [|f fs IH]; intros acc n; [reflexivity|].
  cbn [fold_left]. rewrite IH. unfold file_entries. cbn [flat_map]. unfold file_entry at 2.
  destruct (match_whole file_name_pattern (fst f)) as [h|]; [|reflexivity].
  cbv zeta. rewrite sum_measurements_all. cbn [fst snd app last_entry].
  fold (file_entries fs). destruct (last_entry n (file_entries fs)); [reflexivity|].
  rewrite fget_fset. now destruct (N.eqb n _).
Qed.

End AblationFacts.

(** In the ablation analysis a log file counts only when its whole name is
    a number, an underscore, a name and [.log]; the entry kept for a file
    number is that of the last such file with this number in the order of
    discovery; it holds the name, the sum of the times of all the
    measurements of the file in their order, whatever their test, and their
    number. *)
Theorem ablation_totals_per_file (log_files : list (string * option (list string))) (n : N) :
  AblationReport.fget n (AblationReport.analyze_files log_files)
  = last_entry n (file_entries log_files).
Proof.
  unfold AblationReport.analyze_files. rewrite analyze_loop_get.
  now destruct (last_entry n (file_entries log_files)).
Qed.

Example ablation_run_log_is_skipped :
  AblationReport.analyze_files
    [ ("run.log", Some [line "Test: t"; line "Triton-Viz: execution time for k: 1.0 ms"]);
      ("007_flag_gems_test_x.log",
       Some [line "Test: t"; line "Triton-Viz: execution time for k: 2.5 ms";
             line "Test: u"; line "Triton-Viz: execution time for k: 3.5 ms"]) ]
  = [(7%N, AblationReport.mk_file_total "flag_gems_test_x" 6%float 2)].
Proof. vm_compute. reflexivity. Qed.

(** ** The ablation export *)

Section AblationExportFacts.
Import AblationReport.
Variable results : config_results.


Lemma first_file_name_unknown (names : list string) n :
  first_file_name results names n = Some None -> ~ In n (numbers_in results names).
Proof.
  induction names as [|c names IH]; intros H Hin; [contradiction|].
  cbn [first_file_name] in H. unfold numbers_in in Hin. cbn [flat_map] in Hin.
  destruct (Dict.get c results) as [[d|]|] eqn:E.
  - destruct (fget n d) as [ft|] eqn:Ef; [discriminate|].
    apply in_app_or in Hin. destruct Hin as [Hin|Hin]; [|now apply IH].
    apply fget_none_keys in Ef. contradiction.
  - discriminate.
  - now apply IH.
Qed.


Lemma row_cells_none (names : list string) n c :
  In c names -> Dict.get c results = Some None -> row_cells results names n = None.
Proof.
  induction names as [|c0 names IH]; intros Hin Hc; [contradiction|].
  cbn [row_cells]. destruct Hin as [->|Hin].
  - now rewrite Hc.
  - rewrite (IH Hin Hc). now destruct (Dict.get c0 results) as [[d|]|].
Qed.


Lemma export_rows_raise (numbers : list N) n c :
  In c config_names -> Dict.get c results = Some None ->
  In n (all_file_numbers results) ->
  export_rows results (n :: numbers) = None.
Proof.
  intros Hc Hnone Hin. cbn [export_rows].
  destruct (first_file_name results config_names n) as [[name|]|] eqn:E.
  - now rewrite (row_cells_none config_names n c Hc Hnone).
  - exfalso. now apply (first_file_name_unknown config_names n E).
  - reflexivity.
Qed.

End AblationExportFacts.


(** The ablation export raises as soon as one of the five configurations is
    present with [None], as the analysis leaves it when that configuration
    has no log files, while some other configuration has a file. *)
Theorem ablation_export_raises (S : AblationReport.number_set)
    (results : AblationReport.config_results) (config_name : string) :
  In config_name AblationReport.config_names ->
  Dict.get config_name results = Some None ->
  AblationReport.all_file_numbers results <> [] ->
  AblationReport.export_to_csv S results = AblationReport.Raised.
Proof.
  intros Hc Hnone Hne.
  set (elems := PySet.elements S (AblationReport.all_file_numbers results)).
  assert (HP : Permutation (PySort.sorted PySort.Num elems)
                           (nodup N.eq_dec (AblationReport.all_file_numbers results))).
  { rewrite sorted_perm. apply PySet.elements_perm. }
  unfold AblationReport.export_to_csv. fold elems.
  destruct elems as [|e elems'] eqn:Ee.
  - exfalso. apply Hne. now apply (elements_nil S).
  - rewrite <- Ee in *.
    destruct (PySort.sorted PySort.Num elems) as [|n numbers] eqn:E.
    + exfalso. pose proof (sorted_perm PySort.Num elems) as HQ. rewrite E in HQ.
      apply Permutation_nil in HQ. rewrite Ee in HQ. discriminate.
    + rewrite (export_rows_raise results numbers n config_name Hc Hnone); [reflexivity|].
      assert (Hn : In n (n :: numbers)) by now left.
      apply (Permutation_in _ HP) in Hn. now apply nodup_In in Hn.
Qed.


Example ablation_export_sample :
  AblationReport.export_to_csv (first_seen N.eq_dec) sample_ablation_results
  = AblationReport.Returned
      (Some [ AblationReport.mk_row "tritonbench/softmax"
                [ ("ablation_kernel_time_no_cache", "2.500");
                  ("ablation_kernel_time_symbol_only", "0.000");
                  ("ablation_kernel_time_symbol_loop", "0.000");
                  ("ablation_kernel_time_symbol_loop_grid", "0.000");
                  ("ablation_kernel_time_all_cache", "0.500") ];
              AblationReport.mk_row "flag_gems/test_x/test_y"
                [ ("ablation_kernel_time_no_cache", "0.000");
                  ("ablation_kernel_time_symbol_only", "0.000");
                  ("ablation_kernel_time_symbol_loop", "0.000");
                  ("ablation_kernel_time_symbol_loop_grid", "0.000");
                  ("ablation_kernel_time_all_cache", "1.000") ] ]).
Proof. vm_compute. reflexivity. Qed.

Lemma ablation_export_raises_witness :
  AblationReport.export_to_csv (first_seen N.eq_dec) sample_ablation_results_with_none
  = AblationReport.Raised.
Proof.
  apply (ablation_export_raises (first_seen N.eq_dec) sample_ablation_results_with_none
           "symbol_only").
  - right. left. reflexivity.
  - reflexivity.
  - vm_compute. discriminate.
Defined.

Example format_test_name_samples :
  AblationReport.format_test_name "liger_kernel_test_fused_linear_jsd_test_correctness_functional"
  = "liger_kernel/test_fused_linear_jsd/test_correctness_functional"
  /\ AblationReport.format_test_name "flag_gems_test_libentry_test_threadsafety"
     = "flag_gems/test_libentry/test_threadsafety"
  /\ AblationReport.format_test_name "tritonbench_softmax_optimize" = "tritonbench/softmax_optimize"
  /\ AblationReport.format_test_name "liger_kernel_test_a_latest_b" = "liger_kernel/test_a_l/test_b"
  /\ AblationReport.format_test_name "liger_kernel_test_xtest_y" = "liger_kernel/test_/test_y"
  /\ AblationReport.format_test_name "other_test_a_test_b" = "other_test_a_test_b"
  /\ AblationReport.format_test_name "liger_kernel_abc" = "liger_kernel/abc".
Proof. vm_compute. repeat split; reflexivity. Qed.

Example file_name_pattern_samples :
  AblationReport.match_whole AblationReport.file_name_pattern "run.log" = None
  /\ option_map Re.groups
       (AblationReport.match_whole AblationReport.file_name_pattern "007_flag_gems_test_x.log")
     = Some ["007"; "flag_gems_test_x"]
  /\ option_map Re.groups
       (AblationReport.match_whole AblationReport.file_name_pattern "01_a.log.log")
     = Some ["01"; "a.log"]
  /\ AblationReport.match_whole AblationReport.file_name_pattern "01_a.logx" = None
  /\ AblationReport.match_whole AblationReport.file_name_pattern "1_.log" = None.
Proof. vm_compute. repeat split; reflexivity. Qed.

(** ** [format_test_name] *)

Section FormatFacts.
Import Text AblationReport.







End FormatFacts.



Section FormatRoundTrip.
Import Text AblationReport.

Lemma strip_prefix_app p s t u :
  strip_prefix p s = Some t -> strip_prefix p (s ++ u)%string = Some (t ++ u)%string.
Proof.
  revert s. induction p as [|a p IH]; intros s; cbn [strip_prefix].
  - intros H; inversion H; reflexivity.
  - destruct s as [|b s]; [discriminate|]. cbn [append].
    destruct (Ascii.eqb a b); [apply IH|discriminate].
Qed.

Lemma contains_cons p c s :
  contains p (String c s) = false ->
  strip_prefix p (String c s) = None /\ contains p s = false.
Proof.
  cbn [contains]. destruct (strip_prefix p (String c s)); [discriminate|]. tauto.
Qed.

(** Where [test_] does not occur, the scan finds nothing. *)
Lemma test_positions_none s : forall i skip,
  contains "test_" s = false -> test_positions i skip s = [].
Proof.
  induction s as [|c s IH]; intros i skip H; [reflexivity|].
  apply contains_cons in H. destruct H as [H1 H2].
  cbn [test_positions]. destruct skip; [rewrite H1|]; now apply IH.
Qed.

Ltac split_eqb :=
  repeat match goal with
         | H : context [Ascii.eqb ?x ?y] |- _ =>
             destruct (Ascii.eqb_spec x y); try discriminate; subst
         | |- context [Ascii.eqb ?x ?y] =>
             destruct (Ascii.eqb_spec x y); try discriminate; subst
         end.

(** A found [test_] that starts in [a] leaves its [est] within [a], since
    the underscore behind [a] can only be its last character. *)
Lemma found_leaves_est c a b t :
  strip_prefix "test_" (String c (a ++ String "_" b)) = Some t -> skip_ok 4 a.
Proof.
  cbn [skip_ok]. intros E.
  destruct a as [|c1 [|c2 [|c3 a]]]; cbn [strip_prefix append] in E |- *;
    split_eqb; congruence.
Qed.

Lemma skip_ok_next k c a : skip_ok (S k) (String c a) -> skip_ok k a.
Proof.
  destruct k as [|[|[|[|k]]]]; cbn [skip_ok strip_prefix]; intros H;
    try exact I; try contradiction; split_eqb; congruence.
Qed.

(** The scan passes a part [a] and the underscore that follows it, and
    goes on behind them with nothing left to skip. *)
Lemma test_positions_through a : forall i skip b,
  skip_ok skip a ->
  exists P,
    test_positions i skip (a ++ String "_" b)
    = P ++ test_positions (i + String.length a + 1) 0 b.
Proof.
  induction a as [|c a IH]; intros i skip b Hok.
  - cbn [append String.length]. replace (i + 0 + 1) with (S i) by lia.
    exists []. cbn [app].
    destruct skip as [|[|[|[|[|k]]]]]; cbn [skip_ok strip_prefix] in Hok;
      try contradiction; try congruence; reflexivity.
  - cbn [append String.length test_positions].
    replace (i + S (String.length a) + 1) with (S i + String.length a + 1) by lia.
    destruct skip as [|k].
    + destruct (strip_prefix "test_" (String c (a ++ String "_" b))) as [t|] eqn:E.
      * destruct (IH (S i) 4 b (found_leaves_est _ _ _ _ E)) as (P & HP).
        exists (i :: P). now rewrite HP.
      * apply (IH (S i) 0 b I).
    + apply (IH (S i) k b (skip_ok_next _ _ _ Hok)).
Qed.

Lemma take_app_length a b : Report.take (String.length a) (a ++ b)%string = a.
Proof. induction a as [|c a IH]; cbn; [now destruct b|now rewrite IH]. Qed.

Lemma drop_app_length a b : Report.drop (String.length a) (a ++ b)%string = b.
Proof. induction a as [|c a IH]; cbn; [now destruct b|exact IH]. Qed.

(** On [stem_func], with a stem and a function that start with [test_] and
    a function without another [test_], the last position found is where
    the function starts. *)
Lemma split_at_function stem func :
  strip_prefix "test_" stem <> None ->
  strip_prefix "test_" func <> None ->
  contains "test_" (Report.drop 1 func) = false ->
  exists p P,
    test_positions 0 0 (stem ++ String "_" func)
    = p :: P ++ [String.length stem + 1].
Proof.
  intros Hs Hf Hn.
  destruct (strip_prefix "test_" stem) as [t|] eqn:Es; [|congruence].
  destruct stem as [|c stem]; [discriminate|].
  pose proof (strip_prefix_app "test_" (String c stem) t (String "_" func) Es)
    as Eapp.
  cbn [append] in Eapp. cbn [append test_positions]. rewrite Eapp.
  pose proof (found_leaves_est c stem func _ Eapp) as Hok.
  destruct (test_positions_through stem 1 4 func Hok) as (P & HP).
  exists 0, P. rewrite HP. f_equal. f_equal.
  destruct func as [|d func]; [now destruct Hf|].
  cbn [test_positions]. destruct (strip_prefix "test_" (String d func)); [|congruence].
  cbn [Report.drop] in Hn. rewrite (test_positions_none func _ 4 Hn).
  cbn [String.length]. f_equal; lia.
Qed.

End FormatRoundTrip.

(** The name of a runner's log of a pytest test, [repo_stem_function],
    is turned back into the runner's test name [repo/stem/function], when
    the repository is one of the two pytest ones, the stem and the function
    start with [test_], and the function holds no further [test_]. *)
Theorem format_test_name_restores_runner_name (repo stem func : string) :
  repo = "liger_kernel" \/ repo = "flag_gems" ->
  Text.strip_prefix "test_" stem <> None ->
  Text.strip_prefix "test_" func <> None ->
  Text.contains "test_" (Report.drop 1 func) = false ->
  AblationReport.format_test_name (repo ++ "_" ++ stem ++ "_" ++ func)%string
  = (repo ++ "/" ++ stem ++ "/" ++ func)%string.
Proof.
  intros Hrepo Hs Hf Hn.
  destruct (split_at_function stem func Hs Hf Hn) as (p & P & HP).
  assert (Hfind : AblationReport.find_repo AblationReport.repos
                    (repo ++ "_" ++ stem ++ "_" ++ func)%string
                  = Some (repo, (stem ++ String "_" func)%string)).
  { destruct Hrepo as [->| ->]; reflexivity. }
  unfold AblationReport.format_test_name. rewrite Hfind.
  assert (Hr : String.eqb repo "tritonbench" = false) by (destruct Hrepo as [->| ->]; reflexivity).
  rewrite Hr, HP.
  assert (Hlast : last (p :: P ++ [String.length stem + 1]) 0 = String.length stem + 1).
  { change (p :: P ++ [String.length stem + 1]) with ((p :: P) ++ [String.length stem + 1]).
    apply last_last. }
  destruct (P ++ [String.length stem + 1]) as [|q rest] eqn:E.
  { destruct P; discriminate. }
  rewrite Hlast.
  replace (String.length stem + 1 - 1) with (String.length stem) by lia.
  rewrite take_app_length.
  replace (String.length stem + 1) with (String.length (stem ++ "_")) by
      (rewrite string_length_app; reflexivity).
  replace (stem ++ String "_" func)%string with ((stem ++ "_") ++ func)%string
    by (now rewrite string_app_assoc).
  now rewrite drop_app_length.
Qed.

Lemma format_test_name_restores_runner_name_witness :
  AblationReport.format_test_name
    ("flag_gems" ++ "_" ++ "test_libentry" ++ "_" ++ "test_threadsafety")%string
  = ("flag_gems" ++ "/" ++ "test_libentry" ++ "/" ++ "test_threadsafety")%string.
Proof.
  apply format_test_name_restores_runner_name;
    [right; reflexivity|discriminate|discriminate|reflexivity].
Defined.

(** ** [extract_memory_usage] *)

Section MemoryFacts.
Import Text Re.

Lemma search_first r s h :
  search r s = Some h ->
  exists pre s', s = (pre ++ s')%string /\ match_start r s' = Some h.
Proof.
  induction s as [|c s IH]; cbn [search].
  - destruct (match_start r EmptyString) eqn:E; [|discriminate].
    intros H; inversion H; subst. now exists EmptyString, EmptyString.
  - destruct (match_start r (String c s)) eqn:E.
    + intros H; inversion H; subst. now exists EmptyString, (String c s).
    + intros H. destruct (IH H) as (pre & s' & -> & Hm).
      now exists (String c pre), s'.
Qed.

Lemma flat_map_first {A B : Type} (f : A -> list B) (l : list A) (y : B) (ys : list B) :
  flat_map f l = y :: ys -> exists x ys', In x l /\ f x = y :: ys'.
Proof.
  induction l as [|x l IH]; cbn [flat_map]; [discriminate|].
  destruct (f x) as [|y' l'] eqn:E.
  - intros H. destruct (IH H) as (x' & ys' & Hin & Hx). exists x', ys'. split; [now right|exact Hx].
  - intros H. cbn in H. inversion H; subst. exists x, l'. split; [now left|exact E].
Qed.

Lemma map_first {A B : Type} (f : A -> B) (l : list A) (y : B) (ys : list B) :
  map f l = y :: ys -> exists x xs, l = x :: xs /\ y = f x.
Proof. destruct l as [|x xs]; cbn; [discriminate|]. intros H; inversion H. now exists x, xs. Qed.

(** What the first match of the pattern at the start of a text is made
    of. *)
Lemma memory_pattern_first s h :
  match_start MemoryUsage.memory_pattern s = Some h ->
  exists ws ds tail,
    s = ("Maximum resident set size (kbytes):" ++ ws ++ ds ++ tail)%string
    /\ all_chars is_space ws = true
    /\ ds <> EmptyString /\ all_chars is_digit ds = true
    /\ first_is is_digit tail = false
    /\ group 1 h = ds.
Proof.
  unfold match_start, MemoryUsage.memory_pattern.
  destruct (run _ s []) as [|h0 hs] eqn:E; [discriminate|].
  intros H; inversion H; subst h0; clear H.
  cbn [run] in E.
  destruct (strip_prefix "Maximum resident set size (kbytes):" s) as [t|] eqn:Et;
    [|discriminate].
  apply strip_prefix_split in Et. subst s.
  cbn [flat_map] in E. rewrite app_nil_r in E. cbn [rest groups matched] in E.
  apply map_first in E. destruct E as (h2 & hs2 & E & ->).
  apply flat_map_first in E. destruct E as (h1 & hs1 & Hin1 & E).
  apply map_first in E. destruct E as (h3 & hs3 & E & ->).
  apply map_first in E. destruct E as (h4 & hs4 & E & ->).
  apply map_first in E. destruct E as ([ds tail] & l & E & ->).
  cbn [fst snd matched rest groups].
  assert (Hds : In (ds, tail) (plus_runs is_digit (rest h1))) by (rewrite E; now left).
  destruct (plus_runs_split _ _ _ _ Hds) as [Hr Hne].
  assert (Hws : exists ws, t = (ws ++ rest h1)%string /\ all_chars is_space ws = true).
  { apply in_app_or in Hin1. destruct Hin1 as [Hin1|[<-|[]]].
    - apply in_map_iff in Hin1. destruct Hin1 as ([ws r] & <- & Hin1). cbn [rest snd fst].
      exists ws. split; [now apply plus_runs_split in Hin1|now apply plus_runs_all in Hin1].
    - now exists EmptyString. }
  destruct Hws as (ws & -> & Hws).
  exists ws, ds, tail. rewrite Hr.
  repeat split; try assumption.
  - now apply plus_runs_all in Hds.
  - now apply plus_runs_first in E.
  - assert (Hg : groups h1 = []).
    { apply in_app_or in Hin1. destruct Hin1 as [Hin1|[<-|[]]]; [|reflexivity].
      apply in_map_iff in Hin1. now destruct Hin1 as (? & <- & _). }
    unfold group. cbn [groups]. now rewrite Hg.
Qed.

End MemoryFacts.

(** No memory figure is read from a file that cannot be read or from a
    text without [Maximum resident set size (kbytes):].  A figure that is
    read is the value of a whole run of digits, one that does not go on,
    found behind an occurrence of that text and any white space; with a
    limit on the digits [int] converts, the run is not longer than the
    limit. *)
Theorem memory_usage_is_a_marked_number (max_str_digits : option nat) (text : string) :
  MemoryUsage.extract_memory_usage max_str_digits None = None
  /\ (Text.contains "Maximum resident set size (kbytes):" text = false ->
      MemoryUsage.extract_memory_usage max_str_digits (Some text) = None)
  /\ (forall n,
        MemoryUsage.extract_memory_usage max_str_digits (Some text) = Some n ->
        exists pre ws ds tail,
          text = (pre ++ "Maximum resident set size (kbytes):" ++ ws ++ ds ++ tail)%string
          /\ all_chars Text.is_space ws = true
          /\ ds <> EmptyString /\ all_chars Text.is_digit ds = true
          /\ first_is Text.is_digit tail = false
          /\ n = PyFloat.int_of_digits ds
          /\ (forall m, max_str_digits = Some m -> String.length ds <= m)).
Proof.
  split; [reflexivity|]. split.
  - intros H. cbn [MemoryUsage.extract_memory_usage].
    destruct (Re.search MemoryUsage.memory_pattern text) as [h|] eqn:E; [|reflexivity].
    apply search_needs_literal in E. congruence.
  - intros n H. cbn [MemoryUsage.extract_memory_usage] in H.
    destruct (Re.search MemoryUsage.memory_pattern text) as [h|] eqn:E; [|discriminate].
    apply search_first in E. destruct E as (pre & s' & -> & E).
    apply memory_pattern_first in E.
    destruct E as (ws & ds & tail & -> & Hws & Hne & Hds & Htail & Hg).
    rewrite Hg in H. exists pre, ws, ds, tail.
    repeat split; try assumption.
    + unfold MemoryUsage.py_int in H. destruct max_str_digits as [m|].
      * destruct (m <? String.length ds); [discriminate|]. now inversion H.
      * now inversion H.
    + intros m ->. unfold MemoryUsage.py_int in H.
      destruct (m <? String.length ds) eqn:Em; [discriminate|].
      apply Nat.ltb_ge in Em. exact Em.
Qed.

Lemma memory_usage_is_a_marked_number_witness :
  MemoryUsage.extract_memory_usage (Some 4300)
    (Some "Elapsed (wall clock) time (h:mm:ss or m:ss): 0:03.21") = None.
Proof.
  apply (memory_usage_is_a_marked_number (Some 4300)
           "Elapsed (wall clock) time (h:mm:ss or m:ss): 0:03.21").
  reflexivity.
Defined.
